(** * The structured-output recovery pipeline of [src/src/lib/supabase.ts]

    A shallow embedding of the routines that turn the text returned by the
    language-model client into the objects the application consumes:
    [cleanJsonResponse], [fixJsonEscaping], [extractContentFromResponse],
    [createFallbackLearningPlan] and the five exported operations
    [generateLearningPlan], [getDetailedSubtopicContent],
    [generateQuizQuestions], [gradeTheoryAnswer] and [askTutorQuestion];
    of the prompt personalisation ([createPersonalizedPrompt],
    [getProfessionContext]) and the profile form that feeds it; and of the
    callers in the components: [handleAnswerSubmit] of the quiz,
    [handleTutorQuestion] of the dashboard and [sanitizeAndCleanText] of
    the content display.

    The JavaScript runtime the code relies on is modelled in [Module Js]:
    strings as sequences of UTF-16 code units, the values [JSON.parse]
    produces, exceptions as an error monad, the string methods the code calls,
    a backtracking matcher for the regular-expression literals of the source
    (the ECMAScript priority order: greedy and lazy quantifiers, alternation
    left to right, look-ahead, anchors and word boundaries), [JSON.parse],
    and the conversions [String], [Number] and [Boolean].

    Numbers are kept as exact decimals [m * 10^e]: the rounding of a literal
    to a binary64 double is not modelled.  *)

From Stdlib Require Import Ascii String.
From Stdlib Require Import List NArith ZArith Bool Lia DecimalString.
Import ListNotations.

Set Implicit Arguments.

Module Js.

(** ** Strings *)

(** A JavaScript string is a sequence of 16-bit code units. *)
Definition code_unit := N.

Definition jsstring := list code_unit.

(** [u "abc"] is the string literal ['abc']. *)
Definition u (s : string) : jsstring :=
  map N_of_ascii (list_ascii_of_string s).

(** [j] reads a literal in which the apostrophe stands for the double quote
    (code unit 34), so that JSON texts can be written down legibly. *)
Definition j (s : string) : jsstring :=
  map (fun c => if N.eqb c 39 then 34%N else c) (u s).

Definition LF : code_unit := 10%N.

Definition DQUOTE : code_unit := 34%N.

Definition BACKSLASH : code_unit := 92%N.

Definition BACKTICK : code_unit := 96%N.

Definition BS : code_unit := 8%N.

Open Scope N_scope.

(** ECMA-262 LineTerminator. *)
Definition isLineTerminator (c : code_unit) : bool :=
  (c =? 10) || (c =? 13) || (c =? 8232) || (c =? 8233).

(** ECMA-262 WhiteSpace together with LineTerminator: what [trim] strips
    and what the class [\s] matches. *)
Definition isWhiteSpace (c : code_unit) : bool :=
  (c =? 9) || (c =? 11) || (c =? 12) || (c =? 32) || (c =? 160)
  || (c =? 5760) || ((8192 <=? c) && (c <=? 8202)) || (c =? 8239)
  || (c =? 8287) || (c =? 12288) || (c =? 65279)
  || isLineTerminator c.

Close Scope N_scope.

Fixpoint eqb_str (a b : jsstring) : bool :=
  match a, b with
  | [], [] => true
  | c :: a', d :: b' => N.eqb c d && eqb_str a' b'
  | _, _ => false
  end.

Fixpoint trimStart (s : jsstring) : jsstring :=
  match s with
  | c :: t => if isWhiteSpace c then trimStart t else s
  | [] => []
  end.

Definition trimEnd (s : jsstring) : jsstring := rev (trimStart (rev s)).

(** [String.prototype.trim] *)
Definition trim (s : jsstring) : jsstring := trimEnd (trimStart s).

(** [s.startsWith(p)] *)
Fixpoint startsWith (s p : jsstring) {struct p} : bool :=
  match p with
  | [] => true
  | c :: p' =>
      match s with
      | d :: s' => N.eqb c d && startsWith s' p'
      | [] => false
      end
  end.

(** [s.endsWith(p)] *)
Definition endsWith (s p : jsstring) : bool := startsWith (rev s) (rev p).

(** The relative index of [slice]: negative indices count from the end. *)
Definition relIndex (len i : Z) : Z :=
  if (i <? 0)%Z then Z.max (len + i) 0 else Z.min i len.

(** [s.slice(start, end)]; [None] is an omitted [end]. *)
Definition slice (s : jsstring) (start : Z) (end_ : option Z) : jsstring :=
  let len := Z.of_nat (length s) in
  let from := relIndex len start in
  let to := match end_ with None => len | Some e => relIndex len e end in
  firstn (Z.to_nat (to - from)) (skipn (Z.to_nat from) s).

(** [s.substring(a, b)] for [0 <= a <= b]. *)
Definition substring (s : jsstring) (a b : nat) : jsstring :=
  firstn (Nat.min b (length s) - Nat.min a (length s)) (skipn a s).

(** [s.indexOf(p, from)]: the first index [>= from] at which [p] occurs. *)
Fixpoint indexOf_from (s p : jsstring) (i : nat) : option nat :=
  if startsWith s p then Some i
  else match s with
       | [] => None
       | _ :: t => indexOf_from t p (S i)
       end.

Definition indexOf (s p : jsstring) : option nat := indexOf_from s p 0.

(** [s.includes(p)] *)
Definition includes (s p : jsstring) : bool :=
  match indexOf s p with Some _ => true | None => false end.

(** [s.lastIndexOf(p)] *)
Fixpoint lastIndexOf_from (s p : jsstring) (i : nat) : option nat :=
  match s with
  | [] => if startsWith s p then Some i else None
  | _ :: t =>
      match lastIndexOf_from t p (S i) with
      | Some k => Some k
      | None => if startsWith s p then Some i else None
      end
  end.

Definition lastIndexOf (s p : jsstring) : option nat := lastIndexOf_from s p 0.

(** [a.join(sep)] on an array of strings. *)
Fixpoint join (sep : jsstring) (l : list jsstring) : jsstring :=
  match l with
  | [] => []
  | [x] => x
  | x :: t => x ++ sep ++ join sep t
  end.

(** [s.split(',')]: the pieces between the occurrences of one code unit. *)
Fixpoint split_on (sep : code_unit) (s : jsstring) : list jsstring :=
  match s with
  | [] => [[]]
  | c :: t =>
      if N.eqb c sep then [] :: split_on sep t
      else match split_on sep t with
           | piece :: rest => (c :: piece) :: rest
           | [] => [[c]]
           end
  end.

(** ** Regular expressions

    The matcher follows the backtracking semantics of ECMA-262 (22.2.2): a
    pattern is run against a continuation, the first alternative that lets
    the continuation succeed wins, a greedy quantifier tries one more
    iteration before it tries the continuation and a lazy one the other way
    round, and an iteration that consumes nothing is rejected. *)

Inductive regex : Type :=
| Empty
| Char (c : code_unit)
| Class (p : code_unit -> bool)
| Seq (r1 r2 : regex)
| Alt (r1 r2 : regex)
| Star (greedy : bool) (r : regex)
| Group (n : nat) (r : regex)
| LookAhead (r : regex)
| AssertStart (multiline : bool)
| AssertEnd (multiline : bool)
| WordBoundary.

(** The state of a match: the index reached, the code unit before it (none
    at index 0), the input from there on and the captures made so far, each
    a pair of a start and an end index. *)
Record mstate : Type := MState {
  pos : nat;
  before : option code_unit;
  rest : jsstring;
  caps : list (nat * (nat * nat))
}.

Definition advance (s : mstate) (c : code_unit) (t : jsstring) : mstate :=
  MState (S (pos s)) (Some c) t (caps s).

Definition set_cap (s : mstate) (n a b : nat) : mstate :=
  MState (pos s) (before s) (rest s) ((n, (a, b)) :: caps s).

Definition with_caps (s : mstate) (c : list (nat * (nat * nat))) : mstate :=
  MState (pos s) (before s) (rest s) c.

(** [\w] *)
Definition isWordChar (c : code_unit) : bool :=
  ((97 <=? c) && (c <=? 122) || (65 <=? c) && (c <=? 90)
   || (48 <=? c) && (c <=? 57) || (c =? 95))%N.

Definition isWordCharAt (c : option code_unit) : bool :=
  match c with Some c => isWordChar c | None => false end.

Definition continuation := mstate -> option mstate.

Fixpoint star_loop (mr : continuation -> continuation) (greedy : bool)
    (fuel : nat) (k : continuation) (s : mstate) : option mstate :=
  match fuel with
  | O => k s
  | S fuel' =>
      if greedy then
        match mr (fun s' => if Nat.eqb (pos s') (pos s) then None
                            else star_loop mr greedy fuel' k s') s with
        | Some e => Some e
        | None => k s
        end
      else
        match k s with
        | Some e => Some e
        | None =>
            mr (fun s' => if Nat.eqb (pos s') (pos s) then None
                          else star_loop mr greedy fuel' k s') s
        end
  end.

Fixpoint m (r : regex) (k : continuation) (s : mstate) {struct r}
  : option mstate :=
  match r with
  | Empty => k s
  | Char c =>
      match rest s with
      | d :: t => if N.eqb c d then k (advance s d t) else None
      | [] => None
      end
  | Class p =>
      match rest s with
      | d :: t => if p d then k (advance s d t) else None
      | [] => None
      end
  | Seq r1 r2 => m r1 (m r2 k) s
  | Alt r1 r2 =>
      match m r1 k s with
      | Some e => Some e
      | None => m r2 k s
      end
  | Star greedy r1 => star_loop (m r1) greedy (S (length (rest s))) k s
  | Group n r1 => m r1 (fun s' => k (set_cap s' n (pos s) (pos s'))) s
  | LookAhead r1 =>
      match m r1 Some s with
      | Some e => k (with_caps s (caps e))
      | None => None
      end
  | AssertStart multiline =>
      match before s with
      | None => k s
      | Some c => if multiline && isLineTerminator c then k s else None
      end
  | AssertEnd multiline =>
      match rest s with
      | [] => k s
      | c :: _ => if multiline && isLineTerminator c then k s else None
      end
  | WordBoundary =>
      if xorb (isWordCharAt (before s)) (isWordCharAt (hd_error (rest s)))
      then k s else None
  end.

(** The leftmost match at or after the index [i]: its start index and the
    final state. *)
Fixpoint search (r : regex) (i : nat) (b : option code_unit) (s : jsstring)
  : option (nat * mstate) :=
  match m r Some (MState i b s []) with
  | Some e => Some (i, e)
  | None =>
      match s with
      | [] => None
      | c :: t => search r (S i) (Some c) t
      end
  end.

Fixpoint lookup_cap (n : nat) (c : list (nat * (nat * nat)))
  : option (nat * nat) :=
  match c with
  | [] => None
  | (n', ab) :: c' => if Nat.eqb n n' then Some ab else lookup_cap n c'
  end.

(** The text of the [n]-th capture of a match, [None] when the group did
    not take part in it. *)
Definition capture (input : jsstring) (e : mstate) (n : nat)
  : option jsstring :=
  match lookup_cap n (caps e) with
  | Some (a, b) => Some (substring input a b)
  | None => None
  end.

(** The capture as the replacer callback sees it.  Every group of the
    patterns below takes part in every match of its pattern. *)
Definition group (input : jsstring) (e : mstate) (n : nat) : jsstring :=
  match capture input e n with Some g => g | None => [] end.

(** The result of [input.match(r)] for a pattern without the [g] flag. *)
Record match_result : Type := MatchResult {
  index : nat;
  matched : jsstring;
  groups : nat -> jsstring
}.

Definition exec (r : regex) (input : jsstring) : option match_result :=
  match search r 0 None input with
  | Some (a, e) =>
      Some (MatchResult a (substring input a (pos e)) (group input e))
  | None => None
  end.

Definition last_unit (d : option code_unit) (s : jsstring)
  : option code_unit :=
  match rev s with c :: _ => Some c | [] => d end.

(** [input.replace(r, f)] for a pattern without the [g] flag: the first
    match is replaced by what the callback returns for it. *)
Definition replace_first (r : regex)
    (f : jsstring -> (nat -> jsstring) -> jsstring) (input : jsstring)
  : jsstring :=
  match search r 0 None input with
  | Some (a, e) =>
      firstn a input ++ f (substring input a (pos e)) (group input e)
        ++ skipn (pos e) input
  | None => input
  end.

(** [input.replace(r, f)] for a pattern with the [g] flag: matches are
    sought from left to right, each search starting where the last match
    ended, one code unit further after an empty match. *)
Fixpoint replace_loop (fuel : nat) (r : regex)
    (f : jsstring -> (nat -> jsstring) -> jsstring) (input : jsstring)
    (i : nat) (b : option code_unit) (s : jsstring) : jsstring :=
  match fuel with
  | O => s
  | S fuel' =>
      match search r i b s with
      | None => s
      | Some (a, e) =>
          let out :=
            firstn (a - i) s
              ++ f (substring input a (pos e)) (group input e) in
          if Nat.eqb (pos e) a then
            match skipn (a - i) s with
            | [] => out
            | c :: t =>
                out ++ c :: replace_loop fuel' r f input (S a) (Some c) t
            end
          else
            out ++ replace_loop fuel' r f input (pos e)
                     (last_unit b (firstn (pos e - i) s))
                     (skipn (pos e - i) s)
      end
  end.

Definition replace_all (r : regex)
    (f : jsstring -> (nat -> jsstring) -> jsstring) (input : jsstring)
  : jsstring :=
  replace_loop (S (length input)) r f input 0 None input.

(** [input.replace(r, text)] with a replacement text free of [$]. *)
Definition replace_all_with (r : regex) (text : jsstring) (input : jsstring)
  : jsstring :=
  replace_all r (fun _ _ => text) input.

(** Pattern syntax. *)
Fixpoint Lit (s : jsstring) : regex :=
  match s with
  | [] => Empty
  | [c] => Char c
  | c :: t => Seq (Char c) (Lit t)
  end.

Fixpoint Cat (l : list regex) : regex :=
  match l with
  | [] => Empty
  | [r] => r
  | r :: t => Seq r (Cat t)
  end.

Definition Plus (r : regex) : regex := Seq r (Star true r).

Definition OneOf (l : list code_unit) : regex :=
  Class (fun c => existsb (N.eqb c) l).

Definition NoneOf (l : list code_unit) : regex :=
  Class (fun c => negb (existsb (N.eqb c) l)).

(** [.] under the [s] flag, and without it. *)
Definition AnyUnit : regex := Class (fun _ => true).

Definition Dot : regex := Class (fun c => negb (isLineTerminator c)).

(** [\s] and [\w] *)
Definition Space : regex := Class isWhiteSpace.

Definition Word : regex := Class isWordChar.

(** ** Numbers

    [Dec m e] is the number [m * 10^e].  [dec] builds the canonical form, in
    which [m] has no trailing zero and zero is [Dec 0 0], so that equal
    numbers are equal terms. *)

Inductive number : Type :=
| NaN
| Infinity (negative : bool)
| Dec (m e : Z).

Open Scope Z_scope.

Fixpoint strip_zeros (fuel : nat) (m e : Z) : Z * Z :=
  match fuel with
  | O => (m, e)
  | S fuel' =>
      if m mod 10 =? 0 then strip_zeros fuel' (m / 10) (e + 1) else (m, e)
  end.

Definition dec (m e : Z) : number :=
  if m =? 0 then Dec 0 0
  else let (m', e') := strip_zeros (Z.to_nat (Z.log2 (Z.abs m))) m e in
       Dec m' e'.

Definition of_Z (z : Z) : number := dec z 0.

(** [x <= y] on numbers other than [NaN]. *)
Definition num_leb (x y : number) : bool :=
  match x, y with
  | NaN, _ | _, NaN => false
  | Infinity true, _ => true
  | _, Infinity false => true
  | Infinity false, _ => false
  | _, Infinity true => false
  | Dec m1 e1, Dec m2 e2 =>
      let e0 := Z.min e1 e2 in
      m1 * 10 ^ (e1 - e0) <=? m2 * 10 ^ (e2 - e0)
  end.

(** [Math.min(x, y)] and [Math.max(x, y)] *)
Definition Math_min (x y : number) : number :=
  match x, y with
  | NaN, _ | _, NaN => NaN
  | _, _ => if num_leb x y then x else y
  end.

Definition Math_max (x y : number) : number :=
  match x, y with
  | NaN, _ | _, NaN => NaN
  | _, _ => if num_leb x y then y else x
  end.

Definition digits_of (n : Z) : jsstring :=
  u (NilZero.string_of_uint (N.to_uint (Z.to_N n))).

Definition zeros (n : Z) : jsstring := repeat 48%N (Z.to_nat n).

(** [Number::toString] (ECMA-262 6.1.6.1.20) on the canonical form: with [s]
    the digits of [|m|], [k] their count and [n = k + e]. *)
Definition NumberToString (x : number) : jsstring :=
  match x with
  | NaN => u "NaN"
  | Infinity false => u "Infinity"
  | Infinity true => u "-Infinity"
  | Dec m e =>
      if m =? 0 then u "0"
      else
        let sign := if m <? 0 then u "-" else [] in
        let s := digits_of (Z.abs m) in
        let k := Z.of_nat (length s) in
        let n := k + e in
        let expo :=
          (101%N :: (if n - 1 <? 0 then u "-" else u "+"))
            ++ digits_of (Z.abs (n - 1)) in
        sign ++
        (if (k <=? n) && (n <=? 21) then s ++ zeros (n - k)
         else if (0 <? n) && (n <=? 21) then
           firstn (Z.to_nat n) s ++ u "." ++ skipn (Z.to_nat n) s
         else if (-6 <? n) && (n <=? 0) then u "0." ++ zeros (- n) ++ s
         else if k =? 1 then s ++ expo
         else firstn 1 s ++ u "." ++ skipn 1 s ++ expo)
  end.

Definition isDigit (c : code_unit) : bool := ((48 <=? c) && (c <=? 57))%N.

(** The longest prefix of decimal digits, and what follows it. *)
Fixpoint take_digits (s : jsstring) : jsstring * jsstring :=
  match s with
  | c :: t =>
      if isDigit c then let (ds, r) := take_digits t in (c :: ds, r)
      else ([], s)
  | [] => ([], [])
  end.

Definition digits_value (ds : jsstring) : Z :=
  fold_left (fun a c => 10 * a + (Z.of_N c - 48)) ds 0.

(** The value of a digit in the base [b], if it is one. *)
Definition digit_in (b : Z) (c : code_unit) : option Z :=
  let c := Z.of_N c in
  let v := if (48 <=? c) && (c <=? 57) then c - 48
           else if (97 <=? c) && (c <=? 102) then c - 87
           else if (65 <=? c) && (c <=? 70) then c - 55
           else b in
  if v <? b then Some v else None.

Fixpoint radix_value (b : Z) (s : jsstring) (acc : Z) : option Z :=
  match s with
  | [] => Some acc
  | c :: t =>
      match digit_in b c with
      | Some v => radix_value b t (b * acc + v)
      | None => None
      end
  end.

(** An optional exponent part [e], [e+] or [e-] followed by digits, then the
    end of the text: the exponent, [None] when the text is not of that
    form. *)
Definition exponent_part (s : jsstring) : option Z :=
  match s with
  | [] => Some 0
  | c :: t =>
      if ((c =? 101) || (c =? 69))%N then
        let (neg, t') :=
          match t with
          | 45%N :: t' => (true, t')
          | 43%N :: t' => (false, t')
          | _ => (false, t)
          end in
        match take_digits t' with
        | ((_ :: _) as ds, []) =>
            Some (if neg then - digits_value ds else digits_value ds)
        | _ => None
        end
      else None
  end.

(** StrUnsignedDecimalLiteral other than [Infinity]. *)
Definition unsigned_decimal (s : jsstring) : option (Z * Z) :=
  let (ip, r) := take_digits s in
  let '(dot, fp, r') :=
    match r with
    | 46%N :: t => let (fp, r') := take_digits t in (true, fp, r')
    | _ => (false, [], r)
    end in
  match ip, fp with
  | [], [] => None
  | _, _ =>
      match exponent_part r' with
      | Some x => Some (digits_value (ip ++ fp), x - Z.of_nat (length fp))
      | None => None
      end
  end.

(** [StringToNumber] (ECMA-262 7.1.4.1.1). *)
Definition StringToNumber (str : jsstring) : number :=
  let s := trim str in
  match s with
  | [] => Dec 0 0
  | 48%N :: x :: t =>
      let radix :=
        if ((x =? 120) || (x =? 88))%N then Some 16
        else if ((x =? 111) || (x =? 79))%N then Some 8
        else if ((x =? 98) || (x =? 66))%N then Some 2
        else None in
      match radix with
      | Some b =>
          match t with
          | [] => NaN
          | _ => match radix_value b t 0 with
                 | Some v => of_Z v
                 | None => NaN
                 end
          end
      | None =>
          match unsigned_decimal s with
          | Some (m, e) => dec m e
          | None => NaN
          end
      end
  | c :: t =>
      let (neg, body) :=
        if (c =? 45)%N then (true, t)
        else if (c =? 43)%N then (false, t)
        else (false, s) in
      if eqb_str body (u "Infinity") then Infinity neg
      else match unsigned_decimal body with
           | Some (m, e) => dec (if neg then - m else m) e
           | None => NaN
           end
  end.

Close Scope Z_scope.

(** ** Exceptions *)

Inductive error : Type :=
| SyntaxError
| TypeError
| ReferenceError (identifier : jsstring)
| Error (message : jsstring).

Inductive result (A : Type) : Type :=
| Return (a : A)
| Throw (e : error).

Arguments Return {A} a.
Arguments Throw {A} e.

Definition bind {A B : Type} (x : result A) (f : A -> result B) : result B :=
  match x with
  | Return a => f a
  | Throw e => Throw e
  end.

Notation "x <- c ;; k" := (bind c (fun x => k))
  (at level 61, c at next level, right associativity).

(** [try { body } catch (error) { handler }] *)
Definition try_catch {A : Type} (body : result A) (handler : error -> result A)
  : result A :=
  match body with
  | Return a => Return a
  | Throw e => handler e
  end.

(** ** Values *)

#[local] Set Warnings "-register-all".

Inductive value : Type :=
| Undefined
| Null
| Bool (b : bool)
| Num (n : number)
| Str (s : jsstring)
| Arr (elements : list value)
| Obj (properties : list (jsstring * value)).

Fixpoint lookup (k : jsstring) (ps : list (jsstring * value))
  : option value :=
  match ps with
  | [] => None
  | (k', v) :: ps' => if eqb_str k k' then Some v else lookup k ps'
  end.

(** Defining the property [k]: an existing property keeps its place and
    takes the new value, a new one goes last. *)
Fixpoint set_prop (k : jsstring) (v : value) (ps : list (jsstring * value))
  : list (jsstring * value) :=
  match ps with
  | [] => [(k, v)]
  | (k', v') :: ps' =>
      if eqb_str k k' then (k', v) :: ps' else (k', v') :: set_prop k v ps'
  end.

(** [v.k] for the property names the source reads ([content], [score],
    [mcq], ...): none of them is defined on a prototype, so only an own
    property of a parsed object yields a value, and reading a property of
    [undefined] or [null] is a [TypeError]. *)
Definition get (v : value) (k : jsstring) : result value :=
  match v with
  | Undefined | Null => Throw TypeError
  | Obj ps => Return (match lookup k ps with Some x => x | None => Undefined end)
  | _ => Return Undefined
  end.

(** [Boolean(v)] *)
Definition ToBoolean (v : value) : bool :=
  match v with
  | Undefined | Null => false
  | Bool b => b
  | Num NaN => false
  | Num (Dec m _) => negb (m =? 0)%Z
  | Num (Infinity _) => true
  | Str [] => false
  | Str _ => true
  | Arr _ | Obj _ => true
  end.

(** [a || b] *)
Definition or_else (a b : value) : value := if ToBoolean a then a else b.

(** [Array.isArray(v)] *)
Definition isArray (v : value) : bool :=
  match v with Arr _ => true | _ => false end.

(** [String(v)].  An array is joined with commas, [undefined] and [null]
    elements giving the empty string.  An object made by [JSON.parse] has
    [Object.prototype] behind it: it prints as ['[object Object]'] unless it
    has an own property [toString], which is never callable, and then the
    conversion finds no primitive and raises a [TypeError]. *)
Fixpoint ToString (v : value) : result jsstring :=
  match v with
  | Undefined => Return (u "undefined")
  | Null => Return (u "null")
  | Bool true => Return (u "true")
  | Bool false => Return (u "false")
  | Num n => Return (NumberToString n)
  | Str s => Return s
  | Arr l =>
      (fix elements (l : list value) : result jsstring :=
         match l with
         | [] => Return []
         | x :: t =>
             sx <- match x with
                   | Undefined | Null => Return []
                   | _ => ToString x
                   end ;;
             match t with
             | [] => Return sx
             | _ => st <- elements t ;; Return (sx ++ 44%N :: st)
             end
         end) l
  | Obj ps =>
      match lookup (u "toString") ps with
      | Some _ => Throw TypeError
      | None => Return (u "[object Object]")
      end
  end.

(** [Number(v)].  An array or object is first reduced to a primitive:
    [valueOf] gives back the object itself, so the text of [toString] is
    what gets converted. *)
Definition ToNumber (v : value) : result number :=
  match v with
  | Undefined => Return NaN
  | Null => Return (Dec 0 0)
  | Bool true => Return (Dec 1 0)
  | Bool false => Return (Dec 0 0)
  | Num n => Return n
  | Str s => Return (StringToNumber s)
  | Arr _ | Obj _ => s <- ToString v ;; Return (StringToNumber s)
  end.

(** ** [JSON.parse] *)

Definition isJsonSpace (c : code_unit) : bool :=
  ((c =? 32) || (c =? 9) || (c =? 10) || (c =? 13))%N.

Fixpoint skip_ws (s : jsstring) : jsstring :=
  match s with
  | c :: t => if isJsonSpace c then skip_ws t else s
  | [] => []
  end.

Definition hex4 (a b c d : code_unit) : option code_unit :=
  match digit_in 16 a, digit_in 16 b, digit_in 16 c, digit_in 16 d with
  | Some x, Some y, Some z, Some w =>
      Some (Z.to_N (((x * 16 + y) * 16 + z) * 16 + w))
  | _, _, _, _ => None
  end.

(** The escape [\c] of a string literal, other than [\u]. *)
Definition simple_escape (c : code_unit) : option code_unit :=
  (if c =? 34 then Some 34
   else if c =? 92 then Some 92
   else if c =? 47 then Some 47
   else if c =? 98 then Some 8
   else if c =? 102 then Some 12
   else if c =? 110 then Some 10
   else if c =? 114 then Some 13
   else if c =? 116 then Some 9
   else None)%N.

Definition cons_unit (c : code_unit) (r : option (jsstring * jsstring))
  : option (jsstring * jsstring) :=
  match r with
  | Some (x, r') => Some (c :: x, r')
  | None => None
  end.

(** The rest of a string literal after its opening quote: the string it
    denotes and the text after the closing quote.  A control character
    below U+0020 may not stand unescaped. *)
Fixpoint parse_string (s : jsstring) : option (jsstring * jsstring) :=
  match s with
  | [] => None
  | c :: t =>
      if (c =? 34)%N then Some ([], t)
      else if (c =? 92)%N then
        match t with
        | [] => None
        | e :: t1 =>
            if (e =? 117)%N then
              match t1 with
              | a :: b :: c :: d :: t2 =>
                  match hex4 a b c d with
                  | Some x => cons_unit x (parse_string t2)
                  | None => None
                  end
              | _ => None
              end
            else
              match simple_escape e with
              | Some x => cons_unit x (parse_string t1)
              | None => None
              end
        end
      else if (c <? 32)%N then None
      else cons_unit c (parse_string t)
  end.

(** A non-empty run of digits at the head of the text. *)
Definition some_digits (s : jsstring) : option (jsstring * jsstring) :=
  match take_digits s with
  | ([], _) => None
  | p => Some p
  end.

(** A number literal at the head of the text: an optional minus sign, the
    digit 0 or a run of digits, an optional fraction and an optional
    exponent. *)
Definition parse_number (s : jsstring) : option (number * jsstring) :=
  let (neg, s1) :=
    match s with
    | c :: t => if (c =? 45)%N then (true, t) else (false, s)
    | [] => (false, s)
    end in
  let int_part :=
    match s1 with
    | c :: t => if (c =? 48)%N then Some ([c], t) else some_digits s1
    | [] => None
    end in
  match int_part with
  | None => None
  | Some (ip, s2) =>
      let frac_part :=
        match s2 with
        | c :: t => if (c =? 46)%N then some_digits t else Some ([], s2)
        | [] => Some ([], s2)
        end in
      match frac_part with
      | None => None
      | Some (fp, s3) =>
          let exp_part :=
            match s3 with
            | c :: t =>
                if ((c =? 101) || (c =? 69))%N then
                  let (eneg, t') :=
                    match t with
                    | c' :: t' =>
                        if (c' =? 45)%N then (true, t')
                        else if (c' =? 43)%N then (false, t')
                        else (false, t)
                    | [] => (false, t)
                    end in
                  match some_digits t' with
                  | None => None
                  | Some (ds, r) =>
                      Some ((if eneg then - digits_value ds
                             else digits_value ds)%Z, r)
                  end
                else Some (0%Z, s3)
            | [] => Some (0%Z, s3)
            end in
          match exp_part with
          | None => None
          | Some (x, s4) =>
              let mag := digits_value (ip ++ fp) in
              Some (dec (if neg then - mag else mag)%Z
                        (x - Z.of_nat (length fp))%Z, s4)
          end
      end
  end.

(** The elements of an array after the first bracket, and the members of an
    object after the first brace; [pv] parses one value.  Each round takes
    at least one code unit, so a fuel of the length of the text is never
    used up. *)
Fixpoint parse_elements (pv : jsstring -> option (value * jsstring))
    (fuel : nat) (s : jsstring) (acc : list value)
  : option (value * jsstring) :=
  match fuel with
  | O => None
  | S fuel' =>
      match pv s with
      | None => None
      | Some (v, r) =>
          match skip_ws r with
          | c :: r' =>
              if (c =? 44)%N then parse_elements pv fuel' r' (acc ++ [v])
              else if (c =? 93)%N then Some (Arr (acc ++ [v]), r')
              else None
          | [] => None
          end
      end
  end.

Fixpoint parse_members (pv : jsstring -> option (value * jsstring))
    (fuel : nat) (s : jsstring) (acc : list (jsstring * value))
  : option (value * jsstring) :=
  match fuel with
  | O => None
  | S fuel' =>
      match skip_ws s with
      | c :: t =>
          if (c =? 34)%N then
            match parse_string t with
            | None => None
            | Some (k, r) =>
                match skip_ws r with
                | c1 :: r1 =>
                    if (c1 =? 58)%N then
                      match pv r1 with
                      | None => None
                      | Some (v, r2) =>
                          match skip_ws r2 with
                          | c3 :: r3 =>
                              if (c3 =? 44)%N then
                                parse_members pv fuel' r3 (set_prop k v acc)
                              else if (c3 =? 125)%N then
                                Some (Obj (set_prop k v acc), r3)
                              else None
                          | [] => None
                          end
                      end
                    else None
                | [] => None
                end
            end
          else None
      | [] => None
      end
  end.

(** The first code unit of [s], if any, is [c]. *)
Definition head_is (c : code_unit) (s : jsstring) : bool :=
  match s with
  | d :: _ => N.eqb c d
  | [] => false
  end.

(** One value, white space before it allowed.  Every nested value starts
    after at least one more code unit of the text, so a fuel above the
    length of the text is never used up. *)
Fixpoint parse_value (fuel : nat) (s : jsstring)
  : option (value * jsstring) :=
  match fuel with
  | O => None
  | S fuel' =>
      match skip_ws s with
      | [] => None
      | c :: t =>
          if (c =? 123)%N then
            if head_is 125%N (skip_ws t) then Some (Obj [], tl (skip_ws t))
            else parse_members (parse_value fuel') (length t) t []
          else if (c =? 91)%N then
            if head_is 93%N (skip_ws t) then Some (Arr [], tl (skip_ws t))
            else parse_elements (parse_value fuel') (length t) t []
          else if (c =? 34)%N then
            match parse_string t with
            | Some (x, r) => Some (Str x, r)
            | None => None
            end
          else if startsWith (c :: t) (u "true") then
            Some (Bool true, skipn 4 (c :: t))
          else if startsWith (c :: t) (u "false") then
            Some (Bool false, skipn 5 (c :: t))
          else if startsWith (c :: t) (u "null") then
            Some (Null, skipn 4 (c :: t))
          else
            match parse_number (c :: t) with
            | Some (n, r) => Some (Num n, r)
            | None => None
            end
      end
  end.

(** [JSON.parse(text)]: the value denoted by the whole text, or a
    [SyntaxError]. *)
Definition JSON_parse (text : jsstring) : result value :=
  match parse_value (S (length text)) text with
  | Some (v, r) =>
      match skip_ws r with
      | [] => Return v
      | _ => Throw SyntaxError
      end
  | None => Throw SyntaxError
  end.

End Js.

(** * The source: [src/lib/groq.ts] *)

Import Js.

(** ** [cleanJsonResponse] *)

Definition cleanJsonResponse (content : jsstring) : jsstring :=
  let trimmed := trim content in
  let trimmed :=
    if startsWith trimmed (u "```json") then trim (slice trimmed 7 None)
    else if startsWith trimmed (u "```") then trim (slice trimmed 3 None)
    else trimmed in
  let trimmed :=
    if endsWith trimmed (u "```") then trim (slice trimmed 0 (Some (-3)%Z))
    else trimmed in
  trimmed.

(** ** [fixJsonEscaping] *)

(** The chain of seven [replace] calls that each callback of
    [fixJsonEscaping] applies to the captured text.  The last pattern of the
    chain is [/\b/g]: outside a character class [\b] is the word-boundary
    assertion, so that call puts the two code units [\b] at every word
    boundary of the text. *)
Definition escapedContent (content : jsstring) : jsstring :=
  let c := replace_all_with (Char BACKSLASH) (u "\\") content in
  let c := replace_all_with (Char DQUOTE) [BACKSLASH; DQUOTE] c in
  let c := replace_all_with (Char 10%N) (u "\n") c in
  let c := replace_all_with (Char 13%N) (u "\r") c in
  let c := replace_all_with (Char 9%N) (u "\t") c in
  let c := replace_all_with (Char 12%N) (u "\f") c in
  let c := replace_all_with WordBoundary (u "\b") c in
  c.

(** The patterns of the source are quoted in the comments with an
    apostrophe for each double quote and a blank between a star and a
    closing parenthesis.

    The tail [`([^`]* (?:\\.[^`]* )* )`] of the two back-tick patterns, with
    its group numbered [n]. *)
Definition backtick_body (n : nat) : regex :=
  Cat [Char BACKTICK;
       Group n (Seq (Star true (NoneOf [BACKTICK]))
                    (Star true (Cat [Char BACKSLASH; AnyUnit;
                                     Star true (NoneOf [BACKTICK])])));
       Char BACKTICK].

(** [/'content':\s*`([^`]* (?:\\.[^`]* )* )`/gs] *)
Definition re_content_backtick : regex :=
  Cat [Lit (j "'content':"); Star true Space; backtick_body 1].

(** [/'(\w+)':\s*`([^`]* (?:\\.[^`]* )* )`/gs] *)
Definition re_field_backtick : regex :=
  Cat [Char DQUOTE; Group 1 (Plus Word); Lit (j "':"); Star true Space;
       backtick_body 2].

(** [/'name':\s*'([^']* (?:\\.[^']* )* )'/], without the [s] flag, for the
    names [content] and [answer]. *)
Definition re_quoted (name : jsstring) : regex :=
  Cat [Char DQUOTE; Lit name; Lit (j "':"); Star true Space; Char DQUOTE;
       Group 1 (Seq (Star true (NoneOf [DQUOTE]))
                    (Star true (Cat [Char BACKSLASH; Dot;
                                     Star true (NoneOf [DQUOTE])])));
       Char DQUOTE].

(** [/'content':\s*'([^']* )'/g] *)
Definition re_content_plain : regex :=
  Cat [Lit (j "'content':"); Star true Space; Char DQUOTE;
       Group 1 (Star true (NoneOf [DQUOTE])); Char DQUOTE].

(** [/^[\s*-]+/gm] *)
Definition re_list_marker : regex :=
  Seq (AssertStart true)
      (Plus (Class (fun c => isWhiteSpace c || N.eqb c 42 || N.eqb c 45))).

(** [/.*'[^']+'\s*:\s*(?:'[^']*'|[^,}]+)(?=\s*[,}])/s] *)
Definition re_last_complete_field : regex :=
  Cat [Star true AnyUnit; Char DQUOTE; Plus (NoneOf [DQUOTE]); Char DQUOTE;
       Star true Space; Char 58%N; Star true Space;
       Alt (Cat [Char DQUOTE; Star true (NoneOf [DQUOTE]); Char DQUOTE])
           (Plus (NoneOf [44%N; 125%N]));
       LookAhead (Seq (Star true Space) (OneOf [44%N; 125%N]))].

(** The callback of the two patterns for already quoted fields. *)
Definition reescape (name : jsstring) (whole : jsstring)
    (g : nat -> jsstring) : jsstring :=
  let content := g 1%nat in
  if includes content (u "\n") || includes content [BACKSLASH; DQUOTE]
  then whole
  else DQUOTE :: name ++ j "': '" ++ escapedContent content ++ [DQUOTE].

Definition fixJsonEscaping (jsonString : jsstring) : jsstring :=
  match JSON_parse jsonString with
  | Return _ => jsonString
  | Throw _ =>
      let fixed := jsonString in
      let fixed :=
        replace_all re_content_backtick
          (fun _ g => j "'content': '" ++ escapedContent (g 1%nat) ++ [DQUOTE])
          fixed in
      let fixed :=
        replace_all re_field_backtick
          (fun _ g => DQUOTE :: g 1%nat ++ j "': '"
                        ++ escapedContent (g 2%nat) ++ [DQUOTE])
          fixed in
      let fixed :=
        replace_first (re_quoted (u "content")) (reescape (u "content"))
          fixed in
      let fixed :=
        replace_first (re_quoted (u "answer")) (reescape (u "answer"))
          fixed in
      let fixed :=
        replace_all re_content_plain
          (fun _ g =>
             let cleaned := replace_all_with re_list_marker [] (g 1%nat) in
             j "'content': '" ++ cleaned ++ [DQUOTE])
          fixed in
      if negb (endsWith (trim fixed) (u "}"))
         && negb (endsWith (trim fixed) (u "]"))
      then
        match exec re_last_complete_field fixed with
        | Some lastCompleteFieldMatch =>
            let lastCompleteIndex :=
              index lastCompleteFieldMatch
                + length (matched lastCompleteFieldMatch) in
            substring fixed 0 lastCompleteIndex ++ u "}"
        | None =>
            match indexOf fixed (u "{") with
            | Some openBraceIndex =>
                let cutIndex :=
                  match lastIndexOf fixed (u ",") with
                  | Some lastCommaIndex =>
                      if Nat.ltb openBraceIndex lastCommaIndex
                      then lastCommaIndex else S openBraceIndex
                  | None => S openBraceIndex
                  end in
                substring fixed 0 cutIndex ++ u "}"
            | None => fixed
            end
        end
      else fixed
  end.

(** ** The model client

    [groq] is the module constant [groqApiKey ? new Groq(...) : null].  The
    prompt an operation builds is only sent to the service; what comes back
    from [await groq.chat.completions.create(...)] is an argument of the
    operation: the call is rejected, or it resolves to a completion with its
    list of choices, each carrying [message.content], a string or [null]. *)

Record Groq : Type := { apiKey : jsstring }.

Definition groq_of (groqApiKey : option jsstring) : option Groq :=
  match groqApiKey with
  | Some (c :: k) => Some {| apiKey := c :: k |}
  | _ => None
  end.

Record choice : Type := { message_content : option jsstring }.

Inductive reply : Type :=
| Rejected (e : error)
| Completion (choices : list choice).

(** [completion.choices[0]?.message?.content] *)
Definition first_content (choices : list choice) : option jsstring :=
  match choices with
  | c :: _ => message_content c
  | [] => None
  end.

(** [const x = completion.choices[0]?.message?.content;
     if (!x) throw new Error('No response from Groq API')] *)
Definition content_or_throw (choices : list choice) : result jsstring :=
  match first_content choices with
  | Some (c :: t) => Return (c :: t)
  | _ => Throw (Error (u "No response from Groq API"))
  end.

Record learning_preferences_t : Type := {
  includeCode : bool;
  preferredExampleTypes : list jsstring;
  focusAreas : list jsstring
}.

Record UserProfile : Type := {
  highest_qualification : jsstring;
  specialization : jsstring;
  profession : jsstring;
  learning_preferences : learning_preferences_t
}.

Definition strings (l : list jsstring) : value := Arr (map Str l).

Definition UserProfile_value (p : option UserProfile) : value :=
  match p with
  | None => Undefined
  | Some p =>
      Obj [(u "highest_qualification", Str (highest_qualification p));
           (u "specialization", Str (specialization p));
           (u "profession", Str (profession p));
           (u "learning_preferences",
            Obj [(u "includeCode",
                  Bool (includeCode (learning_preferences p)));
                 (u "preferredExampleTypes",
                  strings (preferredExampleTypes (learning_preferences p)));
                 (u "focusAreas",
                  strings (focusAreas (learning_preferences p)))])]
  end.

(** ** Identifiers

    A scope lists the bindings visible at a point of the program.  Reading
    an identifier that no enclosing scope declares raises a
    [ReferenceError]; [typeof] of such an identifier is ['undefined']. *)

Definition scope := list (jsstring * value).

Definition typeof (v : value) : jsstring :=
  match v with
  | Undefined => u "undefined"
  | Null | Arr _ | Obj _ => u "object"
  | Bool _ => u "boolean"
  | Num _ => u "number"
  | Str _ => u "string"
  end.

Definition typeof_identifier (sc : scope) (x : jsstring) : jsstring :=
  match lookup x sc with
  | Some v => typeof v
  | None => u "undefined"
  end.

Definition identifier (sc : scope) (x : jsstring) : result value :=
  match lookup x sc with
  | Some v => Return v
  | None => Throw (ReferenceError x)
  end.

(** The value caught by a [catch (error)] clause. *)
Definition error_value (e : error) : value :=
  match e with
  | SyntaxError => Obj [(u "name", Str (u "SyntaxError"))]
  | TypeError => Obj [(u "name", Str (u "TypeError"))]
  | ReferenceError x =>
      Obj [(u "name", Str (u "ReferenceError"));
           (u "message", Str (x ++ u " is not defined"))]
  | Error msg => Obj [(u "name", Str (u "Error")); (u "message", Str msg)]
  end.

(** ** [createFallbackLearningPlan] *)

Definition fallbackDay (topic : jsstring) (i : Z) : value :=
  Obj [(u "day", Num (of_Z i));
       (u "title",
        Str (u "Day " ++ NumberToString (of_Z i) ++ u ": Introduction to "
               ++ topic));
       (u "subtopics",
        strings [u "Basic concepts of " ++ topic;
                 u "Getting started with " ++ topic;
                 u "Practical applications"]);
       (u "explanations",
        strings [u "Learn the fundamental concepts and principles of "
                   ++ topic ++ u ".";
                 u "Set up your development environment and create your first project.";
                 u "Explore real-world applications and use cases."])].

(** The loop [for (let i = 1; i <= Math.min(durationDays, 7); i++)] from
    the value [i] on.  The bound of the loop is at most 7, so seven rounds
    from [i = 1] reach the end of it. *)
Fixpoint fallbackDays (rounds : nat) (topic : jsstring)
    (durationDays : number) (i : Z) : list value :=
  match rounds with
  | O => []
  | S rounds' =>
      if num_leb (of_Z i) (Math_min durationDays (Dec 7 0))
      then fallbackDay topic i
             :: fallbackDays rounds' topic durationDays (i + 1)
      else []
  end.

Definition createFallbackLearningPlan (topic : jsstring)
    (durationDays : number) : value :=
  let days := fallbackDays 7 topic durationDays 1 in
  Obj [(u "days", Arr days)].

(** ** [generateLearningPlan] *)

(** The [try] block of [generateLearningPlan]. *)
Definition generateLearningPlan_try (service : reply) : result value :=
  match service with
  | Rejected e => Throw e
  | Completion choices =>
      content <- content_or_throw choices ;;
      let cleanedContent := cleanJsonResponse content in
      JSON_parse cleanedContent
  end.

Definition generateLearningPlan (groq : option Groq) (service : reply)
    (topic : jsstring) (durationDays : number) (level dailyTime : jsstring)
    (userProfile : option UserProfile) : result value :=
  match groq with
  | None => Return (createFallbackLearningPlan topic durationDays)
  | Some _ =>
      try_catch
        (generateLearningPlan_try service)
        (fun error =>
           Return (createFallbackLearningPlan topic durationDays))
  end.

(** ** [extractContentFromResponse] *)

(** [/'content':\s*[`'] ([^`']* (?:\\.[^`']* )* ) [`']/s] (written here
    with blanks around the group). *)
Definition re_extract_content : regex :=
  Cat [Lit (j "'content':"); Star true Space; OneOf [BACKTICK; DQUOTE];
       Group 1 (Seq (Star true (NoneOf [BACKTICK; DQUOTE]))
                    (Star true (Cat [Char BACKSLASH; AnyUnit;
                                     Star true (NoneOf [BACKTICK; DQUOTE])])));
       OneOf [BACKTICK; DQUOTE]].

(** [/'name':\s*\[(.*?)\]/s] *)
Definition re_extract_array (name : jsstring) : regex :=
  Cat [Char DQUOTE; Lit name; Lit (j "':"); Star true Space; Char 91%N;
       Group 1 (Star false AnyUnit); Char 93%N].

(** [/^['a]|['a]$/g], the class holding the double quote and the
    apostrophe. *)
Definition re_wrapping_quote : regex :=
  Alt (Seq (AssertStart false) (OneOf [DQUOTE; 39%N]))
      (Seq (OneOf [DQUOTE; 39%N]) (AssertEnd false)).

Definition nonempty (s : jsstring) : bool :=
  match s with [] => false | _ => true end.

(** The local function [extractArray], on the first capture of a match. *)
Definition extractArray (mt : option jsstring) : list jsstring :=
  match mt with
  | None => []
  | Some text =>
      filter nonempty
        (map (fun item => replace_all_with re_wrapping_quote [] (trim item))
             (split_on 44%N text))
  end.

Definition first_group (mt : option match_result) : option jsstring :=
  match mt with
  | Some r => Some (groups r 1%nat)
  | None => None
  end.

Definition extractContentFromResponse (response : jsstring) : value :=
  let contentMatch := exec re_extract_content response in
  let keyPointsMatch := exec (re_extract_array (u "keyPoints")) response in
  let examplesMatch := exec (re_extract_array (u "examples")) response in
  let practicalMatch :=
    exec (re_extract_array (u "practicalApplications")) response in
  Obj [(u "content",
        Str (match contentMatch with
             | Some r =>
                 replace_all_with (Lit [BACKSLASH; DQUOTE]) [DQUOTE]
                   (replace_all_with (Lit (u "\n")) [LF] (groups r 1%nat))
             | None => u "Content could not be extracted from the response."
             end));
       (u "keyPoints", strings (extractArray (first_group keyPointsMatch)));
       (u "examples", strings (extractArray (first_group examplesMatch)));
       (u "practicalApplications",
        strings (extractArray (first_group practicalMatch)))].

(** ** [getDetailedSubtopicContent] *)

(** [Array.isArray(v) ? v.filter(Boolean) : []] *)
Definition truthy_elements (v : value) : value :=
  match v with
  | Arr l => Arr (filter ToBoolean l)
  | _ => Arr []
  end.

(** The object built from the parsed response at the end of the [try]
    block. *)
Definition detailedContent_of (parsed : value) : result value :=
  c <- get parsed (u "content") ;;
  content <- ToString (or_else c (Str (u "Content not available"))) ;;
  keyPoints <- get parsed (u "keyPoints") ;;
  examples <- get parsed (u "examples") ;;
  practicalApplications <- get parsed (u "practicalApplications") ;;
  Return (Obj [(u "content", Str content);
               (u "keyPoints", truthy_elements keyPoints);
               (u "examples", truthy_elements examples);
               (u "practicalApplications",
                truthy_elements practicalApplications)]).

(** The bindings visible in the [catch] block of
    [getDetailedSubtopicContent]: the parameters of the function and the
    caught error.  [completion], [response], [cleanedResponse],
    [fixedResponse] and [parsed] are [const] declarations of the [try]
    block and end with it. *)
Definition getDetailedSubtopicContent_catch_scope
    (topic dayTitle subtopic level : jsstring)
    (userProfile : option UserProfile) (error : error) : scope :=
  [(u "topic", Str topic); (u "dayTitle", Str dayTitle);
   (u "subtopic", Str subtopic); (u "level", Str level);
   (u "userProfile", UserProfile_value userProfile);
   (u "error", error_value error)].

(** The [try] block of [getDetailedSubtopicContent]. *)
Definition getDetailedSubtopicContent_try (service : reply) : result value :=
  match service with
  | Rejected e => Throw e
  | Completion choices =>
      response <- content_or_throw choices ;;
      let cleanedResponse := cleanJsonResponse response in
      let fixedResponse := fixJsonEscaping cleanedResponse in
      parsed <- JSON_parse fixedResponse ;;
      detailedContent_of parsed
  end.

Definition getDetailedSubtopicContent (groq : option Groq) (service : reply)
    (topic dayTitle subtopic level : jsstring)
    (userProfile : option UserProfile) : result value :=
  match groq with
  | None =>
      Return
        (Obj [(u "content",
               Str (u "# " ++ subtopic ++ [LF; LF]
                      ++ u "This is a detailed explanation of " ++ subtopic
                      ++ u " in the context of " ++ topic
                      ++ u ". The content would normally be generated by AI, but the API is not currently available."));
              (u "keyPoints",
               strings [u "Key concept 1 about " ++ subtopic;
                        u "Key concept 2 about " ++ subtopic]);
              (u "examples",
               strings [u "Example 1 for " ++ subtopic;
                        u "Example 2 for " ++ subtopic]);
              (u "practicalApplications",
               strings [u "Application 1 of " ++ subtopic;
                        u "Application 2 of " ++ subtopic])])
  | Some _ =>
      try_catch
        (getDetailedSubtopicContent_try service)
        (fun error =>
           let sc :=
             getDetailedSubtopicContent_catch_scope topic dayTitle subtopic
               level userProfile error in
           let fallbackContent :=
             Obj [(u "content", Str []); (u "keyPoints", Arr []);
                  (u "examples", Arr []);
                  (u "practicalApplications", Arr [])] in
           fallbackContent <-
             try_catch
               (if eqb_str (typeof_identifier sc (u "response")) (u "string")
                then
                  response <- identifier sc (u "response") ;;
                  match response with
                  | Str response =>
                      Return (extractContentFromResponse response)
                  | _ => Return fallbackContent
                  end
                else Return fallbackContent)
               (fun e => Return fallbackContent) ;;
           c <- get fallbackContent (u "content") ;;
           keyPoints <- get fallbackContent (u "keyPoints") ;;
           examples <- get fallbackContent (u "examples") ;;
           practicalApplications <-
             get fallbackContent (u "practicalApplications") ;;
           Return
             (Obj [(u "content",
                    or_else c
                      (Str (u "Content could not be extracted from the response.")));
                   (u "keyPoints", keyPoints);
                   (u "examples", examples);
                   (u "practicalApplications", practicalApplications)]))
  end.

(** ** [generateQuizQuestions] *)

Fixpoint mapM {A B : Type} (f : A -> result B) (l : list A)
  : result (list B) :=
  match l with
  | [] => Return []
  | x :: t => y <- f x ;; ys <- mapM f t ;; Return (y :: ys)
  end.

(** [String(v || '')] *)
Definition string_or_empty (v : value) : result value :=
  s <- ToString (or_else v (Str [])) ;; Return (Str s).

(** [Array.isArray(v) ? v.map(String) : []] *)
Definition map_String (v : value) : result value :=
  match v with
  | Arr l => l' <- mapM (fun x => s <- ToString x ;; Return (Str s)) l ;;
             Return (Arr l')
  | _ => Return (Arr [])
  end.

Definition mcq_of (q : value) : result value :=
  question <- get q (u "question") ;;
  question <- string_or_empty question ;;
  options <- get q (u "options") ;;
  options <- map_String options ;;
  correct_answer <- get q (u "correct_answer") ;;
  correct_answer <- string_or_empty correct_answer ;;
  explanation <- get q (u "explanation") ;;
  explanation <- string_or_empty explanation ;;
  Return (Obj [(u "question", question); (u "options", options);
               (u "correct_answer", correct_answer);
               (u "explanation", explanation)]).

Definition theory_of (q : value) : result value :=
  question <- get q (u "question") ;;
  question <- string_or_empty question ;;
  correct_answer <- get q (u "correct_answer") ;;
  correct_answer <- string_or_empty correct_answer ;;
  key_points <- get q (u "key_points") ;;
  key_points <- map_String key_points ;;
  Return (Obj [(u "question", question);
               (u "correct_answer", correct_answer);
               (u "key_points", key_points)]).

(** [Array.isArray(v) ? v.map(f) : []] *)
Definition map_or_empty (f : value -> result value) (v : value)
  : result value :=
  match v with
  | Arr l => l' <- mapM f l ;; Return (Arr l')
  | _ => Return (Arr [])
  end.

Definition quiz_of (parsed : value) : result value :=
  mcq <- get parsed (u "mcq") ;;
  mcq <- map_or_empty mcq_of mcq ;;
  theory <- get parsed (u "theory") ;;
  theory <- map_or_empty theory_of theory ;;
  Return (Obj [(u "mcq", mcq); (u "theory", theory)]).

(** The locally built question set; the two places that build it differ in
    the text of the first question only. *)
Definition basicQuestions (mcq_question dayTitle : jsstring)
    (subtopics explanations : list jsstring) : value :=
  Obj [(u "mcq",
        Arr [Obj [(u "question", Str mcq_question);
                  (u "options", strings (firstn 4 subtopics));
                  (u "correct_answer",
                   or_else (match subtopics with
                            | s0 :: _ => Str s0
                            | [] => Undefined
                            end)
                           (Str (u "Understanding the basics")));
                  (u "explanation",
                   Str (u "This question tests understanding of the lesson structure."))]]);
       (u "theory",
        Arr [Obj [(u "question",
                   Str (u "Explain the key concepts covered in " ++ dayTitle
                          ++ u "."));
                  (u "correct_answer",
                   Str (u "The lesson covers: " ++ join (u ", ") subtopics
                          ++ u ". " ++ join (u " ") explanations));
                  (u "key_points", strings (firstn 3 subtopics))]])].

(** The [try] block of [generateQuizQuestions]. *)
Definition generateQuizQuestions_try (service : reply) : result value :=
  match service with
  | Rejected e => Throw e
  | Completion choices =>
      response <- content_or_throw choices ;;
      let cleanedResponse := cleanJsonResponse response in
      let fixedResponse := fixJsonEscaping cleanedResponse in
      parsed <- JSON_parse fixedResponse ;;
      quiz_of parsed
  end.

Definition generateQuizQuestions (groq : option Groq) (service : reply)
    (dayTitle : jsstring) (subtopics explanations : list jsstring)
    (userProfile : option UserProfile) : result value :=
  match groq with
  | None =>
      Return
        (basicQuestions (u "What is the main focus of " ++ dayTitle ++ u "?")
           dayTitle subtopics explanations)
  | Some _ =>
      try_catch
        (generateQuizQuestions_try service)
        (fun error =>
           Return
             (basicQuestions
                (u "What is the main focus of today's lesson: " ++ dayTitle
                   ++ u "?")
                dayTitle subtopics explanations))
  end.

(** ** [gradeTheoryAnswer] *)

(** [Math.max(0, Math.min(10, Number(v) || 0))] *)
Definition score_of (v : value) : result number :=
  n <- ToNumber v ;;
  let n := if ToBoolean (Num n) then n else Dec 0 0 in
  Return (Math_max (Dec 0 0) (Math_min (Dec 10 0) n)).

Definition grade_of (parsed : value) : result value :=
  score <- get parsed (u "score") ;;
  score <- score_of score ;;
  feedback <- get parsed (u "feedback") ;;
  feedback <- ToString (or_else feedback (Str (u "No feedback available"))) ;;
  strengths <- get parsed (u "strengths") ;;
  strengths <- map_String strengths ;;
  improvements <- get parsed (u "improvements") ;;
  improvements <- map_String improvements ;;
  Return (Obj [(u "score", Num score); (u "feedback", Str feedback);
               (u "strengths", strengths);
               (u "improvements", improvements)]).

(** The grade computed without the service, in the two places that build
    it. *)
Definition fallbackGrade (userAnswer : jsstring) : value :=
  let score := if Nat.ltb 50 (length userAnswer) then 7%Z else 5%Z in
  Obj [(u "score", Num (of_Z score));
       (u "feedback",
        Str (u "Your answer shows "
               ++ (if num_leb (Dec 7 0) (of_Z score) then u "good"
                   else u "basic")
               ++ u " understanding. Consider elaborating more on the key concepts."));
       (u "strengths", strings [u "Attempted to answer the question"]);
       (u "improvements",
        strings [u "Provide more detailed explanations";
                 u "Include specific examples"])].

(** The [try] block of [gradeTheoryAnswer]. *)
Definition gradeTheoryAnswer_try (service : reply) : result value :=
  match service with
  | Rejected e => Throw e
  | Completion choices =>
      response <- content_or_throw choices ;;
      let cleanedResponse := cleanJsonResponse response in
      let fixedResponse := fixJsonEscaping cleanedResponse in
      parsed <- JSON_parse fixedResponse ;;
      grade_of parsed
  end.

Definition gradeTheoryAnswer (groq : option Groq) (service : reply)
    (question userAnswer correctAnswer : jsstring)
    (keyPoints : list jsstring) : result value :=
  match groq with
  | None => Return (fallbackGrade userAnswer)
  | Some _ =>
      try_catch
        (gradeTheoryAnswer_try service)
        (fun error => Return (fallbackGrade userAnswer))
  end.

(** ** [askTutorQuestion] *)

(** [Array.isArray(v) ? v : []] *)
Definition array_or_empty (v : value) : value :=
  match v with
  | Arr l => Arr l
  | _ => Arr []
  end.

Definition tutorAnswer_of (parsed : value) : result value :=
  answer <- get parsed (u "answer") ;;
  answer <- string_or_empty answer ;;
  codeExamples <- get parsed (u "codeExamples") ;;
  relatedConcepts <- get parsed (u "relatedConcepts") ;;
  furtherReading <- get parsed (u "furtherReading") ;;
  Return (Obj [(u "answer", answer);
               (u "codeExamples", array_or_empty codeExamples);
               (u "relatedConcepts", array_or_empty relatedConcepts);
               (u "furtherReading", array_or_empty furtherReading)]).

(** [v[0]] and [v?.k] *)
Definition get_first (v : value) : result value :=
  match v with
  | Undefined | Null => Throw TypeError
  | Arr (x :: _) => Return x
  | _ => Return Undefined
  end.

Definition get_optional (v : value) (k : jsstring) : result value :=
  match v with
  | Undefined | Null => Return Undefined
  | _ => get v k
  end.

(** The bindings visible in the [catch] block of [askTutorQuestion]: the
    parameters of the function and the caught error.  [completion] is a
    [const] declaration of the [try] block and ends with it. *)
Definition askTutorQuestion_catch_scope (context question : jsstring)
    (userProfile : option UserProfile) (error : error) : scope :=
  [(u "context", Str context); (u "question", Str question);
   (u "userProfile", UserProfile_value userProfile);
   (u "error", error_value error)].

(** The [try] block of [askTutorQuestion]. *)
Definition askTutorQuestion_try (service : reply) : result value :=
  match service with
  | Rejected e => Throw e
  | Completion choices =>
      response <- content_or_throw choices ;;
      let cleanedResponse := cleanJsonResponse response in
      let fixedResponse := fixJsonEscaping cleanedResponse in
      parsed <- JSON_parse fixedResponse ;;
      tutorAnswer_of parsed
  end.

Definition askTutorQuestion (groq : option Groq) (service : reply)
    (context question : jsstring) (userProfile : option UserProfile)
  : result value :=
  match groq with
  | None =>
      Return
        (Obj [(u "answer",
               Str (u "I understand you're asking about: " ++ DQUOTE
                      :: question ++ DQUOTE
                      :: u ". While I can't provide a detailed AI-generated response right now, I recommend reviewing the lesson content and exploring the detailed explanations for each subtopic."));
              (u "relatedConcepts", Arr []);
              (u "furtherReading", Arr [])])
  | Some _ =>
      try_catch
        (askTutorQuestion_try service)
        (fun error =>
           let sc :=
             askTutorQuestion_catch_scope context question userProfile
               error in
           completion <- identifier sc (u "completion") ;;
           choices <- get completion (u "choices") ;;
           first <- get_first choices ;;
           message <- get_optional first (u "message") ;;
           content <- get_optional message (u "content") ;;
           Return
             (Obj [(u "answer",
                    or_else content
                      (Str (u "Sorry, I could not generate a response.")));
                   (u "relatedConcepts", Arr []);
                   (u "furtherReading", Arr [])]))
  end.

(** A configured client, and the service answering with one choice. *)
Definition client : option Groq := Some {| apiKey := u "gsk" |}.

Definition says (text : jsstring) : reply :=
  Completion [{| message_content := Some text |}].

(** ** [getProfessionContext] and [createPersonalizedPrompt] *)

(** A template literal prints [undefined] for a property that is not
    there. *)
Definition template (v : option jsstring) : jsstring :=
  match v with
  | Some s => s
  | None => u "undefined"
  end.

(** The object [contexts]: the professions that have a tailoring text of
    their own, each with its title and guidance. *)
Definition contexts : list (jsstring * (jsstring * jsstring)) :=
  [(u "healthcare-professional",
    (u "healthcare professional",
     u "Focus on practical applications in healthcare, patient care improvements, and regulatory compliance. Avoid technical code examples."));
   (u "business-manager",
    (u "business manager",
     u "Emphasize business value, ROI, strategic implications, and management perspectives. Use business case studies and avoid technical implementation details."));
   (u "software-developer",
    (u "software developer",
     u "Include detailed code examples, technical implementation details, best practices, and architectural considerations."));
   (u "data-scientist",
    (u "data scientist",
     u "Focus on data analysis applications, statistical concepts, and include relevant code examples for data processing and visualization."));
   (u "designer",
    (u "designer",
     u "Emphasize user experience, visual design principles, and creative applications. Focus on design thinking and user-centered approaches."));
   (u "educator",
    (u "educator",
     u "Focus on pedagogical applications, teaching methodologies, and educational technology. Emphasize how concepts can be taught to others."));
   (u "consultant",
    (u "consultant",
     u "Emphasize strategic applications, client value, and implementation frameworks. Focus on business impact and consulting methodologies."))].

(** The names [contexts] inherits from [Object.prototype]: [contexts[name]]
    is then a function, or the prototype itself for [__proto__], a truthy
    value without a [title] or a [guidance]. *)
Definition Object_prototype_names : list jsstring :=
  [u "constructor"; u "__defineGetter__"; u "__defineSetter__";
   u "hasOwnProperty"; u "__lookupGetter__"; u "__lookupSetter__";
   u "isPrototypeOf"; u "propertyIsEnumerable"; u "toString"; u "valueOf";
   u "__proto__"; u "toLocaleString"].

Record professionContext_t : Type := {
  title : option jsstring;
  guidance : option jsstring
}.

Fixpoint assoc {A : Type} (k : jsstring) (l : list (jsstring * A))
  : option A :=
  match l with
  | [] => None
  | (k', a) :: l' => if eqb_str k k' then Some a else assoc k l'
  end.

(** [list.includes(x)] on an array of strings. *)
Definition includes_string (l : list jsstring) (x : jsstring) : bool :=
  existsb (eqb_str x) l.

Definition getProfessionContext (profession : jsstring)
  : professionContext_t :=
  match assoc profession contexts with
  | Some (t, g) => {| title := Some t; guidance := Some g |}
  | None =>
      if includes_string Object_prototype_names profession
      then {| title := None; guidance := None |}
      else {| title := Some (u "professional");
              guidance :=
                Some (u "Provide balanced content with both theoretical and practical perspectives.") |}
  end.

Definition createPersonalizedPrompt (basePrompt : jsstring)
    (userProfile : option UserProfile) : jsstring :=
  match userProfile with
  | None => basePrompt
  | Some userProfile =>
      let personalizedPrompt := basePrompt in
      let personalizedPrompt :=
        match profession userProfile with
        | [] => personalizedPrompt
        | _ =>
            let professionContext :=
              getProfessionContext (profession userProfile) in
            personalizedPrompt ++ [LF; LF]
              ++ u "IMPORTANT: Tailor content for a "
              ++ template (title professionContext) ++ u ". "
              ++ template (guidance professionContext)
        end in
      let personalizedPrompt :=
        if negb (includeCode (learning_preferences userProfile)) then
          personalizedPrompt ++ [LF; LF]
            ++ u "IMPORTANT: Do NOT include code examples or technical snippets. Focus on conceptual explanations, real-world applications, and business/practical perspectives."
        else
          personalizedPrompt ++ [LF; LF]
            ++ u "Include relevant code examples and technical snippets where appropriate." in
      let personalizedPrompt :=
        match preferredExampleTypes (learning_preferences userProfile) with
        | [] => personalizedPrompt
        | types =>
            personalizedPrompt ++ [LF; LF] ++ u "Preferred example types: "
              ++ join (u ", ") types ++ u "."
        end in
      let personalizedPrompt :=
        match focusAreas (learning_preferences userProfile) with
        | [] => personalizedPrompt
        | areas =>
            personalizedPrompt ++ [LF; LF] ++ u "Focus on: "
              ++ join (u ", ") areas ++ u "."
        end in
      personalizedPrompt
  end.

(** ** The profile form ([Profile]) *)

(** The array [professions] of the form: the value of each entry and its
    [includeCode]. *)
Definition professions : list (jsstring * bool) :=
  [(u "software-developer", true); (u "data-scientist", true);
   (u "healthcare-professional", false); (u "business-manager", false);
   (u "designer", false); (u "engineer", true); (u "educator", false);
   (u "researcher", true); (u "consultant", false); (u "student", true);
   (u "other", true)].

Definition with_preferences (prev : UserProfile)
    (prefs : learning_preferences_t) : UserProfile :=
  {| highest_qualification := highest_qualification prev;
     specialization := specialization prev;
     profession := profession prev;
     learning_preferences := prefs |}.

(** The state update of [handleProfessionChange]:
    [selectedProfession?.includeCode ?? true]. *)
Definition handleProfessionChange (professionValue : jsstring)
    (prev : UserProfile) : UserProfile :=
  let selectedProfession := assoc professionValue professions in
  {| highest_qualification := highest_qualification prev;
     specialization := specialization prev;
     profession := professionValue;
     learning_preferences :=
       {| includeCode :=
            match selectedProfession with
            | Some b => b
            | None => true
            end;
          preferredExampleTypes :=
            preferredExampleTypes (learning_preferences prev);
          focusAreas := focusAreas (learning_preferences prev) |} |}.

(** [list.includes(x) ? list.filter(t => t !== x) : [...list, x]] *)
Definition toggle (l : list jsstring) (x : jsstring) : list jsstring :=
  if includes_string l x then filter (fun t => negb (eqb_str t x)) l
  else l ++ [x].

(** The state updates of [toggleExampleType] and [toggleFocusArea]. *)
Definition toggleExampleType (type : jsstring) (prev : UserProfile)
  : UserProfile :=
  with_preferences prev
    {| includeCode := includeCode (learning_preferences prev);
       preferredExampleTypes :=
         toggle (preferredExampleTypes (learning_preferences prev)) type;
       focusAreas := focusAreas (learning_preferences prev) |}.

Definition toggleFocusArea (area : jsstring) (prev : UserProfile)
  : UserProfile :=
  with_preferences prev
    {| includeCode := includeCode (learning_preferences prev);
       preferredExampleTypes :=
         preferredExampleTypes (learning_preferences prev);
       focusAreas := toggle (focusAreas (learning_preferences prev)) area |}.

(** ** The quiz ([Quiz]): [handleAnswerSubmit] *)

Record QuizQuestion : Type := {
  question_id : jsstring;
  question_text : jsstring;
  question_type : jsstring;
  question_options : option (list jsstring);
  correct_answer : jsstring;
  explanation : option jsstring;
  key_points : option (list jsstring)
}.

Record QuizResponse : Type := {
  questionId : jsstring;
  userAnswer : jsstring;
  isCorrect : bool;
  score : value;
  feedback : value;
  strengths : value;
  improvements : value
}.

Record QuizState : Type := {
  questions : list QuizQuestion;
  currentQuestionIndex : nat;
  responses : list QuizResponse;
  currentAnswer : jsstring;
  submitting : bool;
  showResults : bool
}.

(** [s || d] on an optional string: the empty string is falsy too. *)
Definition string_or (s : option jsstring) (d : jsstring) : jsstring :=
  match s with
  | Some (c :: t) => c :: t
  | _ => d
  end.

(** The response the [try] block of [handleAnswerSubmit] builds for the
    current question, before it is saved: an answer to a multiple-choice
    question is compared with the correct one, any other question is graded
    by [gradeTheoryAnswer] and counts as correct from the score 7 on. *)
Definition gradeAnswer (groq : option Groq) (service : reply)
    (currentQuestion : QuizQuestion) (currentAnswer : jsstring)
  : result QuizResponse :=
  if eqb_str (question_type currentQuestion) (u "mcq") then
    let isCorrect := eqb_str currentAnswer (correct_answer currentQuestion) in
    let score := if isCorrect then of_Z 10 else of_Z 0 in
    let feedback :=
      if isCorrect then
        u "Correct! "
          ++ string_or (explanation currentQuestion) (u "Well done!")
      else
        u "Incorrect. The correct answer is: "
          ++ correct_answer currentQuestion ++ u ". "
          ++ string_or (explanation currentQuestion) [] in
    Return {| questionId := question_id currentQuestion;
              userAnswer := currentAnswer;
              isCorrect := isCorrect;
              score := Num score;
              feedback := Str feedback;
              strengths := Arr [];
              improvements := Arr [] |}
  else
    grading <-
      gradeTheoryAnswer groq service (question_text currentQuestion)
        currentAnswer (correct_answer currentQuestion)
        (match key_points currentQuestion with
         | Some l => l
         | None => []
         end) ;;
    score <- get grading (u "score") ;;
    n <- ToNumber score ;;
    let isCorrect := num_leb (Dec 7 0) n in
    feedback <- get grading (u "feedback") ;;
    strengths <- get grading (u "strengths") ;;
    improvements <- get grading (u "improvements") ;;
    Return {| questionId := question_id currentQuestion;
              userAnswer := currentAnswer;
              isCorrect := isCorrect;
              score := score;
              feedback := feedback;
              strengths := or_else strengths (Arr []);
              improvements := or_else improvements (Arr []) |}.

(** [handleAnswerSubmit] on the state of the component.  [user] is the
    signed-in user, if any, and [insert] what the awaited insertion of the
    response into [quiz_responses] does: it resolves, or it is rejected.
    Reading [questions[currentQuestionIndex].type] past the end of the list
    is a [TypeError]; every exception ends in the [catch] block, which only
    alerts, and the [finally] block clears [submitting]. *)
Definition handleAnswerSubmit (groq : option Groq) (service : reply)
    (insert : result unit) (user : option jsstring) (st : QuizState)
  : QuizState :=
  if negb (nonempty (trim (currentAnswer st)))
     || match user with None => true | Some _ => false end
  then st
  else
    let attempt :=
      currentQuestion <-
        match nth_error (questions st) (currentQuestionIndex st) with
        | Some q => Return q
        | None => Throw TypeError
        end ;;
      newResponse <- gradeAnswer groq service currentQuestion
                       (currentAnswer st) ;;
      _ <- insert ;;
      Return newResponse in
    match attempt with
    | Return newResponse =>
        let last :=
          negb (Z.ltb (Z.of_nat (currentQuestionIndex st))
                      (Z.of_nat (length (questions st)) - 1)) in
        {| questions := questions st;
           currentQuestionIndex :=
             if last then currentQuestionIndex st
             else S (currentQuestionIndex st);
           responses := responses st ++ [newResponse];
           currentAnswer := [];
           submitting := false;
           showResults := if last then true else showResults st |}
    | Throw _ =>
        {| questions := questions st;
           currentQuestionIndex := currentQuestionIndex st;
           responses := responses st;
           currentAnswer := currentAnswer st;
           submitting := false;
           showResults := showResults st |}
    end.

(** ** The dashboard ([Dashboard]): [handleTutorQuestion] *)



(** ** The display of generated text ([FormattedContent]):
    [sanitizeAndCleanText] *)

Definition in_range (a b : N) : regex :=
  Class (fun c => (a <=? c)%N && (c <=? b)%N).

(** The class of the second removal of control characters: U+0000 to
    U+0008, U+000B, U+000C, U+000E to U+001F and U+007F. *)
Definition isControl (c : code_unit) : bool :=
  ((c <=? 8) || (c =? 11) || (c =? 12) || (14 <=? c) && (c <=? 31)
   || (c =? 127))%N.

Definition isLetter (c : code_unit) : bool :=
  ((97 <=? c) && (c <=? 122) || (65 <=? c) && (c <=? 90))%N.

(** The chain of [replace] calls of [sanitizeAndCleanText], in the order of
    the source, and the final [trim].  In the patterns of the chain a
    doubled backslash stands for one backslash of the text. *)
Definition sanitizeAndCleanText (text : jsstring) : jsstring :=
  let safeText := text in
  let t := replace_all_with
             (Cat [AssertStart true; Char 110%N; LookAhead (in_range 65 90)])
             [] safeText in
  let t := replace_all_with
             (Cat [WordBoundary; Char 110%N; WordBoundary;
                   LookAhead (in_range 65 90)]) [] t in
  let t := replace_all_with (OneOf [BS; 8%N]) [] t in
  let t := replace_all_with (Class isControl) [] t in
  let t := replace_all_with (Lit (u "\bn\b")) [LF] t in
  let t := replace_all_with (Lit (u "\bn")) [LF] t in
  let t := replace_all_with (Lit (u "\b")) [] t in
  let t := replace_all_with (Lit (u "\r\n")) [LF] t in
  let t := replace_all_with (Lit (u "\n\n")) [LF; LF] t in
  let t := replace_all_with (Lit (u "\n")) [LF] t in
  let t := replace_all_with (Lit (u "\r")) [LF] t in
  let t := replace_all_with (Lit [BACKSLASH; DQUOTE]) [DQUOTE] t in
  let t := replace_all_with (Lit (u "\'")) (u "'") t in
  let t := replace_all_with (Lit (u "\t")) (u "    ") t in
  let t := replace_all_with (Lit (u "\\")) (u "\") t in
  let cleanedText := t in
  let cleanedText :=
    replace_all_with (Seq (Char BACKSLASH) (Class isLetter)) []
      cleanedText in
  let cleanedText :=
    replace_all_with
      (Cat [Char LF; Char LF; Char LF; Star true (Char LF)]) [LF; LF]
      cleanedText in
  trim cleanedText.

(** * Vocabulary of the properties *)

Definition fence : jsstring := [BACKTICK; BACKTICK; BACKTICK].

(** The raw response of C4: a fence with the tag [json], an object whose
    [content] is quoted with back-ticks and holds a line feed, and the
    closing fence. *)
Definition fenced_backtick_response : jsstring :=
  u "```json" ++ LF :: j "{'content': `line1" ++ LF :: u "line2`}" ++ LF
    :: u "```".

(** The [content] the pipeline makes of it. *)
Definition fenced_backtick_content : jsstring :=
  BACKSLASH :: BS :: u "bline1" ++ BS :: BACKSLASH :: BS :: u "b" ++ BS
    :: BACKSLASH :: BACKSLASH :: BS :: u "bnline2" ++ BS :: BACKSLASH :: BS
    :: u "b" ++ [BS].

Definition grade7 : value :=
  Obj [(u "score", Num (Dec 7 0));
       (u "feedback",
        Str (u "Your answer shows good understanding. Consider elaborating more on the key concepts."));
       (u "strengths", strings [u "Attempted to answer the question"]);
       (u "improvements",
        strings [u "Provide more detailed explanations";
                 u "Include specific examples"])].

Definition grade5 : value :=
  Obj [(u "score", Num (Dec 5 0));
       (u "feedback",
        Str (u "Your answer shows basic understanding. Consider elaborating more on the key concepts."));
       (u "strengths", strings [u "Attempted to answer the question"]);
       (u "improvements",
        strings [u "Provide more detailed explanations";
                 u "Include specific examples"])].


(** [r.k] on an object of the model. *)
Definition field (r : value) (k : jsstring) : value :=
  match r with
  | Obj ps => match lookup k ps with Some v => v | None => Undefined end
  | _ => Undefined
  end.

Definition day_title (topic : jsstring) (n : nat) : jsstring :=
  u "Day " ++ digits_of (Z.of_nat n) ++ u ": Introduction to " ++ topic.

(** The titles of the days of a plan, in order. *)
Definition titles (plan : value) : list value :=
  match field plan (u "days") with
  | Arr days => map (fun d => field d (u "title")) days
  | _ => []
  end.

Definition is_string (v : value) : bool :=
  match v with Str _ => true | _ => false end.

Definition is_number (v : value) : bool :=
  match v with Num _ => true | _ => false end.

(** An array all of whose elements satisfy [p]. *)
Definition array_of (p : value -> bool) (v : value) : bool :=
  match v with Arr l => forallb p l | _ => false end.

Definition detailed_shape (r : value) : bool :=
  is_string (field r (u "content"))
  && isArray (field r (u "keyPoints"))
  && isArray (field r (u "examples"))
  && isArray (field r (u "practicalApplications")).

Definition mcq_shape (q : value) : bool :=
  is_string (field q (u "question"))
  && array_of is_string (field q (u "options"))
  && is_string (field q (u "correct_answer"))
  && is_string (field q (u "explanation")).

Definition theory_shape (q : value) : bool :=
  is_string (field q (u "question"))
  && is_string (field q (u "correct_answer"))
  && array_of is_string (field q (u "key_points")).

Definition quiz_shape (r : value) : bool :=
  array_of mcq_shape (field r (u "mcq"))
  && array_of theory_shape (field r (u "theory")).

Definition grade_shape (r : value) : bool :=
  is_number (field r (u "score"))
  && is_string (field r (u "feedback"))
  && array_of is_string (field r (u "strengths"))
  && array_of is_string (field r (u "improvements")).

Definition tutor_shape (r : value) : bool :=
  is_string (field r (u "answer"))
  && isArray (field r (u "codeExamples"))
  && isArray (field r (u "relatedConcepts"))
  && isArray (field r (u "furtherReading")).

(** [x] occurs in [s] as one piece. *)
Definition infix (x s : jsstring) : Prop :=
  exists a b, s = a ++ x ++ b.

(** A text that starts with no white space, and one that ends with none. *)
Definition starts_clean (s : jsstring) : bool :=
  match s with
  | c :: _ => negb (isWhiteSpace c)
  | [] => true
  end.

Definition ends_clean (s : jsstring) : bool := starts_clean (rev s).

(** The first multiple-choice question of a question set. *)
Definition first_mcq (quiz : value) : value :=
  match field quiz (u "mcq") with
  | Arr (q :: _) => q
  | _ => Undefined
  end.

(** A number between 0 and 10. *)
Definition in_0_10 (n : number) : bool :=
  num_leb (Dec 0 0) n && num_leb n (Dec 10 0).

(** The two instructions about code, by the flag [includeCode]. *)
Definition code_instruction (includeCode : bool) : jsstring :=
  if includeCode
  then u "Include relevant code examples and technical snippets where appropriate."
  else u "IMPORTANT: Do NOT include code examples or technical snippets. Focus on conceptual explanations, real-world applications, and business/practical perspectives.".

(** The professions for which the form clears [includeCode]. *)
Definition professions_without_code : list jsstring :=
  [u "healthcare-professional"; u "business-manager"; u "designer";
   u "educator"; u "consultant"].

(** The professions of the form that have no entry in [contexts]. *)
Definition professions_without_context : list jsstring :=
  [u "engineer"; u "researcher"; u "student"; u "other"].

Definition generic_context : professionContext_t :=
  {| title := Some (u "professional");
     guidance :=
       Some (u "Provide balanced content with both theoretical and practical perspectives.") |}.

(** A continuation that never moves back in the text. *)
Definition forward (k : continuation) : Prop :=
  forall s e, k s = Some e -> (pos s <= pos e)%nat.

(** A pattern that matches exactly one code unit, those that satisfy
    [p]. *)
Definition one_unit (r : regex) (p : code_unit -> bool) : Prop :=
  forall k st,
    m r k st
    = match rest st with
      | d :: t => if p d then k (advance st d t) else None
      | [] => None
      end.

(** The code units [escapedContent] replaces by an escape of two
    characters: line feed, carriage return, tab and form feed. *)
Definition isRawControl (c : code_unit) : bool :=
  ((c =? 10) || (c =? 13) || (c =? 9) || (c =? 12))%N.

(** Every match of the pattern takes the code unit [c] from the text:
    a sufficient test on the syntax of the pattern. *)
Fixpoint mentions (c : code_unit) (r : regex) : bool :=
  match r with
  | Char d => N.eqb c d
  | Seq r1 r2 => mentions c r1 || mentions c r2
  | Alt r1 r2 => mentions c r1 && mentions c r2
  | Group _ r1 => mentions c r1
  | _ => false
  end.

(** The state after the text [p], where the text goes on with [p]. *)
Fixpoint eat (p : jsstring) (st : mstate) : option mstate :=
  match p with
  | [] => Some st
  | c :: p' =>
      match rest st with
      | d :: t => if N.eqb c d then eat p' (advance st d t) else None
      | [] => None
      end
  end.

(** A text between two double quotes. *)
Definition quoted (x : jsstring) : jsstring := DQUOTE :: x ++ [DQUOTE].

(** The names of the three lists of [extractContentFromResponse]. *)
Definition list_names : list jsstring :=
  [u "keyPoints"; u "examples"; u "practicalApplications"].

(** [out] is [String(v || default)]: the default text for a falsy [v],
    and else the text [String] makes of [v]. *)
Definition coerced_string (v : value) (default : jsstring) (out : value)
  : Prop :=
  if ToBoolean v then exists s, ToString v = Return s /\ out = Str s
  else out = Str default.

(** [out] is [Array.isArray(v) ? v.map(String) : []]. *)
Definition coerced_strings (v out : value) : Prop :=
  match v with
  | Arr l => exists ss, mapM ToString l = Return ss /\ out = strings ss
  | _ => out = Arr []
  end.

(** [out] is [Array.isArray(v) ? v.map(f) : []]. *)
Definition coerced_each (f : value -> result value) (v out : value) : Prop :=
  match v with
  | Arr l => exists l', Forall2 (fun x y => f x = Return y) l l'
                        /\ out = Arr l'
  | _ => out = Arr []
  end.

(** * Properties *)

(** ** White space and fences *)

Lemma u_fence : u "```" = fence.
Proof. reflexivity. Qed.

Lemma u_fence_json : u "```json" = fence ++ u "json".
Proof. reflexivity. Qed.

Lemma trimStart_spaces (w s : jsstring) :
  forallb isWhiteSpace w = true -> trimStart (w ++ s) = trimStart s.
Proof.
  induction w as [|c w IH]; simpl; intros H; [reflexivity|].
  apply andb_true_iff in H. destruct H as [Hc Hw].
  rewrite Hc. apply IH, Hw.
Qed.

Lemma trimStart_idem (s : jsstring) : trimStart (trimStart s) = trimStart s.
Proof.
  induction s as [|c s IH]; simpl; [reflexivity|].
  destruct (isWhiteSpace c) eqn:E; [exact IH|].
  simpl. rewrite E. reflexivity.
Qed.

Lemma trimStart_app_fence (t : jsstring) :
  trimStart (t ++ fence) = trimStart t ++ fence.
Proof.
  induction t as [|c t IH]; simpl; [reflexivity|].
  destruct (isWhiteSpace c); [exact IH | reflexivity].
Qed.

Lemma trimEnd_app_fence (s : jsstring) : trimEnd (s ++ fence) = s ++ fence.
Proof.
  unfold trimEnd. rewrite rev_app_distr.
  change (trimStart (rev fence ++ rev s)) with (fence ++ rev s).
  rewrite rev_app_distr, rev_involutive. reflexivity.
Qed.

Lemma trimEnd_spaces (s w : jsstring) :
  forallb isWhiteSpace w = true -> trimEnd (s ++ w) = trimEnd s.
Proof.
  intros H. unfold trimEnd. rewrite rev_app_distr.
  rewrite trimStart_spaces; [reflexivity|].
  rewrite forallb_forall in *. intros x Hx. apply H, in_rev, Hx.
Qed.

Lemma trim_fenced (w1 s w2 : jsstring) :
  forallb isWhiteSpace w1 = true -> forallb isWhiteSpace w2 = true ->
  trim (w1 ++ (fence ++ s ++ fence) ++ w2) = fence ++ s ++ fence.
Proof.
  intros H1 H2. unfold trim.
  rewrite trimStart_spaces by exact H1.
  change (trimStart ((fence ++ s ++ fence) ++ w2))
    with ((fence ++ s ++ fence) ++ w2).
  rewrite trimEnd_spaces by exact H2.
  change (fence ++ s ++ fence) with ((fence ++ s) ++ fence) at 1.
  rewrite app_assoc. apply trimEnd_app_fence.
Qed.

Lemma startsWith_app (p s : jsstring) : startsWith (p ++ s) p = true.
Proof.
  induction p as [|c p IH]; simpl; [reflexivity|].
  rewrite N.eqb_refl. exact IH.
Qed.

Lemma startsWith_skip (p s q : jsstring) :
  startsWith (p ++ s) (p ++ q) = startsWith s q.
Proof.
  induction p as [|c p IH]; simpl; [reflexivity|].
  rewrite N.eqb_refl. exact IH.
Qed.

Lemma endsWith_app_fence (s : jsstring) : endsWith (s ++ fence) fence = true.
Proof.
  unfold endsWith. rewrite rev_app_distr. reflexivity.
Qed.

Lemma slice_drop (p s : jsstring) :
  slice (p ++ s) (Z.of_nat (length p)) None = s.
Proof.
  unfold slice, relIndex. rewrite length_app.
  destruct (Z.ltb_spec (Z.of_nat (length p)) 0); [lia|].
  rewrite Z.min_l by lia. rewrite Nat2Z.id.
  rewrite skipn_app, skipn_all, Nat.sub_diag. simpl.
  apply firstn_all2. lia.
Qed.

Lemma slice_drop_fence (s : jsstring) :
  slice (s ++ fence) 0 (Some (-3)%Z) = s.
Proof.
  unfold slice, relIndex. rewrite length_app. simpl length.
  change (0 <? 0)%Z with false. change (-3 <? 0)%Z with true. cbv iota.
  rewrite Z.min_l by lia. rewrite Z.max_l by lia.
  change (Z.to_nat 0) with 0%nat. simpl skipn.
  replace (Z.to_nat (Z.of_nat (length s + 3) + -3 - 0)) with (length s) by lia.
  rewrite firstn_app, Nat.sub_diag, firstn_all. simpl. apply app_nil_r.
Qed.

Lemma trim_trimStart (t : jsstring) : trim (trimStart t) = trim t.
Proof. unfold trim. rewrite trimStart_idem. reflexivity. Qed.

(** What the function makes of a text between an opening and a closing
    fence, once the opening fence and the tag are gone. *)
Lemma clean_after_opening (t : jsstring) :
  (let trimmed := trim (t ++ fence) in
   if endsWith trimmed (u "```") then trim (slice trimmed 0 (Some (-3)%Z))
   else trimmed) = trim t.
Proof.
  cbv zeta. rewrite u_fence.
  assert (E : trim (t ++ fence) = trimStart t ++ fence).
  { unfold trim. rewrite trimStart_app_fence. apply trimEnd_app_fence. }
  rewrite E, endsWith_app_fence, slice_drop_fence. apply trim_trimStart.
Qed.

Lemma startsWith_longer (x p q : jsstring) :
  startsWith x p = false -> startsWith x (p ++ q) = false.
Proof.
  revert x. induction p as [|c p IH]; simpl; intros x H; [discriminate|].
  destruct x as [|d x]; [reflexivity|].
  destruct (N.eqb c d); simpl in *; [apply IH, H | reflexivity].
Qed.

Lemma not_json_app_fence (t : jsstring) :
  startsWith t (u "json") = false ->
  startsWith (t ++ fence) (u "json") = false.
Proof.
  change (u "json") with [106; 115; 111; 110]%N.
  destruct t as [|a [|b [|c [|d t]]]]; simpl; intros H;
    repeat match goal with
           | |- context [N.eqb ?x ?y] => destruct (N.eqb x y); simpl in *
           end; congruence.
Qed.

(** C7, as stated, fails: a language tag other than [json] stays in the
    output.  The text [{}] between the fence [```javascript] and the fence
    [```] does not come out as [{}]. *)
Lemma cleanJsonResponse_keeps_other_tag :
  cleanJsonResponse (u "```javascript" ++ LF :: u "{}" ++ LF :: u "```")
    = u "javascript" ++ LF :: u "{}"
  /\ cleanJsonResponse (u "```javascript" ++ LF :: u "{}" ++ LF :: u "```")
       <> cleanJsonResponse (u "{}").
Proof. split; [reflexivity | discriminate]. Qed.

(** C7, amended: a text [t] between an opening fence, which the tag [json]
    or nothing follows, and a closing fence, with white space allowed around
    the whole, comes out as [trim t], the text without the markers and
    without its outer white space; a text whose trimmed form neither starts
    nor ends with a fence comes out trimmed and otherwise unchanged.  The
    function is total and checks nothing about the text. *)
Theorem cleanJsonResponse_fenced (w1 t w2 s : jsstring) :
  (forallb isWhiteSpace w1 = true -> forallb isWhiteSpace w2 = true ->
   cleanJsonResponse (w1 ++ (fence ++ (u "json" ++ t) ++ fence) ++ w2)
     = trim t)
  /\ (forallb isWhiteSpace w1 = true -> forallb isWhiteSpace w2 = true ->
      startsWith t (u "json") = false ->
      cleanJsonResponse (w1 ++ (fence ++ t ++ fence) ++ w2) = trim t)
  /\ (startsWith (trim s) fence = false -> endsWith (trim s) fence = false ->
      cleanJsonResponse s = trim s).
Proof.
  split; [|split].
  - intros H1 H2. unfold cleanJsonResponse.
    rewrite (trim_fenced _ (u "json" ++ t) _ H1 H2).
    rewrite u_fence_json.
    replace (fence ++ (u "json" ++ t) ++ fence)
      with ((fence ++ u "json") ++ t ++ fence)
      by (rewrite <- !app_assoc; reflexivity).
    rewrite startsWith_app.
    change 7%Z with (Z.of_nat (length (fence ++ u "json"))).
    rewrite slice_drop. apply clean_after_opening.
  - intros H1 H2 Ht. unfold cleanJsonResponse.
    rewrite (trim_fenced _ t _ H1 H2).
    rewrite u_fence_json, u_fence.
    rewrite (startsWith_skip fence (t ++ fence) (u "json")).
    rewrite (not_json_app_fence _ Ht).
    rewrite startsWith_app.
    change 3%Z with (Z.of_nat (length fence)).
    rewrite slice_drop. apply clean_after_opening.
  - intros Hs He. unfold cleanJsonResponse.
    rewrite u_fence_json, u_fence.
    rewrite (startsWith_longer _ _ (u "json") Hs), Hs, He. reflexivity.
Qed.

Lemma cleanJsonResponse_fenced_witness :
  cleanJsonResponse
    ([LF] ++ (fence ++ (u "json" ++ LF :: u "{} ") ++ fence) ++ u " ")
    = u "{}"
  /\ cleanJsonResponse ([] ++ (fence ++ (LF :: u "[1]") ++ fence) ++ [LF])
     = u "[1]"
  /\ cleanJsonResponse (u " {} ") = u "{}".
Proof.
  pose proof (cleanJsonResponse_fenced [LF] (LF :: u "{} ") (u " ")
                (u " {} ")) as [A _].
  pose proof (cleanJsonResponse_fenced [] (LF :: u "[1]") [LF]
                (u " {} ")) as [_ [B C]].
  split; [|split].
  - apply A; reflexivity.
  - apply B; reflexivity.
  - apply C; reflexivity.
Defined.

(** ** The escape repair *)

(** C6: a text that [JSON.parse] accepts goes through [fixJsonEscaping]
    unchanged, and the parse that follows succeeds with the same value. *)
Theorem fixJsonEscaping_valid_unchanged (s : jsstring) (v : value) :
  JSON_parse s = Return v ->
  fixJsonEscaping s = s /\ JSON_parse (fixJsonEscaping s) = Return v.
Proof.
  intros H. assert (E : fixJsonEscaping s = s).
  { unfold fixJsonEscaping. rewrite H. reflexivity. }
  rewrite E. split; [reflexivity | exact H].
Qed.

Lemma fixJsonEscaping_valid_unchanged_witness :
  fixJsonEscaping (j "{'score': 8, 'feedback': 'ok'}")
    = j "{'score': 8, 'feedback': 'ok'}"
  /\ JSON_parse (fixJsonEscaping (j "{'score': 8, 'feedback': 'ok'}"))
     = Return (Obj [(u "score", Num (Dec 8 0));
                    (u "feedback", Str (u "ok"))]).
Proof.
  apply (fixJsonEscaping_valid_unchanged (j "{'score': 8, 'feedback': 'ok'}")).
  vm_compute. reflexivity.
Defined.

(** The word-boundary pattern at the end of the escaping chain: a text
    without any backspace still gets [\b] at each end of each word. *)
Example escapedContent_word :
  escapedContent (u "x") = u "\bx\b".
Proof. vm_compute. reflexivity. Qed.

(** C5 fails on the code: a second run of [fixJsonEscaping] escapes again
    what the first run escaped.  On the text [{'content': 'x',}] (a trailing
    comma, so no run yields a text that parses) the first run wraps the word
    in [\b], and the second doubles the backslashes and adds [\b] again; on
    [{'content': '\/',}], which has no word in it, the backslash is doubled
    by each run. *)
Theorem fixJsonEscaping_second_run_differs :
  fixJsonEscaping (j "{'content': 'x',}") = j "{'content': '\bx\b',}"
  /\ fixJsonEscaping (fixJsonEscaping (j "{'content': 'x',}"))
     = j "{'content': '\\\bbx\b\\\bb\b',}"
  /\ fixJsonEscaping (fixJsonEscaping (j "{'content': 'x',}"))
     <> fixJsonEscaping (j "{'content': 'x',}")
  /\ fixJsonEscaping (j "{'content': '\/',}") = j "{'content': '\\/',}"
  /\ fixJsonEscaping (fixJsonEscaping (j "{'content': '\/',}"))
     = j "{'content': '\\\\/',}".
Proof. vm_compute. repeat split; discriminate. Qed.

(** ** The pipeline on the fenced back-tick response *)

(** C4 fails on the code: the normalizer and the back-tick repair leave
    [{'content': '\bline1\b\\bnline2\b'}], the [\b] of the word-boundary
    pattern splitting the escaped line feed; the pattern for quoted fields
    then sees no [\n] in it and escapes the field once more.  The text
    parses, and its [content] is not [line1], a line feed, [line2]: it holds
    backspaces (code unit 8) and no line feed. *)
Theorem fenced_backtick_pipeline (topic dayTitle subtopic level : jsstring)
    (userProfile : option UserProfile) :
  cleanJsonResponse fenced_backtick_response
    = j "{'content': `line1" ++ LF :: u "line2`}"
  /\ fixJsonEscaping (cleanJsonResponse fenced_backtick_response)
     = j "{'content': '\\\bbline1\b\\\bb\b\\\\\bbnline2\b\\\bb\b'}"
  /\ getDetailedSubtopicContent client (says fenced_backtick_response)
       topic dayTitle subtopic level userProfile
     = Return (Obj [(u "content", Str fenced_backtick_content);
                    (u "keyPoints", Arr []); (u "examples", Arr []);
                    (u "practicalApplications", Arr [])])
  /\ fenced_backtick_content <> u "line1" ++ LF :: u "line2"
  /\ existsb (N.eqb BS) fenced_backtick_content = true
  /\ existsb (N.eqb LF) fenced_backtick_content = false.
Proof. vm_compute. repeat split; discriminate. Qed.

(** ** The [catch] blocks *)

(** Whatever makes the [try] block of [getDetailedSubtopicContent] fail,
    the [catch] block returns the same object: [response] is not bound
    there, so the test on its type fails and the extraction is not run. *)
Lemma getDetailedSubtopicContent_catch (g : Groq) (service : reply)
    (topic dayTitle subtopic level : jsstring)
    (userProfile : option UserProfile) (e : error) :
  getDetailedSubtopicContent_try service = Throw e ->
  getDetailedSubtopicContent (Some g) service topic dayTitle subtopic level
    userProfile
  = Return (Obj [(u "content",
                  Str (u "Content could not be extracted from the response."));
                 (u "keyPoints", Arr []); (u "examples", Arr []);
                 (u "practicalApplications", Arr [])]).
Proof.
  intros H. unfold getDetailedSubtopicContent. rewrite H. reflexivity.
Qed.

(** C3 fails on the code.  The response below has a trailing comma, the
    repaired text does not parse, and [extractContentFromResponse] would
    recover its [content] and its [keyPoints]; the operation returns the
    placeholder and empty arrays instead. *)
Theorem extraction_not_reached (topic dayTitle subtopic level : jsstring)
    (userProfile : option UserProfile) :
  let response := j "{'content': 'Hello', 'keyPoints': ['a', 'b'],}" in
  JSON_parse (fixJsonEscaping (cleanJsonResponse response))
    = Throw SyntaxError
  /\ extractContentFromResponse response
     = Obj [(u "content", Str (u "Hello"));
            (u "keyPoints", strings [u "a"; u "b"]);
            (u "examples", Arr []); (u "practicalApplications", Arr [])]
  /\ getDetailedSubtopicContent client (says response) topic dayTitle
       subtopic level userProfile
     = Return (Obj [(u "content",
                     Str (u "Content could not be extracted from the response."));
                    (u "keyPoints", Arr []); (u "examples", Arr []);
                    (u "practicalApplications", Arr [])]).
Proof. vm_compute. repeat split. Qed.

(** Whatever makes the [try] block of [askTutorQuestion] fail, the [catch]
    block fails in turn: it reads [completion], which is not bound there. *)
Lemma askTutorQuestion_catch (g : Groq) (service : reply)
    (context question : jsstring) (userProfile : option UserProfile)
    (e : error) :
  askTutorQuestion_try service = Throw e ->
  askTutorQuestion (Some g) service context question userProfile
  = Throw (ReferenceError (u "completion")).
Proof.
  intros H. unfold askTutorQuestion. rewrite H. reflexivity.
Qed.

(** C1 fails on the code: with a client configured, [askTutorQuestion]
    raises a [ReferenceError] when the response is a text that is not JSON,
    when the response is empty, and when the call to the service fails. *)
Theorem askTutorQuestion_raises (context question : jsstring)
    (userProfile : option UserProfile) :
  askTutorQuestion client (says (u "Sorry, I cannot answer that."))
    context question userProfile
  = Throw (ReferenceError (u "completion"))
  /\ askTutorQuestion client (Completion []) context question userProfile
     = Throw (ReferenceError (u "completion"))
  /\ askTutorQuestion client (Rejected (Error (u "Connection error.")))
       context question userProfile
     = Throw (ReferenceError (u "completion")).
Proof. vm_compute. repeat split. Qed.

(** ** Grading *)

(** One step of reasoning on a computation that returned: each bound
    computation returned as well. *)
Ltac returned H :=
  cbv beta in H;
  repeat match type of H with
         | bind ?c _ = Return _ =>
             let x := fresh "x" in
             let E := fresh "E" in
             destruct c as [x|] eqn:E; [|discriminate H];
             cbn [bind] in H
         end.

Lemma fallbackGrade_cases (userAnswer : jsstring) :
  fallbackGrade userAnswer
  = if Nat.ltb 50 (length userAnswer) then grade7 else grade5.
Proof.
  unfold fallbackGrade. destruct (Nat.ltb 50 (length userAnswer)); reflexivity.
Qed.

(** C10: without a client, and with a client whenever the [try] block
    fails (the call is rejected, the response is empty, or the repaired text
    does not parse or cannot be coerced), [gradeTheoryAnswer] returns one of
    two fixed objects, chosen by the length of the answer alone: score 7 and
    the text with [good] when the answer has more than 50 code units, score
    5 and the text with [basic] otherwise. *)
Theorem gradeTheoryAnswer_fallback_by_length (g : Groq) (service : reply)
    (response question userAnswer correctAnswer : jsstring)
    (keyPoints : list jsstring) (e : error) :
  gradeTheoryAnswer None service question userAnswer correctAnswer keyPoints
    = Return (if Nat.ltb 50 (length userAnswer) then grade7 else grade5)
  /\ (gradeTheoryAnswer_try service = Throw e ->
      gradeTheoryAnswer (Some g) service question userAnswer correctAnswer
        keyPoints
      = Return (if Nat.ltb 50 (length userAnswer) then grade7 else grade5))
  /\ (JSON_parse (fixJsonEscaping (cleanJsonResponse response)) = Throw e ->
      gradeTheoryAnswer (Some g) (says response) question userAnswer
        correctAnswer keyPoints
      = Return (if Nat.ltb 50 (length userAnswer) then grade7 else grade5)).
Proof.
  rewrite <- fallbackGrade_cases. split; [reflexivity|split].
  - intros H. unfold gradeTheoryAnswer. rewrite H. reflexivity.
  - intros H. unfold gradeTheoryAnswer, gradeTheoryAnswer_try, says.
    destruct response as [|c r]; [reflexivity|].
    cbn [content_or_throw first_content message_content bind].
    rewrite H. reflexivity.
Qed.

Lemma gradeTheoryAnswer_fallback_by_length_witness :
  gradeTheoryAnswer client (Rejected (Error (u "Connection error.")))
    (u "What is a monad?") (u "A burrito.") (u "A monoid.") [u "bind"]
    = Return grade5
  /\ gradeTheoryAnswer client (says (u "I would give this a 9."))
       (u "What is a monad?")
       (u "A monad is a monoid in the category of endofunctors, what is the problem?")
       (u "A monoid.") [u "bind"]
     = Return grade7.
Proof.
  pose proof (gradeTheoryAnswer_fallback_by_length {| apiKey := u "gsk" |}
                (Rejected (Error (u "Connection error.")))
                (u "I would give this a 9.")
                (u "What is a monad?") (u "A burrito.") (u "A monoid.")
                [u "bind"] (Error (u "Connection error."))) as [_ [A _]].
  pose proof (gradeTheoryAnswer_fallback_by_length {| apiKey := u "gsk" |}
                (Rejected SyntaxError) (u "I would give this a 9.")
                (u "What is a monad?")
                (u "A monad is a monoid in the category of endofunctors, what is the problem?")
                (u "A monoid.") [u "bind"] SyntaxError) as [_ [_ B]].
  split; [apply A | apply B]; vm_compute; reflexivity.
Defined.

(** The order on numbers other than [NaN] is total. *)
Lemma num_leb_total (x y : number) :
  x <> NaN -> y <> NaN -> num_leb x y = false -> num_leb y x = true.
Proof.
  destruct x as [|[|]|m1 e1], y as [|[|]|m2 e2]; simpl;
    try congruence; try reflexivity.
  intros _ _ H. rewrite (Z.min_comm e2 e1).
  apply Z.leb_gt in H. apply Z.leb_le. lia.
Qed.

Lemma score_of_range (v : value) (n : number) :
  score_of v = Return n ->
  num_leb (Dec 0 0) n = true /\ num_leb n (Dec 10 0) = true.
Proof.
  unfold score_of. intros H. returned H.
  set (n1 := if ToBoolean (Num x) then x else Dec 0 0) in H.
  assert (N1 : n1 <> NaN).
  { subst n1. destruct x as [|b|m e]; simpl; try discriminate.
    destruct (negb (m =? 0)%Z); discriminate. }
  assert (A : exists a, Math_min (Dec 10 0) n1 = a /\ a <> NaN
                        /\ num_leb a (Dec 10 0) = true).
  { unfold Math_min. destruct n1 as [|b|m e] eqn:En; [congruence| |].
    - destruct (num_leb (Dec 10 0) (Infinity b)) eqn:L.
      + eexists; repeat split; discriminate.
      + eexists; repeat split; [discriminate|].
        apply num_leb_total; [discriminate|discriminate|exact L].
    - destruct (num_leb (Dec 10 0) (Dec m e)) eqn:L.
      + eexists; repeat split; discriminate.
      + eexists; repeat split; [discriminate|].
        apply num_leb_total; [discriminate|discriminate|exact L]. }
  destruct A as [a [Ea [Na La]]]. rewrite Ea in H.
  unfold Math_max in H.
  destruct a as [|b|m e]; [congruence| |].
  - destruct (num_leb (Dec 0 0) (Infinity b)) eqn:L;
      injection H as <-; [split; assumption | split; reflexivity].
  - destruct (num_leb (Dec 0 0) (Dec m e)) eqn:L;
      injection H as <-; [split; assumption | split; reflexivity].
Qed.


Lemma get_field (v x : value) (k : jsstring) :
  get v k = Return x -> x = field v k.
Proof. destruct v; simpl; intros H; congruence. Qed.








(** ** The fallback learning plan *)

Lemma strip_zeros_value (fuel : nat) (m e m' e' : Z) :
  strip_zeros fuel m e = (m', e') ->
  (e <= e' /\ m' * 10 ^ (e' - e) = m)%Z.
Proof.
  revert m e. induction fuel as [|fuel IH]; simpl; intros m e H.
  - injection H as <- <-. rewrite Z.sub_diag. simpl. lia.
  - destruct (Z.eqb_spec (m mod 10) 0) as [Hm|Hm].
    + apply IH in H. destruct H as [He Hv]. split; [lia|].
      replace (e' - e)%Z with (Z.succ (e' - (e + 1))) by lia.
      rewrite Z.pow_succ_r by lia.
      pose proof (Z.div_mod m 10). lia.
    + injection H as <- <-. rewrite Z.sub_diag. simpl. lia.
Qed.

Lemma num_leb_of_Z_7 (d : Z) : num_leb (of_Z d) (Dec 7 0) = (d <=? 7)%Z.
Proof.
  unfold of_Z, dec. destruct (Z.eqb_spec d 0) as [->|Hd]; [reflexivity|].
  destruct (strip_zeros (Z.to_nat (Z.log2 (Z.abs d))) d 0) as [m' e'] eqn:E.
  apply strip_zeros_value in E. destruct E as [He Hv].
  unfold num_leb. rewrite Z.min_r by lia.
  rewrite Z.sub_0_r in *. change (7 * 10 ^ (0 - 0))%Z with 7%Z.
  rewrite Hv. reflexivity.
Qed.

Lemma Math_min_of_Z_7 (d : Z) :
  (7 <= d)%Z -> Math_min (of_Z d) (Dec 7 0) = Dec 7 0.
Proof.
  intros H. pose proof (num_leb_of_Z_7 d) as L.
  destruct (Z.eq_dec d 7) as [->|Hd]; [reflexivity|].
  unfold Math_min. rewrite L.
  destruct (Z.leb_spec d 7); [lia|].
  unfold of_Z, dec. destruct (d =? 0)%Z; [reflexivity|].
  destruct (strip_zeros _ d 0); reflexivity.
Qed.

(** The loop reads [durationDays] through its bound only. *)
Lemma fallbackDays_bound (rounds : nat) (topic : jsstring) (d1 d2 : number)
    (i : Z) :
  Math_min d1 (Dec 7 0) = Math_min d2 (Dec 7 0) ->
  fallbackDays rounds topic d1 i = fallbackDays rounds topic d2 i.
Proof.
  intros H. revert i. induction rounds as [|n IH]; intros i; simpl;
    [reflexivity|].
  rewrite H, IH. reflexivity.
Qed.

(** After seven rounds the loop is over: its condition fails at [i = 8]
    whatever the duration. *)
Lemma fallbackDays_done (durationDays : number) :
  num_leb (of_Z 8) (Math_min durationDays (Dec 7 0)) = false.
Proof.
  unfold Math_min. destruct durationDays as [|b|m e]; [reflexivity| |].
  - destruct b; reflexivity.
  - destruct (num_leb (Dec m e) (Dec 7 0)) eqn:L; [|reflexivity].
    destruct (num_leb (of_Z 8) (Dec m e)) eqn:L8; [|reflexivity].
    exfalso. change (of_Z 8) with (Dec 8 0) in L8.
    unfold num_leb in L, L8. rewrite (Z.min_comm 0 e) in L8.
    apply Z.leb_le in L, L8.
    pose proof (Z.pow_pos_nonneg 10 (0 - Z.min e 0) ltac:(lia) ltac:(lia)).
    lia.
Qed.

(** C9: without a client [generateLearningPlan] does not look at the
    service and returns the locally built plan.  For the topic [Rust] and
    10 days the plan has the seven days titled [Day 1: Introduction to Rust]
    to [Day 7: Introduction to Rust]; for a topic [t] and a whole number
    [d >= 0] of days it has [min d 7] days, the [n]-th numbered [n] and
    titled [Day n: Introduction to t]. *)
Theorem fallback_plan_days (service : reply)
    (topic level dailyTime : jsstring) (userProfile : option UserProfile)
    (d : Z) :
  (exists plan,
     generateLearningPlan None service (u "Rust") (of_Z 10) (u "beginner")
       (u "30 minutes") userProfile = Return plan
     /\ titles plan
        = map Str [u "Day 1: Introduction to Rust";
                   u "Day 2: Introduction to Rust";
                   u "Day 3: Introduction to Rust";
                   u "Day 4: Introduction to Rust";
                   u "Day 5: Introduction to Rust";
                   u "Day 6: Introduction to Rust";
                   u "Day 7: Introduction to Rust"])
  /\ ((0 <= d)%Z ->
      exists days,
        generateLearningPlan None service topic (of_Z d) level dailyTime
          userProfile = Return (Obj [(u "days", Arr days)])
        /\ length days = Z.to_nat (Z.min d 7)
        /\ forall n, (n < length days)%nat ->
             field (nth n days Undefined) (u "day")
               = Num (of_Z (Z.of_nat (S n)))
             /\ field (nth n days Undefined) (u "title")
                = Str (day_title topic (S n))).
Proof.
  split.
  - eexists. split; [reflexivity|]. vm_compute. reflexivity.
  - intros Hd. unfold generateLearningPlan, createFallbackLearningPlan.
    eexists. split; [reflexivity|].
    assert (C : (d = 0 \/ d = 1 \/ d = 2 \/ d = 3 \/ d = 4 \/ d = 5 \/ d = 6
                 \/ 7 <= d)%Z) by lia.
    assert (T : forall n, (n < 7)%nat ->
              field (fallbackDay topic (Z.of_nat (S n))) (u "day")
                = Num (of_Z (Z.of_nat (S n)))
              /\ field (fallbackDay topic (Z.of_nat (S n))) (u "title")
                 = Str (day_title topic (S n))).
    { intros n Hn.
      do 7 (destruct n as [|n]; [split; reflexivity|]). lia. }
    assert (F : fallbackDays 7 topic (of_Z d) 1
                = map (fun n => fallbackDay topic (Z.of_nat (S n)))
                    (seq 0 (Z.to_nat (Z.min d 7)))).
    { destruct C as [->|[->|[->|[->|[->|[->|[->|C]]]]]]];
        try reflexivity.
      rewrite (fallbackDays_bound 7 topic (of_Z d) (Dec 7 0) 1)
        by (rewrite Math_min_of_Z_7 by exact C; reflexivity).
      rewrite Z.min_r by exact C. reflexivity. }
    rewrite F. rewrite length_map, length_seq. split; [reflexivity|].
    intros n Hn.
    assert (n < 7)%nat by lia.
    rewrite (nth_indep _ Undefined (fallbackDay topic 1))
      by (rewrite length_map, length_seq; exact Hn).
    change (fallbackDay topic 1)
      with ((fun n => fallbackDay topic (Z.of_nat (S n))) 0%nat).
    rewrite map_nth, seq_nth by exact Hn. apply T. assumption.
Qed.

Lemma fallback_plan_days_witness :
  exists days,
    generateLearningPlan None (Rejected TypeError) (u "Go") (of_Z 3)
      (u "advanced") (u "1 hour") None = Return (Obj [(u "days", Arr days)])
    /\ length days = 3%nat
    /\ forall n, (n < length days)%nat ->
         field (nth n days Undefined) (u "day") = Num (of_Z (Z.of_nat (S n)))
         /\ field (nth n days Undefined) (u "title")
            = Str (day_title (u "Go") (S n)).
Proof.
  pose proof (fallback_plan_days (Rejected TypeError) (u "Go") (u "advanced")
                (u "1 hour") None 3) as [_ A].
  apply A. lia.
Defined.

(** More rounds than seven change nothing. *)
Lemma fallbackDays_rounds (k : nat) (topic : jsstring)
    (durationDays : number) :
  fallbackDays (7 + k) topic durationDays 1
  = fallbackDays 7 topic durationDays 1.
Proof.
  assert (E : forall n, fallbackDays n topic durationDays 8 = []).
  { intros [|n]; [reflexivity|]. cbn [fallbackDays].
    rewrite fallbackDays_done. reflexivity. }
  cbn [fallbackDays Nat.add Z.add Pos.add Pos.succ].
  repeat match goal with
         | |- (if ?c then _ else _) = _ =>
             destruct c; [f_equal | reflexivity]
         end.
  rewrite E. reflexivity.
Qed.

(** ** The shape of the results *)

Lemma all_strings (l : list jsstring) : forallb is_string (map Str l) = true.
Proof. induction l as [|a l IH]; simpl; [reflexivity | exact IH]. Qed.

Lemma strings_shape (l : list jsstring) : array_of is_string (strings l) = true.
Proof. apply all_strings. Qed.

Lemma mapM_all {A : Type} (f : A -> result value) (p : value -> bool)
    (l : list A) (l' : list value) :
  (forall x y, f x = Return y -> p y = true) ->
  mapM f l = Return l' -> forallb p l' = true.
Proof.
  intros Hf. revert l'. induction l as [|a l IH]; cbn [mapM]; intros l' H.
  - injection H as <-. reflexivity.
  - returned H. injection H as <-. simpl.
    rewrite (Hf _ _ E), (IH _ eq_refl). reflexivity.
Qed.

Lemma map_String_shape (v r : value) :
  map_String v = Return r -> array_of is_string r = true.
Proof.
  destruct v; cbn [map_String]; intros H;
    try (injection H as <-; reflexivity).
  returned H. injection H as <-. simpl.
  eapply mapM_all; [|exact E].
  intros a y Hy. returned Hy. injection Hy as <-. reflexivity.
Qed.

Lemma map_String_default (v r : value) :
  map_String v = Return r -> isArray v = false -> r = Arr [].
Proof. destruct v; simpl; intros H A; congruence. Qed.

Lemma string_or_empty_shape (v r : value) :
  string_or_empty v = Return r -> is_string r = true.
Proof.
  unfold string_or_empty. intros H. returned H. injection H as <-.
  reflexivity.
Qed.

Lemma string_or_empty_default (v r : value) :
  string_or_empty v = Return r -> ToBoolean v = false -> r = Str [].
Proof.
  unfold string_or_empty, or_else. intros H B. rewrite B in H.
  simpl in H. congruence.
Qed.

Lemma map_or_empty_shape (f : value -> result value) (p : value -> bool)
    (v r : value) :
  (forall x y, f x = Return y -> p y = true) ->
  map_or_empty f v = Return r -> array_of p r = true.
Proof.
  intros Hf. destruct v; cbn [map_or_empty]; intros H;
    try (injection H as <-; reflexivity).
  returned H. injection H as <-. simpl. eapply mapM_all; eassumption.
Qed.

Lemma map_or_empty_default (f : value -> result value) (v r : value) :
  map_or_empty f v = Return r -> isArray v = false -> r = Arr [].
Proof. destruct v; simpl; intros H A; congruence. Qed.

Lemma truthy_elements_shape (v : value) : isArray (truthy_elements v) = true.
Proof. destruct v; reflexivity. Qed.

Lemma array_or_empty_shape (v : value) : isArray (array_or_empty v) = true.
Proof. destruct v; reflexivity. Qed.

Lemma detailedContent_of_shape (parsed r : value) :
  detailedContent_of parsed = Return r -> detailed_shape r = true.
Proof.
  unfold detailedContent_of. intros H. returned H. injection H as <-.
  unfold detailed_shape. cbn [field lookup]. cbn.
  rewrite !truthy_elements_shape. reflexivity.
Qed.

Lemma mcq_of_shape (q r : value) : mcq_of q = Return r -> mcq_shape r = true.
Proof.
  unfold mcq_of. intros H. returned H. injection H as <-.
  unfold mcq_shape. cbn.
  rewrite (string_or_empty_shape _ E0), (map_String_shape _ E2),
    (string_or_empty_shape _ E4), (string_or_empty_shape _ E6).
  reflexivity.
Qed.

Lemma theory_of_shape (q r : value) :
  theory_of q = Return r -> theory_shape r = true.
Proof.
  unfold theory_of. intros H. returned H. injection H as <-.
  unfold theory_shape. cbn.
  rewrite (string_or_empty_shape _ E0), (string_or_empty_shape _ E2),
    (map_String_shape _ E4).
  reflexivity.
Qed.

Lemma quiz_of_shape (parsed r : value) :
  quiz_of parsed = Return r -> quiz_shape r = true.
Proof.
  unfold quiz_of. intros H. returned H. injection H as <-.
  unfold quiz_shape. cbn.
  rewrite (map_or_empty_shape _ mcq_shape _ mcq_of_shape E0),
    (map_or_empty_shape _ theory_shape _ theory_of_shape E2).
  reflexivity.
Qed.

Lemma basicQuestions_shape (text dayTitle : jsstring)
    (subtopics explanations : list jsstring) :
  quiz_shape (basicQuestions text dayTitle subtopics explanations) = true.
Proof.
  unfold quiz_shape, basicQuestions, mcq_shape, theory_shape. cbn.
  rewrite !all_strings.
  destruct subtopics as [|[|c s0] l]; reflexivity.
Qed.

Lemma grade_of_shape (parsed r : value) :
  grade_of parsed = Return r -> grade_shape r = true.
Proof.
  unfold grade_of. intros H. returned H. injection H as <-.
  unfold grade_shape. cbn.
  rewrite (map_String_shape _ E4), (map_String_shape _ E6). reflexivity.
Qed.

Lemma fallbackGrade_shape (userAnswer : jsstring) :
  grade_shape (fallbackGrade userAnswer) = true.
Proof.
  rewrite fallbackGrade_cases.
  destruct (Nat.ltb 50 (length userAnswer)); reflexivity.
Qed.

Lemma tutorAnswer_of_shape (parsed r : value) :
  tutorAnswer_of parsed = Return r -> tutor_shape r = true.
Proof.
  unfold tutorAnswer_of. intros H. returned H. injection H as <-.
  unfold tutor_shape. cbn.
  rewrite (string_or_empty_shape _ E0), !array_or_empty_shape. reflexivity.
Qed.

Lemma try_parsed (coerce : value -> result value) (service : reply)
    (r : value) :
  match service with
  | Rejected e => Throw e
  | Completion choices =>
      response <- content_or_throw choices ;;
      let cleanedResponse := cleanJsonResponse response in
      let fixedResponse := fixJsonEscaping cleanedResponse in
      parsed <- JSON_parse fixedResponse ;;
      coerce parsed
  end = Return r ->
  exists parsed, coerce parsed = Return r.
Proof.
  destruct service as [e|choices]; [discriminate|].
  intros H. returned H. cbv zeta in H. returned H. eauto.
Qed.

Lemma says_pipeline (response : jsstring) (parsed : value)
    (coerce : value -> result value) :
  JSON_parse (cleanJsonResponse response) = Return parsed ->
  match says response with
  | Rejected e => Throw e
  | Completion choices =>
      response <- content_or_throw choices ;;
      let cleanedResponse := cleanJsonResponse response in
      let fixedResponse := fixJsonEscaping cleanedResponse in
      parsed <- JSON_parse fixedResponse ;;
      coerce parsed
  end = coerce parsed.
Proof.
  intros H. destruct response as [|c t]; [discriminate H|].
  unfold says. cbn [content_or_throw first_content message_content bind].
  cbv zeta.
  assert (E : fixJsonEscaping (cleanJsonResponse (c :: t))
              = cleanJsonResponse (c :: t)).
  { unfold fixJsonEscaping. rewrite H. reflexivity. }
  rewrite E, H. reflexivity.
Qed.

Lemma getDetailedSubtopicContent_shape (groq : option Groq)
    (service : reply) (topic dayTitle subtopic level : jsstring)
    (userProfile : option UserProfile) :
  exists r,
    getDetailedSubtopicContent groq service topic dayTitle subtopic level
      userProfile = Return r
    /\ detailed_shape r = true.
Proof.
  destruct groq as [g|]; [|eexists; split; reflexivity].
  destruct (getDetailedSubtopicContent_try service) as [r|e] eqn:E.
  - exists r. split.
    + unfold getDetailedSubtopicContent. rewrite E. reflexivity.
    + apply try_parsed in E. destruct E as [parsed E].
      eapply detailedContent_of_shape, E.
  - erewrite getDetailedSubtopicContent_catch by exact E.
    eexists; split; reflexivity.
Qed.

Lemma generateQuizQuestions_shape (groq : option Groq) (service : reply)
    (dayTitle : jsstring) (subtopics explanations : list jsstring)
    (userProfile : option UserProfile) :
  exists r,
    generateQuizQuestions groq service dayTitle subtopics explanations
      userProfile = Return r
    /\ quiz_shape r = true.
Proof.
  unfold generateQuizQuestions.
  destruct groq as [g|];
    [|eexists; split; [reflexivity | apply basicQuestions_shape]].
  destruct (generateQuizQuestions_try service) as [r|e] eqn:E.
  - exists r. split; [reflexivity|].
    apply try_parsed in E. destruct E as [parsed E].
    eapply quiz_of_shape, E.
  - eexists; split; [reflexivity | apply basicQuestions_shape].
Qed.

Lemma gradeTheoryAnswer_shape (groq : option Groq) (service : reply)
    (question userAnswer correctAnswer : jsstring)
    (keyPoints : list jsstring) :
  exists r,
    gradeTheoryAnswer groq service question userAnswer correctAnswer
      keyPoints = Return r
    /\ grade_shape r = true.
Proof.
  unfold gradeTheoryAnswer.
  destruct groq as [g|];
    [|eexists; split; [reflexivity | apply fallbackGrade_shape]].
  destruct (gradeTheoryAnswer_try service) as [r|e] eqn:E.
  - exists r. split; [reflexivity|].
    apply try_parsed in E. destruct E as [parsed E].
    eapply grade_of_shape, E.
  - eexists; split; [reflexivity | apply fallbackGrade_shape].
Qed.

Lemma askTutorQuestion_shape (g : Groq) (service : reply)
    (context question : jsstring) (userProfile : option UserProfile)
    (r : value) :
  askTutorQuestion (Some g) service context question userProfile = Return r ->
  tutor_shape r = true.
Proof.
  intros H.
  destruct (askTutorQuestion_try service) as [r'|e] eqn:E.
  - unfold askTutorQuestion in H. rewrite E in H. injection H as <-.
    apply try_parsed in E. destruct E as [parsed E].
    eapply tutorAnswer_of_shape, E.
  - rewrite (askTutorQuestion_catch g _ context question userProfile E) in H.
    discriminate.
Qed.

Lemma default_text (v : value) (text s : jsstring) :
  ToString (or_else v (Str text)) = Return s -> ToBoolean v = false ->
  s = text.
Proof. unfold or_else. intros H B. rewrite B in H. simpl in H. congruence. Qed.

Lemma detailedContent_of_fields (parsed r : value) :
  detailedContent_of parsed = Return r ->
  (ToBoolean (field parsed (u "content")) = false ->
   field r (u "content") = Str (u "Content not available"))
  /\ field r (u "keyPoints") = truthy_elements (field parsed (u "keyPoints"))
  /\ field r (u "examples") = truthy_elements (field parsed (u "examples"))
  /\ field r (u "practicalApplications")
     = truthy_elements (field parsed (u "practicalApplications")).
Proof.
  unfold detailedContent_of. intros H. returned H. injection H as <-.
  apply get_field in E, E1, E2, E3. subst.
  split; [|repeat split].
  intros B. cbn. f_equal. eapply default_text; eassumption.
Qed.

Lemma grade_of_fields (parsed r : value) :
  grade_of parsed = Return r ->
  (ToBoolean (field parsed (u "feedback")) = false ->
   field r (u "feedback") = Str (u "No feedback available"))
  /\ (isArray (field parsed (u "strengths")) = false ->
      field r (u "strengths") = Arr [])
  /\ (isArray (field parsed (u "improvements")) = false ->
      field r (u "improvements") = Arr []).
Proof.
  unfold grade_of. intros H. returned H. injection H as <-.
  apply get_field in E, E1, E3, E5. subst.
  split; [|split]; intros B; cbn.
  - f_equal. eapply default_text; eassumption.
  - eapply map_String_default; eassumption.
  - eapply map_String_default; eassumption.
Qed.

Lemma quiz_of_fields (parsed r : value) :
  quiz_of parsed = Return r ->
  (isArray (field parsed (u "mcq")) = false -> field r (u "mcq") = Arr [])
  /\ (isArray (field parsed (u "theory")) = false ->
      field r (u "theory") = Arr []).
Proof.
  unfold quiz_of. intros H. returned H. injection H as <-.
  apply get_field in E, E1. subst.
  split; intros B; cbn; eapply map_or_empty_default; eassumption.
Qed.

Lemma tutorAnswer_of_fields (parsed r : value) :
  tutorAnswer_of parsed = Return r ->
  (ToBoolean (field parsed (u "answer")) = false ->
   field r (u "answer") = Str [])
  /\ field r (u "codeExamples")
     = array_or_empty (field parsed (u "codeExamples"))
  /\ field r (u "relatedConcepts")
     = array_or_empty (field parsed (u "relatedConcepts"))
  /\ field r (u "furtherReading")
     = array_or_empty (field parsed (u "furtherReading")).
Proof.
  unfold tutorAnswer_of. intros H. returned H. injection H as <-.
  apply get_field in E, E1, E2, E3. subst.
  split; [|repeat split].
  intros B. cbn. eapply string_or_empty_default; eassumption.
Qed.

Lemma generateLearningPlan_parsed (g : Groq) (response topic : jsstring)
    (durationDays : number) (level dailyTime : jsstring)
    (userProfile : option UserProfile) (v : value) :
  JSON_parse (cleanJsonResponse response) = Return v ->
  generateLearningPlan (Some g) (says response) topic durationDays level
    dailyTime userProfile = Return v.
Proof.
  intros H. destruct response as [|c t]; [discriminate H|].
  unfold generateLearningPlan, generateLearningPlan_try, says.
  cbn [content_or_throw first_content message_content bind].
  rewrite H. reflexivity.
Qed.

(** C2, as stated, fails.  [generateLearningPlan] returns whatever the
    response parses to: the response [{}] gives an object without [days].
    [getDetailedSubtopicContent] keeps the truthy elements of a parsed array
    whatever they are: here a number and an object in [keyPoints]; and a
    [content] of another type is converted, not replaced by the default. *)
Lemma results_not_always_typed :
  generateLearningPlan client (says (j "{}")) (u "Rust") (of_Z 10)
    (u "beginner") (u "30 minutes") None = Return (Obj [])
  /\ field (Obj []) (u "days") = Undefined
  /\ getDetailedSubtopicContent client
       (says (j "{'content': 12, 'keyPoints': [1, {'a': 2}, 'x']}"))
       (u "Rust") (u "Day 1") (u "Ownership") (u "beginner") None
     = Return (Obj [(u "content", Str (u "12"));
                    (u "keyPoints",
                     Arr [Num (Dec 1 0); Obj [(u "a", Num (Dec 2 0))];
                          Str (u "x")]);
                    (u "examples", Arr []);
                    (u "practicalApplications", Arr [])])
  /\ array_of is_string
       (Arr [Num (Dec 1 0); Obj [(u "a", Num (Dec 2 0))]; Str (u "x")])
     = false.
Proof. vm_compute. repeat split. Qed.

Lemma coerced_string_intro (v : value) (text s : jsstring) :
  ToString (or_else v (Str text)) = Return s ->
  coerced_string v text (Str s).
Proof.
  unfold coerced_string, or_else. destruct (ToBoolean v); intros H.
  - exists s. split; [exact H | reflexivity].
  - cbn in H. injection H as <-. reflexivity.
Qed.

Lemma string_or_empty_coerced (v r : value) :
  string_or_empty v = Return r -> coerced_string v [] r.
Proof.
  unfold string_or_empty. intros H. returned H. injection H as <-.
  apply coerced_string_intro. assumption.
Qed.

Lemma mapM_String (l l' : list value) :
  mapM (fun x => s <- ToString x ;; Return (Str s)) l = Return l' ->
  exists ss, mapM ToString l = Return ss /\ l' = map Str ss.
Proof.
  revert l'. induction l as [|a l IH]; cbn [mapM]; intros l' H.
  - injection H as <-. exists []. split; reflexivity.
  - destruct (ToString a) as [s|e] eqn:Ea; [|discriminate H].
    cbn [bind] in H.
    destruct (mapM _ l) as [t|e] eqn:El; [|discriminate H].
    cbn [bind] in H. injection H as <-.
    destruct (IH _ eq_refl) as [ss [A ->]].
    exists (s :: ss). cbn [bind]. rewrite A. split; reflexivity.
Qed.

Lemma map_String_coerced (v r : value) :
  map_String v = Return r -> coerced_strings v r.
Proof.
  destruct v; cbn [map_String coerced_strings]; intros H;
    try (injection H as <-; reflexivity).
  returned H. injection H as <-.
  destruct (mapM_String _ E) as [ss [A ->]]. exists ss.
  split; [exact A | reflexivity].
Qed.

Lemma mapM_Forall2 (f : value -> result value) (l l' : list value) :
  mapM f l = Return l' -> Forall2 (fun x y => f x = Return y) l l'.
Proof.
  revert l'. induction l as [|a l IH]; cbn [mapM]; intros l' H.
  - injection H as <-. constructor.
  - returned H. injection H as <-. constructor; [exact E | apply IH, eq_refl].
Qed.

Lemma map_or_empty_coerced (f : value -> result value) (v r : value) :
  map_or_empty f v = Return r -> coerced_each f v r.
Proof.
  destruct v; cbn [map_or_empty coerced_each]; intros H;
    try (injection H as <-; reflexivity).
  returned H. injection H as <-. exists x.
  split; [apply mapM_Forall2, E | reflexivity].
Qed.

Lemma detailedContent_of_content (parsed r : value) :
  detailedContent_of parsed = Return r ->
  coerced_string (field parsed (u "content")) (u "Content not available")
    (field r (u "content")).
Proof.
  unfold detailedContent_of. intros H. returned H. injection H as <-.
  apply get_field in E. subst. cbn [field lookup eqb_str].
  apply coerced_string_intro. assumption.
Qed.

Lemma quiz_of_each (parsed r : value) :
  quiz_of parsed = Return r ->
  coerced_each mcq_of (field parsed (u "mcq")) (field r (u "mcq"))
  /\ coerced_each theory_of (field parsed (u "theory"))
       (field r (u "theory")).
Proof.
  unfold quiz_of. intros H. returned H. injection H as <-.
  apply get_field in E, E1. subst.
  split; apply map_or_empty_coerced; assumption.
Qed.

Lemma mcq_of_fields (q rq : value) :
  mcq_of q = Return rq ->
  coerced_string (field q (u "question")) [] (field rq (u "question"))
  /\ coerced_strings (field q (u "options")) (field rq (u "options"))
  /\ coerced_string (field q (u "correct_answer")) []
       (field rq (u "correct_answer"))
  /\ coerced_string (field q (u "explanation")) []
       (field rq (u "explanation")).
Proof.
  unfold mcq_of. intros H. returned H. injection H as <-.
  apply get_field in E, E1, E3, E5. subst.
  repeat split;
    first [apply string_or_empty_coerced | apply map_String_coerced];
    assumption.
Qed.

Lemma theory_of_fields (q rq : value) :
  theory_of q = Return rq ->
  coerced_string (field q (u "question")) [] (field rq (u "question"))
  /\ coerced_string (field q (u "correct_answer")) []
       (field rq (u "correct_answer"))
  /\ coerced_strings (field q (u "key_points")) (field rq (u "key_points")).
Proof.
  unfold theory_of. intros H. returned H. injection H as <-.
  apply get_field in E, E1, E3. subst.
  repeat split;
    first [apply string_or_empty_coerced | apply map_String_coerced];
    assumption.
Qed.

Lemma grade_of_coerced (parsed r : value) :
  grade_of parsed = Return r ->
  coerced_string (field parsed (u "feedback")) (u "No feedback available")
    (field r (u "feedback"))
  /\ coerced_strings (field parsed (u "strengths")) (field r (u "strengths"))
  /\ coerced_strings (field parsed (u "improvements"))
       (field r (u "improvements"))
  /\ exists s, score_of (field parsed (u "score")) = Return s
               /\ field r (u "score") = Num s.
Proof.
  unfold grade_of. intros H. returned H. injection H as <-.
  apply get_field in E, E1, E3, E5. subst.
  split; [|split; [|split]].
  - apply coerced_string_intro. assumption.
  - apply map_String_coerced. assumption.
  - apply map_String_coerced. assumption.
  - exists x0. split; [assumption | reflexivity].
Qed.

Lemma tutorAnswer_of_answer (parsed r : value) :
  tutorAnswer_of parsed = Return r ->
  coerced_string (field parsed (u "answer")) [] (field r (u "answer")).
Proof.
  unfold tutorAnswer_of. intros H. returned H. injection H as <-.
  apply get_field in E. subst. apply string_or_empty_coerced. assumption.
Qed.

(** With a client, a response that parses once its fences are removed
    is answered by what the operation builds from the parsed value. *)
Lemma operations_parsed (g : Groq)
    (response topic dayTitle subtopic level context question userAnswer
       correctAnswer : jsstring)
    (subtopics explanations keyPoints : list jsstring)
    (userProfile : option UserProfile) (parsed r : value) :
  JSON_parse (cleanJsonResponse response) = Return parsed ->
  (detailedContent_of parsed = Return r ->
   getDetailedSubtopicContent (Some g) (says response) topic dayTitle
     subtopic level userProfile = Return r)
  /\ (quiz_of parsed = Return r ->
      generateQuizQuestions (Some g) (says response) dayTitle subtopics
        explanations userProfile = Return r)
  /\ (grade_of parsed = Return r ->
      gradeTheoryAnswer (Some g) (says response) question userAnswer
        correctAnswer keyPoints = Return r)
  /\ (tutorAnswer_of parsed = Return r ->
      askTutorQuestion (Some g) (says response) context question userProfile
      = Return r).
Proof.
  intros P. repeat split; intros H.
  - unfold getDetailedSubtopicContent.
    replace (getDetailedSubtopicContent_try (says response))
      with (detailedContent_of parsed)
      by (symmetry; apply (says_pipeline _ detailedContent_of P)).
    rewrite H. reflexivity.
  - unfold generateQuizQuestions.
    replace (generateQuizQuestions_try (says response))
      with (quiz_of parsed)
      by (symmetry; apply (says_pipeline _ quiz_of P)).
    rewrite H. reflexivity.
  - unfold gradeTheoryAnswer.
    replace (gradeTheoryAnswer_try (says response))
      with (grade_of parsed)
      by (symmetry; apply (says_pipeline _ grade_of P)).
    rewrite H. reflexivity.
  - unfold askTutorQuestion.
    replace (askTutorQuestion_try (says response))
      with (tutorAnswer_of parsed)
      by (symmetry; apply (says_pipeline _ tutorAnswer_of P)).
    rewrite H. reflexivity.
Qed.

(** C2, amended.  Whatever the service replies, [getDetailedSubtopicContent],
    [generateQuizQuestions] and [gradeTheoryAnswer] return an object with
    every field present, every string field a string, every array field an
    array and the score a number, the arrays of [generateQuizQuestions] and
    [gradeTheoryAnswer] holding strings only; so does [askTutorQuestion]
    with a client, its arrays apart, whenever it returns.  In the object
    built from a parsed response a string field that is missing or falsy
    takes the default text ('Content not available' for [content], 'No
    feedback available' for [feedback], the empty text for [answer] and for
    the [question], [correct_answer] and [explanation] of a quiz question)
    and any other value is converted with [String]; an array field that is
    missing or not an array becomes the empty array; [options],
    [key_points], [strengths] and [improvements] hold the parsed elements,
    each converted with [String]; [mcq] and [theory] hold, for each parsed
    element in order, the question built from it; [score] is the clamped
    number; [keyPoints], [examples] and [practicalApplications] keep the
    truthy elements of the parsed array as they are, and [codeExamples],
    [relatedConcepts] and [furtherReading] keep the parsed array as it is.
    With a client, a response that parses once its fences are removed is
    answered by that object.  [generateLearningPlan] returns the value the
    cleaned response parses to, unchecked. *)
Theorem results_well_formed (groq : option Groq) (g : Groq)
    (service : reply)
    (topic dayTitle subtopic level context question userAnswer correctAnswer
       dailyTime response : jsstring)
    (subtopics explanations keyPoints : list jsstring)
    (durationDays : number) (userProfile : option UserProfile)
    (parsed r q rq : value) :
  (exists r,
     getDetailedSubtopicContent groq service topic dayTitle subtopic level
       userProfile = Return r /\ detailed_shape r = true)
  /\ (exists r,
        generateQuizQuestions groq service dayTitle subtopics explanations
          userProfile = Return r /\ quiz_shape r = true)
  /\ (exists r,
        gradeTheoryAnswer groq service question userAnswer correctAnswer
          keyPoints = Return r /\ grade_shape r = true)
  /\ (askTutorQuestion (Some g) service context question userProfile
        = Return r -> tutor_shape r = true)
  /\ (detailedContent_of parsed = Return r ->
      (ToBoolean (field parsed (u "content")) = false ->
       field r (u "content") = Str (u "Content not available"))
      /\ field r (u "keyPoints")
         = truthy_elements (field parsed (u "keyPoints"))
      /\ field r (u "examples")
         = truthy_elements (field parsed (u "examples"))
      /\ field r (u "practicalApplications")
         = truthy_elements (field parsed (u "practicalApplications")))
  /\ (quiz_of parsed = Return r ->
      (isArray (field parsed (u "mcq")) = false ->
       field r (u "mcq") = Arr [])
      /\ (isArray (field parsed (u "theory")) = false ->
          field r (u "theory") = Arr []))
  /\ (grade_of parsed = Return r ->
      (ToBoolean (field parsed (u "feedback")) = false ->
       field r (u "feedback") = Str (u "No feedback available"))
      /\ (isArray (field parsed (u "strengths")) = false ->
          field r (u "strengths") = Arr [])
      /\ (isArray (field parsed (u "improvements")) = false ->
          field r (u "improvements") = Arr []))
  /\ (tutorAnswer_of parsed = Return r ->
      (ToBoolean (field parsed (u "answer")) = false ->
       field r (u "answer") = Str [])
      /\ field r (u "codeExamples")
         = array_or_empty (field parsed (u "codeExamples"))
      /\ field r (u "relatedConcepts")
         = array_or_empty (field parsed (u "relatedConcepts"))
      /\ field r (u "furtherReading")
         = array_or_empty (field parsed (u "furtherReading")))
  /\ (JSON_parse (cleanJsonResponse response) = Return parsed ->
      generateLearningPlan (Some g) (says response) topic durationDays level
        dailyTime userProfile = Return parsed)
  /\ (detailedContent_of parsed = Return r ->
      coerced_string (field parsed (u "content")) (u "Content not available")
        (field r (u "content")))
  /\ (quiz_of parsed = Return r ->
      coerced_each mcq_of (field parsed (u "mcq")) (field r (u "mcq"))
      /\ coerced_each theory_of (field parsed (u "theory"))
           (field r (u "theory")))
  /\ (mcq_of q = Return rq ->
      coerced_string (field q (u "question")) [] (field rq (u "question"))
      /\ coerced_strings (field q (u "options")) (field rq (u "options"))
      /\ coerced_string (field q (u "correct_answer")) []
           (field rq (u "correct_answer"))
      /\ coerced_string (field q (u "explanation")) []
           (field rq (u "explanation")))
  /\ (theory_of q = Return rq ->
      coerced_string (field q (u "question")) [] (field rq (u "question"))
      /\ coerced_string (field q (u "correct_answer")) []
           (field rq (u "correct_answer"))
      /\ coerced_strings (field q (u "key_points"))
           (field rq (u "key_points")))
  /\ (grade_of parsed = Return r ->
      coerced_string (field parsed (u "feedback"))
        (u "No feedback available") (field r (u "feedback"))
      /\ coerced_strings (field parsed (u "strengths"))
           (field r (u "strengths"))
      /\ coerced_strings (field parsed (u "improvements"))
           (field r (u "improvements"))
      /\ exists s, score_of (field parsed (u "score")) = Return s
                   /\ field r (u "score") = Num s)
  /\ (tutorAnswer_of parsed = Return r ->
      coerced_string (field parsed (u "answer")) [] (field r (u "answer")))
  /\ (JSON_parse (cleanJsonResponse response) = Return parsed ->
      (detailedContent_of parsed = Return r ->
       getDetailedSubtopicContent (Some g) (says response) topic dayTitle
         subtopic level userProfile = Return r)
      /\ (quiz_of parsed = Return r ->
          generateQuizQuestions (Some g) (says response) dayTitle subtopics
            explanations userProfile = Return r)
      /\ (grade_of parsed = Return r ->
          gradeTheoryAnswer (Some g) (says response) question userAnswer
            correctAnswer keyPoints = Return r)
      /\ (tutorAnswer_of parsed = Return r ->
          askTutorQuestion (Some g) (says response) context question
            userProfile = Return r)).
Proof.
  split; [apply getDetailedSubtopicContent_shape|].
  split; [apply generateQuizQuestions_shape|].
  split; [apply gradeTheoryAnswer_shape|].
  split; [apply askTutorQuestion_shape|].
  split; [apply detailedContent_of_fields|].
  split; [apply quiz_of_fields|].
  split; [apply grade_of_fields|].
  split; [apply tutorAnswer_of_fields|].
  split; [apply generateLearningPlan_parsed|].
  split; [apply detailedContent_of_content|].
  split; [apply quiz_of_each|].
  split; [apply mcq_of_fields|].
  split; [apply theory_of_fields|].
  split; [apply grade_of_coerced|].
  split; [apply tutorAnswer_of_answer|].
  apply operations_parsed.
Qed.

Lemma results_well_formed_witness :
  tutor_shape (Obj [(u "answer", Str (u "yes")); (u "codeExamples", Arr []);
                    (u "relatedConcepts", Arr [Num (Dec 1 0)]);
                    (u "furtherReading", Arr [])]) = true
  /\ field (Obj [(u "content", Str (u "Content not available"));
                 (u "keyPoints", Arr [Str (u "a")]); (u "examples", Arr []);
                 (u "practicalApplications", Arr [])]) (u "content")
     = Str (u "Content not available")
  /\ field (Obj [(u "mcq", Arr []); (u "theory", Arr [])]) (u "mcq") = Arr []
  /\ field (Obj [(u "score", Num (Dec 0 0));
                 (u "feedback", Str (u "No feedback available"));
                 (u "strengths", Arr []); (u "improvements", Arr [])])
       (u "feedback") = Str (u "No feedback available")
  /\ field (Obj [(u "answer", Str []); (u "codeExamples", Arr []);
                 (u "relatedConcepts", Arr []); (u "furtherReading", Arr [])])
       (u "answer") = Str []
  /\ generateLearningPlan client (says (j "{'days': []}")) (u "Rust")
       (of_Z 10) (u "beginner") (u "30 minutes") None
     = Return (Obj [(u "days", Arr [])])
  /\ coerced_string (Num (Dec 12 0)) (u "Content not available")
       (Str (u "12"))
  /\ coerced_strings (Arr [Num (Dec 1 0); Bool true; Str (u "c")])
       (strings [u "1"; u "true"; u "c"])
  /\ gradeTheoryAnswer client
       (says (j "{'score': '8.5', 'feedback': 0, 'strengths': [1, true]}"))
       (u "why?") (u "because") (u "so") [u "c"]
     = Return (Obj [(u "score", Num (Dec 85 (-1)));
                    (u "feedback", Str (u "No feedback available"));
                    (u "strengths", strings [u "1"; u "true"]);
                    (u "improvements", Arr [])]).
Proof.
  pose (g0 := {| apiKey := u "gsk" |}).
  pose (W := fun service response parsed r q rq =>
    results_well_formed client g0 service
      (u "Rust") (u "Day 1") (u "Ownership") (u "beginner") (u "lesson")
      (u "why?") (u "because") (u "so") (u "30 minutes") response
      [u "a"] [u "b"] [u "c"] (of_Z 10) None parsed r q rq).
  pose proof (W (says (j "{'answer': 'yes', 'relatedConcepts': [1]}"))
    (j "{'days': []}")
    (Obj [(u "days", Arr [])])
    (Obj [(u "answer", Str (u "yes")); (u "codeExamples", Arr []);
          (u "relatedConcepts", Arr [Num (Dec 1 0)]);
          (u "furtherReading", Arr [])])
    Undefined Undefined)
    as [_ [_ [_ [T [_ [_ [_ [_ [P _]]]]]]]]].
  pose proof (W (Rejected TypeError) []
    (Obj [(u "keyPoints", Arr [Str (u "a"); Null])])
    (Obj [(u "content", Str (u "Content not available"));
          (u "keyPoints", Arr [Str (u "a")]); (u "examples", Arr []);
          (u "practicalApplications", Arr [])])
    Undefined Undefined)
    as [_ [_ [_ [_ [D _]]]]].
  pose proof (W (Rejected TypeError) []
    (Obj [])
    (Obj [(u "mcq", Arr []); (u "theory", Arr [])])
    Undefined Undefined)
    as [_ [_ [_ [_ [_ [Q _]]]]]].
  pose proof (W (Rejected TypeError) []
    (Obj [])
    (Obj [(u "score", Num (Dec 0 0));
          (u "feedback", Str (u "No feedback available"));
          (u "strengths", Arr []); (u "improvements", Arr [])])
    Undefined Undefined)
    as [_ [_ [_ [_ [_ [_ [G _]]]]]]].
  pose proof (W (Rejected TypeError) []
    (Obj [])
    (Obj [(u "answer", Str []); (u "codeExamples", Arr []);
          (u "relatedConcepts", Arr []); (u "furtherReading", Arr [])])
    Undefined Undefined)
    as [_ [_ [_ [_ [_ [_ [_ [A _]]]]]]]].
  pose proof (W (Rejected TypeError) []
    (Obj [(u "content", Num (Dec 12 0))])
    (Obj [(u "content", Str (u "12")); (u "keyPoints", Arr []);
          (u "examples", Arr []); (u "practicalApplications", Arr [])])
    (Obj [(u "options", Arr [Num (Dec 1 0); Bool true; Str (u "c")])])
    (Obj [(u "question", Str []);
          (u "options", strings [u "1"; u "true"; u "c"]);
          (u "correct_answer", Str []); (u "explanation", Str [])]))
    as [_ [_ [_ [_ [_ [_ [_ [_ [_ [C [_ [M _]]]]]]]]]]]].
  pose proof (W (Rejected TypeError)
    (j "{'score': '8.5', 'feedback': 0, 'strengths': [1, true]}")
    (Obj [(u "score", Str (u "8.5")); (u "feedback", Num (Dec 0 0));
          (u "strengths", Arr [Num (Dec 1 0); Bool true])])
    (Obj [(u "score", Num (Dec 85 (-1)));
          (u "feedback", Str (u "No feedback available"));
          (u "strengths", strings [u "1"; u "true"]);
          (u "improvements", Arr [])])
    Undefined Undefined)
    as [_ [_ [_ [_ [_ [_ [_ [_ [_ [_ [_ [_ [_ [_ [_ L]]]]]]]]]]]]]]].
  repeat apply conj.
  - apply T. vm_compute. reflexivity.
  - apply D; vm_compute; reflexivity.
  - apply Q; vm_compute; reflexivity.
  - apply G; vm_compute; reflexivity.
  - apply A; vm_compute; reflexivity.
  - apply P. vm_compute. reflexivity.
  - apply C. vm_compute. reflexivity.
  - apply M. vm_compute. reflexivity.
  - apply L; vm_compute; reflexivity.
Defined.

(** ** More on the normalizer *)

Lemma trimStart_decomp (s : jsstring) :
  exists w, s = w ++ trimStart s /\ forallb isWhiteSpace w = true.
Proof.
  induction s as [|c s [w [E W]]]; [exists []; split; reflexivity|].
  simpl. destruct (isWhiteSpace c) eqn:C.
  - exists (c :: w). simpl. rewrite C, W. rewrite E at 1. split; reflexivity.
  - exists []. split; reflexivity.
Qed.

Lemma trimEnd_decomp (s : jsstring) :
  exists w, s = trimEnd s ++ w /\ forallb isWhiteSpace w = true.
Proof.
  destruct (trimStart_decomp (rev s)) as [w [E W]].
  exists (rev w). split.
  - unfold trimEnd. rewrite <- rev_app_distr, <- E. symmetry.
    apply rev_involutive.
  - rewrite forallb_forall in *. intros x Hx. apply W, in_rev, Hx.
Qed.

Lemma trimStart_clean (s : jsstring) : starts_clean (trimStart s) = true.
Proof.
  induction s as [|c s IH]; [reflexivity|]. simpl.
  destruct (isWhiteSpace c) eqn:C; [exact IH|]. simpl. rewrite C. reflexivity.
Qed.

Lemma trimStart_of_clean (s : jsstring) :
  starts_clean s = true -> trimStart s = s.
Proof.
  destruct s as [|c s]; [reflexivity|]. simpl.
  destruct (isWhiteSpace c); [discriminate | reflexivity].
Qed.

Lemma trimEnd_clean (s : jsstring) : ends_clean (trimEnd s) = true.
Proof.
  unfold ends_clean, trimEnd. rewrite rev_involutive. apply trimStart_clean.
Qed.

Lemma trimEnd_of_clean (s : jsstring) : ends_clean s = true -> trimEnd s = s.
Proof.
  unfold ends_clean, trimEnd. intros H. rewrite trimStart_of_clean by exact H.
  apply rev_involutive.
Qed.

(** Trimming the end keeps a clean start. *)
Lemma trimEnd_keeps_start (s : jsstring) :
  starts_clean s = true -> starts_clean (trimEnd s) = true.
Proof.
  intros H. destruct (trimEnd_decomp s) as [w [E W]].
  destruct (trimEnd s) as [|c t] eqn:T; [reflexivity|].
  rewrite E in H. exact H.
Qed.

Lemma trim_clean (s : jsstring) :
  starts_clean (trim s) = true /\ ends_clean (trim s) = true.
Proof.
  unfold trim. split; [|apply trimEnd_clean].
  apply trimEnd_keeps_start, trimStart_clean.
Qed.

Lemma trim_of_clean (s : jsstring) :
  starts_clean s = true -> ends_clean s = true -> trim s = s.
Proof.
  intros A B. unfold trim. rewrite (trimStart_of_clean _ A).
  apply trimEnd_of_clean, B.
Qed.

Lemma trim_idem (s : jsstring) : trim (trim s) = trim s.
Proof. destruct (trim_clean s). apply trim_of_clean; assumption. Qed.

(** X1: the text [cleanJsonResponse] returns is trimmed: it starts and
    ends with no white space, and trimming it again changes nothing. *)
Theorem cleanJsonResponse_trimmed (content : jsstring) :
  starts_clean (cleanJsonResponse content) = true
  /\ ends_clean (cleanJsonResponse content) = true
  /\ trim (cleanJsonResponse content) = cleanJsonResponse content.
Proof.
  assert (T : exists x, cleanJsonResponse content = trim x).
  { unfold cleanJsonResponse.
    repeat match goal with
           | |- context [if ?c then _ else _] => destruct c
           end; eauto. }
  destruct T as [x ->]. destruct (trim_clean x).
  repeat split; try assumption. apply trim_idem.
Qed.

Lemma infix_refl (s : jsstring) : infix s s.
Proof. exists [], []. rewrite app_nil_r. reflexivity. Qed.

Lemma infix_trans (x y z : jsstring) : infix x y -> infix y z -> infix x z.
Proof.
  intros [a [b ->]] [c [d ->]]. exists (c ++ a), (b ++ d).
  rewrite <- !app_assoc. reflexivity.
Qed.

Lemma trim_infix (s : jsstring) : infix (trim s) s.
Proof.
  unfold trim. destruct (trimStart_decomp s) as [w1 [E1 _]].
  destruct (trimEnd_decomp (trimStart s)) as [w2 [E2 _]].
  exists w1, w2. rewrite <- E2. exact E1.
Qed.

Lemma slice_infix (s : jsstring) (start : Z) (end_ : option Z) :
  infix (slice s start end_) s.
Proof.
  unfold slice.
  set (k := Z.to_nat (relIndex (Z.of_nat (length s)) start)).
  match goal with |- infix (firstn ?n _) _ => set (n' := n) end.
  exists (firstn k s), (skipn n' (skipn k s)).
  rewrite (firstn_skipn n' (skipn k s)). symmetry. apply firstn_skipn.
Qed.

(** X2: [cleanJsonResponse] only takes away from the two ends of the text:
    what it returns occurs in the input as one piece, and is no longer than
    the input. *)
Theorem cleanJsonResponse_infix (content : jsstring) :
  infix (cleanJsonResponse content) content
  /\ (length (cleanJsonResponse content) <= length content)%nat.
Proof.
  assert (I : infix (cleanJsonResponse content) content).
  { unfold cleanJsonResponse.
    pose proof (trim_infix content) as T0.
    set (t0 := trim content) in *.
    assert (I1 : infix
                   (if startsWith t0 (u "```json")
                    then trim (slice t0 7 None)
                    else if startsWith t0 (u "```")
                         then trim (slice t0 3 None) else t0) content).
    { destruct (startsWith t0 (u "```json")).
      - eapply infix_trans; [apply trim_infix|].
        eapply infix_trans; [apply slice_infix | exact T0].
      - destruct (startsWith t0 (u "```")); [|exact T0].
        eapply infix_trans; [apply trim_infix|].
        eapply infix_trans; [apply slice_infix | exact T0]. }
    cbv zeta.
    match goal with
    | |- infix (if endsWith ?t _ then _ else _) _ =>
        destruct (endsWith t (u "```")); [|exact I1]
    end.
    eapply infix_trans; [apply trim_infix|].
    eapply infix_trans; [apply slice_infix | exact I1]. }
  split; [exact I|]. destruct I as [a [b E]].
  rewrite E at 2. rewrite !length_app. lia.
Qed.

(** ** More on the fallback learning plan *)

Lemma one_le_seven_le (d : number) :
  num_leb (Dec 7 0) d = true -> num_leb (Dec 1 0) d = true.
Proof.
  destruct d as [|[|]|m e]; try (simpl; congruence).
  unfold num_leb. intros H. apply Z.leb_le in H. apply Z.leb_le.
  pose proof (Z.pow_pos_nonneg 10 (0 - Z.min 0 e) ltac:(lia) ltac:(lia)).
  lia.
Qed.

Lemma first_round (d : number) :
  num_leb (of_Z 1) (Math_min d (Dec 7 0)) = num_leb (Dec 1 0) d.
Proof.
  change (of_Z 1) with (Dec 1 0). unfold Math_min.
  destruct d as [|b|m e]; [reflexivity| |].
  - destruct b; reflexivity.
  - destruct (num_leb (Dec m e) (Dec 7 0)) eqn:L; [reflexivity|].
    apply num_leb_total in L; [|discriminate|discriminate].
    rewrite (one_le_seven_le _ L). reflexivity.
Qed.

(** X3: the fallback plan is empty exactly when the duration is not at
    least 1: for [NaN], zero, a negative number or a fraction below 1 there
    is no day at all, and from 1 on the plan starts with day 1. *)
Theorem fallback_plan_empty (topic : jsstring) (durationDays : number) :
  (num_leb (Dec 1 0) durationDays = false ->
   createFallbackLearningPlan topic durationDays = Obj [(u "days", Arr [])])
  /\ (num_leb (Dec 1 0) durationDays = true ->
      exists days,
        createFallbackLearningPlan topic durationDays
        = Obj [(u "days", Arr (fallbackDay topic 1 :: days))]).
Proof.
  unfold createFallbackLearningPlan. cbn [fallbackDays].
  rewrite first_round. split; intros H; rewrite H; eauto.
Qed.

Lemma fallback_plan_empty_witness :
  createFallbackLearningPlan (u "Rust") NaN = Obj [(u "days", Arr [])]
  /\ createFallbackLearningPlan (u "Rust") (Dec 5 (-1))
     = Obj [(u "days", Arr [])]
  /\ exists days,
       createFallbackLearningPlan (u "Rust") (Dec 25 (-1))
       = Obj [(u "days", Arr (fallbackDay (u "Rust") 1 :: days))].
Proof.
  split; [|split].
  - apply (fallback_plan_empty (u "Rust") NaN). reflexivity.
  - apply (fallback_plan_empty (u "Rust") (Dec 5 (-1))). reflexivity.
  - apply (fallback_plan_empty (u "Rust") (Dec 25 (-1))). reflexivity.
Defined.

(** X4: [generateLearningPlan] never raises, and whenever its [try] block
    fails (the call is rejected, the response is empty, or the cleaned
    response does not parse) it returns the plan it returns without a
    client. *)
Theorem generateLearningPlan_never_raises (groq : option Groq) (g : Groq)
    (service : reply) (topic : jsstring) (durationDays : number)
    (level dailyTime : jsstring) (userProfile : option UserProfile)
    (e : error) :
  (exists plan,
     generateLearningPlan groq service topic durationDays level dailyTime
       userProfile = Return plan)
  /\ (generateLearningPlan_try service = Throw e ->
      generateLearningPlan (Some g) service topic durationDays level
        dailyTime userProfile
      = generateLearningPlan None service topic durationDays level
          dailyTime userProfile).
Proof.
  unfold generateLearningPlan. split.
  - destruct groq; [|eauto].
    destruct (generateLearningPlan_try service); simpl; eauto.
  - intros H. rewrite H. reflexivity.
Qed.

Lemma generateLearningPlan_never_raises_witness :
  generateLearningPlan client (says (j "{'days': [")) (u "Rust") (of_Z 2)
    (u "beginner") (u "1 hour") None
  = generateLearningPlan None (says (j "{'days': [")) (u "Rust") (of_Z 2)
      (u "beginner") (u "1 hour") None.
Proof.
  pose proof (generateLearningPlan_never_raises None {| apiKey := u "gsk" |}
                (says (j "{'days': [")) (u "Rust") (of_Z 2) (u "beginner")
                (u "1 hour") None SyntaxError) as [_ A].
  apply A. vm_compute. reflexivity.
Defined.

(** ** The locally built quiz *)

Lemma eqb_str_eq (a b : jsstring) : eqb_str a b = true <-> a = b.
Proof.
  revert b. induction a as [|c a IH]; intros [|d b]; simpl;
    try (split; congruence).
  rewrite andb_true_iff, N.eqb_eq, IH. split.
  - intros [-> ->]. reflexivity.
  - intros H. injection H as -> ->. split; reflexivity.
Qed.

Lemma eqb_str_refl (a : jsstring) : eqb_str a a = true.
Proof. apply eqb_str_eq. reflexivity. Qed.

(** X5: whenever the [try] block of [generateQuizQuestions] fails, the
    quiz is the locally built one.  Its only multiple-choice question
    offers the first four subtopics as options; when the first subtopic is
    a non-empty string it is the correct answer and the first option; with
    no subtopic at all the question has no option, and its correct answer,
    ['Understanding the basics'], cannot be picked. *)
Theorem fallback_quiz_answer (g : Groq) (service : reply)
    (dayTitle : jsstring) (subtopics explanations : list jsstring)
    (userProfile : option UserProfile) (e : error)
    (c : code_unit) (s0 : jsstring) (others : list jsstring) :
  generateQuizQuestions_try service = Throw e ->
  exists quiz,
    generateQuizQuestions (Some g) service dayTitle subtopics explanations
      userProfile = Return quiz
    /\ field (first_mcq quiz) (u "options") = strings (firstn 4 subtopics)
    /\ (subtopics = (c :: s0) :: others ->
        field (first_mcq quiz) (u "correct_answer") = Str (c :: s0)
        /\ field (first_mcq quiz) (u "options")
           = Arr (Str (c :: s0) :: map Str (firstn 3 others)))
    /\ (subtopics = [] ->
        field (first_mcq quiz) (u "correct_answer")
          = Str (u "Understanding the basics")
        /\ field (first_mcq quiz) (u "options") = Arr []).
Proof.
  intros H. unfold generateQuizQuestions. rewrite H.
  eexists. split; [reflexivity|].
  split; [reflexivity|]. split; intros ->; split; reflexivity.
Qed.

Lemma fallback_quiz_answer_witness :
  exists quiz,
    generateQuizQuestions client (says (u "no quiz today")) (u "Day 1")
      [u "Ownership"; u "Borrowing"] [u "Who owns what."] None
    = Return quiz
    /\ field (first_mcq quiz) (u "correct_answer") = Str (u "Ownership")
    /\ field (first_mcq quiz) (u "options")
       = Arr [Str (u "Ownership"); Str (u "Borrowing")].
Proof.
  destruct (fallback_quiz_answer {| apiKey := u "gsk" |}
              (says (u "no quiz today")) (u "Day 1")
              [u "Ownership"; u "Borrowing"] [u "Who owns what."] None
              (e := SyntaxError) 79%N (u "wnership") [u "Borrowing"])
    as [quiz [E [_ [A _]]]].
  - vm_compute. reflexivity.
  - exists quiz. split; [exact E|]. apply A. reflexivity.
Defined.

(** ** Grading in the quiz *)

Lemma gradeTheoryAnswer_score (groq : option Groq) (service : reply)
    (question userAnswer correctAnswer : jsstring)
    (keyPoints : list jsstring) (r : value) :
  gradeTheoryAnswer groq service question userAnswer correctAnswer keyPoints
    = Return r ->
  exists n, get r (u "score") = Return (Num n) /\ in_0_10 n = true.
Proof.
  assert (F : exists n, get (fallbackGrade userAnswer) (u "score")
                        = Return (Num n) /\ in_0_10 n = true).
  { rewrite fallbackGrade_cases.
    destruct (Nat.ltb 50 (length userAnswer)); eexists; split; reflexivity. }
  unfold gradeTheoryAnswer. destruct groq as [g|].
  - destruct (gradeTheoryAnswer_try service) as [r'|e] eqn:E; simpl;
      intros H; injection H as <-; [|exact F].
    apply try_parsed in E. destruct E as [parsed E].
    unfold grade_of in E. returned E. injection E as <-.
    exists x0. split; [reflexivity|].
    apply score_of_range in E1. destruct E1 as [A B].
    unfold in_0_10. rewrite A, B. reflexivity.
  - intros H. injection H as <-. exact F.
Qed.

(** X6: every response the quiz builds carries a score that is a number
    between 0 and 10.  For a multiple-choice question the answer is correct
    when it is the correct answer, code unit for code unit, and scores 10,
    else 0; any other question is graded by [gradeTheoryAnswer] and is
    correct exactly when its score is at least 7. *)
Theorem gradeAnswer_score (groq : option Groq) (service : reply)
    (currentQuestion : QuizQuestion) (currentAnswer : jsstring)
    (r : QuizResponse) :
  gradeAnswer groq service currentQuestion currentAnswer = Return r ->
  exists n,
    score r = Num n /\ in_0_10 n = true
    /\ (question_type currentQuestion = u "mcq" ->
        (isCorrect r = true <-> currentAnswer = correct_answer currentQuestion)
        /\ n = (if isCorrect r then of_Z 10 else of_Z 0))
    /\ (question_type currentQuestion <> u "mcq" ->
        isCorrect r = num_leb (Dec 7 0) n).
Proof.
  unfold gradeAnswer.
  destruct (eqb_str (question_type currentQuestion) (u "mcq")) eqn:T.
  - apply eqb_str_eq in T. intros H. injection H as <-. cbn [score isCorrect].
    eexists. split; [reflexivity|].
    split; [destruct (eqb_str currentAnswer _); reflexivity|].
    split; [|congruence]. intros _. split; [apply eqb_str_eq | reflexivity].
  - intros H. returned H. injection H as <-. cbn [score isCorrect].
    apply gradeTheoryAnswer_score in E. destruct E as [n [G R]].
    rewrite E0 in G. injection G as ->.
    cbn [ToNumber] in E1. injection E1 as <-.
    exists n. split; [reflexivity|]. split; [exact R|].
    split; [|reflexivity]. intros M. rewrite M, eqb_str_refl in T.
    discriminate.
Qed.

Lemma gradeAnswer_score_witness :
  exists n,
    Num (Dec 85 (-1)) = Num n /\ in_0_10 n = true
    /\ true = num_leb (Dec 7 0) n.
Proof.
  destruct (@gradeAnswer_score client (says (j "{'score': 8.5}"))
              {| question_id := u "q1"; question_text := u "Why?";
                 question_type := u "theory"; question_options := None;
                 correct_answer := u "Because."; explanation := None;
                 key_points := None |}
              (u "Because it is so.")
              {| questionId := u "q1"; userAnswer := u "Because it is so.";
                 isCorrect := true; score := Num (Dec 85 (-1));
                 feedback := Str (u "No feedback available");
                 strengths := Arr []; improvements := Arr [] |})
    as [n [A [B [_ C]]]].
  - vm_compute. reflexivity.
  - exists n. split; [exact A|]. split; [exact B|].
    apply C. discriminate.
Defined.

(** X7: without a client, and whenever the [try] block of
    [gradeTheoryAnswer] fails, the quiz counts a theory answer as correct
    exactly when it has more than 50 code units, with the score 7, and as
    wrong with the score 5 otherwise. *)
Theorem gradeAnswer_fallback (groq : option Groq) (service : reply)
    (currentQuestion : QuizQuestion) (currentAnswer : jsstring) (e : error) :
  question_type currentQuestion <> u "mcq" ->
  groq = None \/ gradeTheoryAnswer_try service = Throw e ->
  exists r,
    gradeAnswer groq service currentQuestion currentAnswer = Return r
    /\ isCorrect r = Nat.ltb 50 (length currentAnswer)
    /\ score r = Num (if Nat.ltb 50 (length currentAnswer)
                      then Dec 7 0 else Dec 5 0).
Proof.
  intros T F. unfold gradeAnswer.
  destruct (eqb_str (question_type currentQuestion) (u "mcq")) eqn:M;
    [apply eqb_str_eq in M; contradiction|].
  assert (G : gradeTheoryAnswer groq service (question_text currentQuestion)
                currentAnswer (correct_answer currentQuestion)
                (match key_points currentQuestion with
                 | Some l => l
                 | None => []
                 end) = Return (fallbackGrade currentAnswer)).
  { unfold gradeTheoryAnswer. destruct F as [->|F]; [reflexivity|].
    destruct groq; [rewrite F|]; reflexivity. }
  rewrite G, fallbackGrade_cases.
  destruct (Nat.ltb 50 (length currentAnswer)); eexists;
    (split; [reflexivity|split; reflexivity]).
Qed.

Lemma gradeAnswer_fallback_witness :
  exists r,
    gradeAnswer None (Rejected TypeError)
      {| question_id := u "q1"; question_text := u "Why?";
         question_type := u "theory"; question_options := None;
         correct_answer := u "Because."; explanation := None;
         key_points := None |}
      (u "Because.") = Return r
    /\ isCorrect r = false /\ score r = Num (Dec 5 0).
Proof.
  apply (@gradeAnswer_fallback None (Rejected TypeError)
           {| question_id := u "q1"; question_text := u "Why?";
              question_type := u "theory"; question_options := None;
              correct_answer := u "Because."; explanation := None;
              key_points := None |}
           (u "Because.") TypeError).
  - discriminate.
  - left. reflexivity.
Defined.

(** X8: what [handleAnswerSubmit] does to the state of the quiz.  A blank
    answer, or no signed-in user, leaves the state as it is.  Otherwise the
    list of questions is never changed and the index stays inside it; a
    failure on the way (no current question, an exception while grading, a
    rejected insertion) records nothing, keeps the answer, the index and
    the results flag, and clears [submitting]; a success appends exactly
    the graded response to the responses, clears the answer and
    [submitting], and moves to the next question, or shows the results
    after the last one; and the results are shown only once the last
    question is answered. *)
Theorem handleAnswerSubmit_state (groq : option Groq) (service : reply)
    (insert : result unit) (user : option jsstring) (st : QuizState)
    (q : QuizQuestion) (r : QuizResponse) (e : error) :
  let st' := handleAnswerSubmit groq service insert user st in
  (trim (currentAnswer st) = [] \/ user = None -> st' = st)
  /\ questions st' = questions st
  /\ ((currentQuestionIndex st < length (questions st))%nat ->
      (currentQuestionIndex st' < length (questions st'))%nat)
  /\ (responses st' = responses st /\ currentAnswer st' = currentAnswer st
      \/ exists r, responses st' = responses st ++ [r]
                   /\ currentAnswer st' = [])
  /\ (insert = Throw e -> responses st' = responses st)
  /\ (showResults st' = true ->
      showResults st = true
      \/ S (currentQuestionIndex st) = length (questions st))
  /\ (trim (currentAnswer st) <> [] -> user <> None ->
      nth_error (questions st) (currentQuestionIndex st) = None
      \/ (nth_error (questions st) (currentQuestionIndex st) = Some q
          /\ gradeAnswer groq service q (currentAnswer st) = Throw e)
      \/ insert = Throw e ->
      responses st' = responses st
      /\ currentAnswer st' = currentAnswer st
      /\ currentQuestionIndex st' = currentQuestionIndex st
      /\ showResults st' = showResults st
      /\ submitting st' = false)
  /\ (trim (currentAnswer st) <> [] -> user <> None ->
      nth_error (questions st) (currentQuestionIndex st) = Some q ->
      gradeAnswer groq service q (currentAnswer st) = Return r ->
      insert = Return tt ->
      responses st' = responses st ++ [r]
      /\ currentAnswer st' = []
      /\ submitting st' = false
      /\ ((S (currentQuestionIndex st) < length (questions st))%nat ->
          currentQuestionIndex st' = S (currentQuestionIndex st)
          /\ showResults st' = showResults st)
      /\ (S (currentQuestionIndex st) = length (questions st) ->
          currentQuestionIndex st' = currentQuestionIndex st
          /\ showResults st' = true)).
Proof.
  assert (Fin : forall st' : QuizState,
            questions st' = questions st ->
            currentQuestionIndex st' = currentQuestionIndex st ->
            responses st' = responses st ->
            currentAnswer st' = currentAnswer st ->
            showResults st' = showResults st ->
            questions st' = questions st
            /\ ((currentQuestionIndex st < length (questions st))%nat ->
                (currentQuestionIndex st' < length (questions st'))%nat)
            /\ (responses st' = responses st
                /\ currentAnswer st' = currentAnswer st
                \/ exists r, responses st' = responses st ++ [r]
                             /\ currentAnswer st' = [])
            /\ (insert = Throw e -> responses st' = responses st)
            /\ (showResults st' = true ->
                showResults st = true
                \/ S (currentQuestionIndex st) = length (questions st))).
  { intros st' Q I R A S. rewrite Q, I, S. repeat split; auto. }
  assert (Fin' : forall (P1 P2 P3 P4 P5 P6 P7 : Prop),
            P1 /\ P2 /\ P3 /\ P4 /\ P5 -> P6 -> P7 ->
            P1 /\ P2 /\ P3 /\ P4 /\ P5 /\ P6 /\ P7) by tauto.
  unfold handleAnswerSubmit.
  destruct (trim (currentAnswer st)) as [|c t] eqn:A.
  { cbn. split; [reflexivity|].
    apply Fin'; [apply Fin; reflexivity | | ]; intros N; contradiction. }
  destruct user as [uid|].
  2:{ cbn. split; [reflexivity|].
      apply Fin'; [apply Fin; reflexivity | | ]; intros _ N; contradiction. }
  cbn [nonempty negb orb]. cbv zeta.
  split; [intros [H|H]; discriminate H|].
  destruct (nth_error (questions st) (currentQuestionIndex st)) as [q0|] eqn:Q.
  2:{ apply Fin'; [apply Fin; reflexivity | | ].
      - intros _ _ _. repeat split.
      - intros _ _ H. discriminate H. }
  pose proof (proj1 (nth_error_Some (questions st) (currentQuestionIndex st))
                ltac:(congruence)) as L.
  cbn [bind].
  destruct (gradeAnswer groq service q0 (currentAnswer st)) as [r0|e1] eqn:G.
  2:{ apply Fin'; [apply Fin; reflexivity | | ].
      - intros _ _ _. repeat split.
      - intros _ _ H. injection H as <-. rewrite G. discriminate. }
  cbn [bind]. destruct insert as [[]|e2].
  2:{ apply Fin'; [apply Fin; reflexivity | | ].
      - intros _ _ _. repeat split.
      - intros _ _ _ _ H. discriminate H. }
  cbn [bind].
  destruct (Z.ltb_spec (Z.of_nat (currentQuestionIndex st))
              (Z.of_nat (length (questions st)) - 1)) as [LT|GE]; cbn.
  - apply Fin'.
    + repeat split; auto; try discriminate.
      * intros _. lia.
      * right. eauto.
    + intros _ _ [H|[[H1 H2]|H]]; try discriminate.
      injection H1 as <-. rewrite G in H2. discriminate.
    + intros _ _ H1 H2 _. injection H1 as <-. rewrite G in H2.
      injection H2 as <-. repeat split; lia.
  - apply Fin'.
    + repeat split; auto; try discriminate.
      * right. eauto.
      * intros _. right. lia.
    + intros _ _ [H|[[H1 H2]|H]]; try discriminate.
      injection H1 as <-. rewrite G in H2. discriminate.
    + intros _ _ H1 H2 _. injection H1 as <-. rewrite G in H2.
      injection H2 as <-. repeat split; lia.
Qed.

Lemma handleAnswerSubmit_state_witness :
  let q := {| question_id := u "q1"; question_text := u "2 + 2?";
              question_type := u "mcq";
              question_options := Some [u "3"; u "4"];
              correct_answer := u "4"; explanation := None;
              key_points := None |} in
  let st := {| questions := [q; q]; currentQuestionIndex := 0;
               responses := []; currentAnswer := u "4";
               submitting := false; showResults := false |} in
  let r := {| questionId := u "q1"; userAnswer := u "4"; isCorrect := true;
              score := Num (of_Z 10); feedback := Str (u "Correct! Well done!");
              strengths := Arr []; improvements := Arr [] |} in
  handleAnswerSubmit None (Rejected TypeError) (Return tt) None st = st
  /\ responses
       (handleAnswerSubmit None (Rejected TypeError) (Throw TypeError)
          (Some (u "ann")) st) = []
  /\ (currentQuestionIndex
        (handleAnswerSubmit None (Rejected TypeError) (Return tt)
           (Some (u "ann")) st) < 2)%nat
  /\ currentAnswer
       (handleAnswerSubmit None (Rejected TypeError) (Throw TypeError)
          (Some (u "ann")) st) = u "4"
  /\ responses
       (handleAnswerSubmit None (Rejected TypeError) (Return tt)
          (Some (u "ann")) st) = [r]
  /\ currentQuestionIndex
       (handleAnswerSubmit None (Rejected TypeError) (Return tt)
          (Some (u "ann")) st) = 1%nat.
Proof.
  intros q st r.
  pose proof (handleAnswerSubmit_state None (Rejected TypeError) (Return tt)
                None st q r TypeError) as [A _].
  pose proof (handleAnswerSubmit_state None (Rejected TypeError)
                (Throw TypeError) (Some (u "ann")) st q r TypeError)
    as [_ [_ [_ [_ [B [_ [F _]]]]]]].
  pose proof (handleAnswerSubmit_state None (Rejected TypeError) (Return tt)
                (Some (u "ann")) st q r TypeError)
    as [_ [_ [C [_ [_ [_ [_ S]]]]]]].
  split; [|split; [|split; [|split; [|split]]]].
  - apply A. right. reflexivity.
  - apply B. reflexivity.
  - apply C. simpl. lia.
  - apply F; [discriminate | discriminate | right; right; reflexivity].
  - apply S; try discriminate; reflexivity.
  - apply S; try discriminate; try reflexivity. simpl. lia.
Defined.

(** ** The tutor on the dashboard *)



(** ** Well-formed responses *)

Lemma truthy_strings (l : list jsstring) :
  forallb nonempty l = true -> filter ToBoolean (map Str l) = map Str l.
Proof.
  induction l as [|a l IH]; [reflexivity|]. simpl. intros H.
  apply andb_true_iff in H. destruct H as [A L].
  destruct a; [discriminate|]. simpl. rewrite (IH L). reflexivity.
Qed.

Lemma field_Obj (parsed v : value) (k : jsstring) :
  field parsed k = v -> v <> Undefined ->
  exists ps, parsed = Obj ps.
Proof. destruct parsed; simpl; intros H N; try congruence. eauto. Qed.

(** X10: a response that parses, fences apart, to an object with a
    non-empty string [content] and arrays of non-empty strings goes through
    [getDetailedSubtopicContent] unchanged: the four fields come back as
    they were parsed. *)
Theorem getDetailedSubtopicContent_well_formed (g : Groq)
    (response topic dayTitle subtopic level : jsstring)
    (userProfile : option UserProfile) (parsed : value)
    (c : code_unit) (content : jsstring)
    (keyPoints examples practicalApplications : list jsstring) :
  JSON_parse (cleanJsonResponse response) = Return parsed ->
  field parsed (u "content") = Str (c :: content) ->
  field parsed (u "keyPoints") = strings keyPoints ->
  field parsed (u "examples") = strings examples ->
  field parsed (u "practicalApplications") = strings practicalApplications ->
  forallb nonempty (keyPoints ++ examples ++ practicalApplications) = true ->
  getDetailedSubtopicContent (Some g) (says response) topic dayTitle subtopic
    level userProfile
  = Return (Obj [(u "content", Str (c :: content));
                 (u "keyPoints", strings keyPoints);
                 (u "examples", strings examples);
                 (u "practicalApplications", strings practicalApplications)]).
Proof.
  intros P C K E A N.
  rewrite !forallb_app, !andb_true_iff in N. destruct N as [NK [NE NA]].
  destruct (field_Obj _ _ C ltac:(discriminate)) as [ps ->].
  unfold getDetailedSubtopicContent.
  replace (getDetailedSubtopicContent_try (says response))
    with (detailedContent_of (Obj ps))
    by (symmetry; apply (says_pipeline _ detailedContent_of P)).
  unfold detailedContent_of. cbn [get bind]. unfold field in C, K, E, A.
  rewrite C, K, E, A. cbn [or_else ToBoolean ToString bind truthy_elements].
  unfold strings. cbn [truthy_elements].
  rewrite !truthy_strings by assumption. reflexivity.
Qed.

Lemma getDetailedSubtopicContent_well_formed_witness :
  getDetailedSubtopicContent client
    (says (u "```json" ++ LF
             :: j "{'content': 'Values move.', 'keyPoints': ['moves'], 'examples': [], 'practicalApplications': ['memory safety']}"
             ++ LF :: u "```"))
    (u "Rust") (u "Day 1") (u "Ownership") (u "beginner") None
  = Return (Obj [(u "content", Str (u "Values move."));
                 (u "keyPoints", strings [u "moves"]);
                 (u "examples", strings []);
                 (u "practicalApplications", strings [u "memory safety"])]).
Proof.
  apply (@getDetailedSubtopicContent_well_formed {| apiKey := u "gsk" |}
           (u "```json" ++ LF
              :: j "{'content': 'Values move.', 'keyPoints': ['moves'], 'examples': [], 'practicalApplications': ['memory safety']}"
              ++ LF :: u "```")
           (u "Rust") (u "Day 1") (u "Ownership") (u "beginner") None
           (Obj [(u "content", Str (u "Values move."));
                 (u "keyPoints", strings [u "moves"]);
                 (u "examples", strings []);
                 (u "practicalApplications", strings [u "memory safety"])])
           86%N (u "alues move.") [u "moves"] [] [u "memory safety"]);
    vm_compute; reflexivity.
Defined.

(** X11: with a client, a response that parses, fences apart, to an
    object with a non-empty string [answer] is answered by
    [askTutorQuestion] with that answer; each of [codeExamples],
    [relatedConcepts] and [furtherReading] is the parsed array, elements
    untouched, or the empty array when the field is no array. *)
Theorem askTutorQuestion_well_formed (g : Groq)
    (response context question : jsstring)
    (userProfile : option UserProfile) (parsed : value)
    (c : code_unit) (answer : jsstring) :
  JSON_parse (cleanJsonResponse response) = Return parsed ->
  field parsed (u "answer") = Str (c :: answer) ->
  askTutorQuestion (Some g) (says response) context question userProfile
  = Return (Obj [(u "answer", Str (c :: answer));
                 (u "codeExamples",
                  array_or_empty (field parsed (u "codeExamples")));
                 (u "relatedConcepts",
                  array_or_empty (field parsed (u "relatedConcepts")));
                 (u "furtherReading",
                  array_or_empty (field parsed (u "furtherReading")))]).
Proof.
  intros P A.
  destruct (field_Obj _ _ A ltac:(discriminate)) as [ps ->].
  unfold askTutorQuestion.
  replace (askTutorQuestion_try (says response))
    with (tutorAnswer_of (Obj ps))
    by (symmetry; apply (says_pipeline _ tutorAnswer_of P)).
  unfold tutorAnswer_of, string_or_empty. cbn [get bind].
  unfold field in *. rewrite A. reflexivity.
Qed.

Lemma askTutorQuestion_well_formed_witness :
  askTutorQuestion client
    (says (j "{'answer': 'Values move.', 'relatedConcepts': ['borrowing', 7]}"))
    (u "lesson") (u "What is ownership?") None
  = Return (Obj [(u "answer", Str (u "Values move."));
                 (u "codeExamples", Arr []);
                 (u "relatedConcepts",
                  Arr [Str (u "borrowing"); Num (Dec 7 0)]);
                 (u "furtherReading", Arr [])]).
Proof.
  apply (@askTutorQuestion_well_formed {| apiKey := u "gsk" |}
           (j "{'answer': 'Values move.', 'relatedConcepts': ['borrowing', 7]}")
           (u "lesson") (u "What is ownership?") None
           (Obj [(u "answer", Str (u "Values move."));
                 (u "relatedConcepts",
                  Arr [Str (u "borrowing"); Num (Dec 7 0)])])
           86%N (u "alues move."));
    vm_compute; reflexivity.
Defined.

(** ** The personalized prompt and the profile form *)

(** Concatenations in right-nested form. *)
Ltac norm_app :=
  repeat (rewrite <- app_assoc || rewrite <- app_comm_cons
          || rewrite app_nil_r || rewrite app_nil_l).

(** X12: [createPersonalizedPrompt] never alters the base prompt: the
    result is the base prompt followed by a text that depends on the
    profile alone, nothing without a profile.  With a profile that text
    holds exactly one of the two instructions about code, the one for the
    flag [includeCode], after the tailoring sentence, which is left out for
    an empty profession, and before the lists of example types and focus
    areas, which are left out when both are empty. *)
Theorem createPersonalizedPrompt_appends (basePrompt : jsstring)
    (userProfile : option UserProfile) (p : UserProfile) :
  createPersonalizedPrompt basePrompt userProfile
    = basePrompt ++ createPersonalizedPrompt [] userProfile
  /\ createPersonalizedPrompt basePrompt None = basePrompt
  /\ exists tailoring lists,
       createPersonalizedPrompt basePrompt (Some p)
       = basePrompt ++ tailoring ++ [LF; LF]
           ++ code_instruction (includeCode (learning_preferences p))
           ++ lists
       /\ (profession p = [] -> tailoring = [])
       /\ (preferredExampleTypes (learning_preferences p) = [] ->
           focusAreas (learning_preferences p) = [] -> lists = []).
Proof.
  split; [|split; [reflexivity|]].
  - destruct userProfile as [q|]; [|symmetry; apply app_nil_r].
    unfold createPersonalizedPrompt.
    destruct (profession q), (includeCode (learning_preferences q)),
      (preferredExampleTypes (learning_preferences q)),
      (focusAreas (learning_preferences q));
      cbn [negb]; norm_app; reflexivity.
  - exists (match profession p with
            | [] => []
            | _ =>
                [LF; LF] ++ u "IMPORTANT: Tailor content for a "
                  ++ template (title (getProfessionContext (profession p)))
                  ++ u ". "
                  ++ template (guidance (getProfessionContext (profession p)))
            end).
    exists ((match preferredExampleTypes (learning_preferences p) with
             | [] => []
             | types =>
                 [LF; LF] ++ u "Preferred example types: "
                   ++ join (u ", ") types ++ u "."
             end)
            ++ match focusAreas (learning_preferences p) with
               | [] => []
               | areas =>
                   [LF; LF] ++ u "Focus on: " ++ join (u ", ") areas ++ u "."
               end).
    unfold createPersonalizedPrompt, code_instruction.
    split; [|split].
    + destruct (profession p) as [|c pr],
        (includeCode (learning_preferences p)),
        (preferredExampleTypes (learning_preferences p)) as [|t ts],
        (focusAreas (learning_preferences p)) as [|a fs];
        cbn [negb]; norm_app; reflexivity.
    + intros ->. reflexivity.
    + intros -> ->. reflexivity.
Qed.

Lemma createPersonalizedPrompt_appends_witness :
  exists tailoring lists,
    createPersonalizedPrompt (u "Teach me Rust.")
      (Some {| highest_qualification := u "PhD/Doctorate";
               specialization := []; profession := [];
               learning_preferences :=
                 {| includeCode := false; preferredExampleTypes := [];
                    focusAreas := [] |} |})
    = u "Teach me Rust." ++ tailoring ++ [LF; LF] ++ code_instruction false
        ++ lists
    /\ tailoring = [] /\ lists = [].
Proof.
  destruct (createPersonalizedPrompt_appends (u "Teach me Rust.") None
              {| highest_qualification := u "PhD/Doctorate";
                 specialization := []; profession := [];
                 learning_preferences :=
                   {| includeCode := false; preferredExampleTypes := [];
                      focusAreas := [] |} |})
    as [_ [_ [tailoring [lists [E [T L]]]]]].
  exists tailoring, lists. split; [exact E|].
  split; [apply T | apply L]; reflexivity.
Defined.

Lemma In_includes_string (l : list jsstring) (x : jsstring) :
  includes_string l x = true <-> In x l.
Proof.
  unfold includes_string. rewrite existsb_exists. split.
  - intros [y [I E]]. apply eqb_str_eq in E. subst. exact I.
  - intros I. exists x. split; [exact I | apply eqb_str_refl].
Qed.

(** X13: every profession the profile form offers gets a title and a
    guidance from [getProfessionContext], so the tailoring sentence of the
    prompt never reads [undefined] for it; the four professions [engineer],
    [researcher], [student] and [other], which have no entry of their own,
    get the generic context, and the other seven do not. *)
Theorem getProfessionContext_form (p : jsstring) :
  In p (map fst professions) ->
  exists t g,
    getProfessionContext p = {| title := Some t; guidance := Some g |}
    /\ (getProfessionContext p = generic_context
        <-> In p professions_without_context).
Proof.
  intros H. cbn in H.
  repeat (destruct H as [<-|H];
          [eexists; eexists; split; [reflexivity|];
           split; [intros E; try discriminate E; cbn; tauto
                  | intros I; cbn in I;
                    repeat (destruct I as [I|I]; [try discriminate I|]);
                    try contradiction; reflexivity]|]).
  contradiction.
Qed.

Lemma getProfessionContext_form_witness :
  exists t g,
    getProfessionContext (u "student")
    = {| title := Some t; guidance := Some g |}
    /\ (getProfessionContext (u "student") = generic_context
        <-> In (u "student") professions_without_context).
Proof.
  apply (@getProfessionContext_form (u "student")). cbn. tauto.
Defined.

(** X14: a profession that is a name [contexts] inherits from
    [Object.prototype] finds a value without [title] and [guidance], and
    the prompt then reads [Tailor content for a undefined. undefined]; any
    other profession outside [contexts] gets the generic context. *)
Theorem getProfessionContext_unknown (p : jsstring) :
  assoc p contexts = None ->
  (In p Object_prototype_names ->
   getProfessionContext p = {| title := None; guidance := None |}
   /\ forall base q,
        profession q = p ->
        startsWith (createPersonalizedPrompt base (Some q))
          (base ++ [LF; LF]
             ++ u "IMPORTANT: Tailor content for a undefined. undefined")
        = true)
  /\ (~ In p Object_prototype_names ->
      getProfessionContext p = generic_context).
Proof.
  intros A. unfold getProfessionContext. rewrite A. split.
  - intros I. pose proof (proj2 (In_includes_string _ _) I) as E.
    rewrite E. split; [reflexivity|].
    intros base q Q. unfold createPersonalizedPrompt, getProfessionContext.
    rewrite Q, A, E.
    assert (N : p <> []) by (intros ->; discriminate E).
    destruct p as [|c p']; [contradiction|]. cbn [template title guidance].
    destruct (negb (includeCode (learning_preferences q))),
      (preferredExampleTypes (learning_preferences q)),
      (focusAreas (learning_preferences q));
      rewrite <- ?app_assoc;
      match goal with
      | |- startsWith (base ++ ?x) (base ++ ?y) = true =>
          rewrite (startsWith_skip base x y)
      end; reflexivity.
  - intros I.
    destruct (includes_string Object_prototype_names p) eqn:E;
      [apply In_includes_string in E; contradiction | reflexivity].
Qed.

Lemma getProfessionContext_unknown_witness :
  getProfessionContext (u "toString") = {| title := None; guidance := None |}
  /\ getProfessionContext (u "astronaut") = generic_context.
Proof.
  pose proof (@getProfessionContext_unknown (u "toString") eq_refl)
    as [A _].
  pose proof (@getProfessionContext_unknown (u "astronaut") eq_refl)
    as [_ B].
  split.
  - apply A. cbn. tauto.
  - apply B. cbn. intuition discriminate.
Defined.

(** X15: [handleProfessionChange] sets the profession and keeps the rest
    of the profile but [includeCode], which it clears for the five
    professions [healthcare-professional], [business-manager], [designer],
    [educator] and [consultant] and sets for every other value, listed by
    the form or not; the prompt built from the new profile carries the
    instruction about code that goes with it. *)
Theorem handleProfessionChange_code (professionValue basePrompt : jsstring)
    (prev : UserProfile) :
  let next := handleProfessionChange professionValue prev in
  profession next = professionValue
  /\ includeCode (learning_preferences next)
     = negb (includes_string professions_without_code professionValue)
  /\ highest_qualification next = highest_qualification prev
  /\ specialization next = specialization prev
  /\ preferredExampleTypes (learning_preferences next)
     = preferredExampleTypes (learning_preferences prev)
  /\ focusAreas (learning_preferences next)
     = focusAreas (learning_preferences prev)
  /\ exists tailoring lists,
       createPersonalizedPrompt basePrompt (Some next)
       = basePrompt ++ tailoring ++ [LF; LF]
           ++ code_instruction
                (negb (includes_string professions_without_code
                         professionValue))
           ++ lists.
Proof.
  intros next.
  assert (C : includeCode (learning_preferences next)
              = negb (includes_string professions_without_code
                        professionValue)).
  { subst next. unfold handleProfessionChange.
    cbn [learning_preferences includeCode]. cbn -[eqb_str u].
    repeat match goal with
           | |- context [eqb_str professionValue ?k] =>
               let E := fresh "E" in
               destruct (eqb_str professionValue k) eqn:E;
               [apply eqb_str_eq in E; subst professionValue; reflexivity|]
           end.
    reflexivity. }
  repeat split; try reflexivity; try exact C.
  destruct (createPersonalizedPrompt_appends basePrompt None next)
    as [_ [_ [tailoring [lists [E _]]]]].
  exists tailoring, lists. rewrite <- C. exact E.
Qed.

Lemma eqb_str_sym (a b : jsstring) : eqb_str a b = eqb_str b a.
Proof.
  destruct (eqb_str a b) eqn:E.
  - apply eqb_str_eq in E. subst. symmetry. apply eqb_str_refl.
  - destruct (eqb_str b a) eqn:F; [|reflexivity].
    apply eqb_str_eq in F. subst. rewrite eqb_str_refl in E. discriminate.
Qed.

Lemma includes_string_app (l1 l2 : list jsstring) (x : jsstring) :
  includes_string (l1 ++ l2) x = includes_string l1 x || includes_string l2 x.
Proof. apply existsb_app. Qed.

Lemma includes_string_filter (l : list jsstring) (x y : jsstring) :
  includes_string (filter (fun t => negb (eqb_str t x)) l) y
  = includes_string l y && negb (eqb_str y x).
Proof.
  induction l as [|a l IH]; [reflexivity|]. cbn [filter].
  destruct (eqb_str a x) eqn:A; cbn [negb].
  - unfold includes_string in *. cbn [existsb]. rewrite IH.
    apply eqb_str_eq in A. subst a.
    destruct (eqb_str y x); cbn; [apply andb_false_r | reflexivity].
  - unfold includes_string in *. cbn [existsb]. rewrite IH.
    destruct (eqb_str y a) eqn:Y; [|reflexivity]. cbn.
    apply eqb_str_eq in Y. subst a. rewrite A. reflexivity.
Qed.

Lemma filter_absent (l : list jsstring) (x : jsstring) :
  includes_string l x = false -> filter (fun t => negb (eqb_str t x)) l = l.
Proof.
  induction l as [|a l IH]; [reflexivity|]. unfold includes_string in *.
  cbn [existsb filter]. intros H. apply orb_false_iff in H.
  destruct H as [A L]. rewrite (eqb_str_sym a x), A. cbn [negb].
  rewrite (IH L). reflexivity.
Qed.

Lemma toggle_spec (l : list jsstring) (x y : jsstring) :
  includes_string (toggle l x) x = negb (includes_string l x)
  /\ (y <> x -> includes_string (toggle l x) y = includes_string l y)
  /\ (includes_string l x = false -> toggle (toggle l x) x = l).
Proof.
  unfold toggle. destruct (includes_string l x) eqn:I.
  - split; [|split; [|discriminate]].
    + rewrite includes_string_filter, eqb_str_refl. apply andb_false_r.
    + intros N. rewrite includes_string_filter.
      destruct (eqb_str y x) eqn:E;
        [apply eqb_str_eq in E; contradiction | apply andb_true_r].
  - split; [|split].
    + rewrite includes_string_app, I. cbn. rewrite eqb_str_refl. reflexivity.
    + intros N. rewrite includes_string_app. cbn.
      destruct (eqb_str y x) eqn:E;
        [apply eqb_str_eq in E; contradiction|].
      rewrite !orb_false_r. reflexivity.
    + intros _. rewrite includes_string_app, I. cbn.
      rewrite eqb_str_refl. cbn. rewrite filter_app. cbn.
      rewrite eqb_str_refl. cbn. rewrite app_nil_r.
      apply filter_absent, I.
Qed.

(** X16: [toggleExampleType] flips whether the type is among the
    preferred example types and touches nothing else: every other type
    stays in or out as it was, and the focus areas, [includeCode] and the
    rest of the profile are kept.  Toggling twice a type that was not
    selected gives the list back as it was.  [toggleFocusArea] does the
    same to the focus areas. *)
Theorem toggle_preferences (x y : jsstring) (prev : UserProfile) :
  let types p := preferredExampleTypes (learning_preferences p) in
  let areas p := focusAreas (learning_preferences p) in
  (includes_string (types (toggleExampleType x prev)) x
     = negb (includes_string (types prev) x)
   /\ (y <> x ->
       includes_string (types (toggleExampleType x prev)) y
       = includes_string (types prev) y)
   /\ (includes_string (types prev) x = false ->
       types (toggleExampleType x (toggleExampleType x prev)) = types prev)
   /\ areas (toggleExampleType x prev) = areas prev
   /\ includeCode (learning_preferences (toggleExampleType x prev))
      = includeCode (learning_preferences prev)
   /\ profession (toggleExampleType x prev) = profession prev)
  /\ (includes_string (areas (toggleFocusArea x prev)) x
        = negb (includes_string (areas prev) x)
      /\ (y <> x ->
          includes_string (areas (toggleFocusArea x prev)) y
          = includes_string (areas prev) y)
      /\ (includes_string (areas prev) x = false ->
          areas (toggleFocusArea x (toggleFocusArea x prev)) = areas prev)
      /\ types (toggleFocusArea x prev) = types prev
      /\ includeCode (learning_preferences (toggleFocusArea x prev))
         = includeCode (learning_preferences prev)
      /\ profession (toggleFocusArea x prev) = profession prev).
Proof.
  intros types areas. subst types areas. cbn.
  destruct (toggle_spec (preferredExampleTypes (learning_preferences prev))
              x y) as [A [B C]].
  destruct (toggle_spec (focusAreas (learning_preferences prev)) x y)
    as [D [E F]].
  repeat split; auto.
Qed.

Lemma toggle_preferences_witness :
  let prev := {| highest_qualification := u "Self-taught";
                 specialization := []; profession := u "student";
                 learning_preferences :=
                   {| includeCode := true;
                      preferredExampleTypes := [u "Code examples"];
                      focusAreas := [] |} |} in
  includes_string
    (preferredExampleTypes
       (learning_preferences (toggleExampleType (u "Visual diagrams") prev)))
    (u "Code examples") = true
  /\ preferredExampleTypes
       (learning_preferences
          (toggleExampleType (u "Visual diagrams")
             (toggleExampleType (u "Visual diagrams") prev)))
     = [u "Code examples"]
  /\ focusAreas
       (learning_preferences
          (toggleFocusArea (u "Innovation")
             (toggleFocusArea (u "Innovation") prev))) = [].
Proof.
  intros prev.
  pose proof (toggle_preferences (u "Visual diagrams") (u "Code examples")
                prev) as [[_ [A [B _]]] _].
  pose proof (toggle_preferences (u "Innovation") (u "Code examples") prev)
    as [_ [_ [_ [C _]]]].
  split; [|split].
  - rewrite A; [reflexivity | discriminate].
  - apply B. reflexivity.
  - apply C. reflexivity.
Defined.

(** ** The matcher and [replace] *)

Lemma star_loop_forward (mr : continuation -> continuation)
    (greedy : bool) (fuel : nat) (k : continuation) :
  (forall k', forward k' -> forward (mr k')) -> forward k ->
  forward (star_loop mr greedy fuel k).
Proof.
  intros Hmr Hk. induction fuel as [|fuel IH]; [exact Hk|].
  intros s e H. cbn [star_loop] in H.
  assert (K : forward (fun s' => if Nat.eqb (pos s') (pos s) then None
                                 else star_loop mr greedy fuel k s')).
  { intros s' e' H'. destruct (Nat.eqb (pos s') (pos s)); [discriminate|].
    apply IH, H'. }
  destruct greedy.
  - destruct (mr _ s) as [e'|] eqn:E.
    + injection H as <-. eapply Hmr; [exact K | exact E].
    + apply Hk, H.
  - destruct (k s) as [e'|] eqn:E.
    + injection H as <-. apply Hk, E.
    + eapply Hmr; [exact K | exact H].
Qed.

(** The matcher only moves forward in the text. *)
Lemma m_forward (r : regex) (k : continuation) :
  forward k -> forward (m r k).
Proof.
  revert k. induction r as [|c|p|r1 IH1 r2 IH2|r1 IH1 r2 IH2|g r IH|n r IH
                            |r IH|ml|ml|]; intros k Hk s e H; cbn [m] in H.
  - apply Hk, H.
  - destruct (rest s) as [|d t]; [discriminate|].
    destruct (N.eqb c d); [|discriminate]. apply Hk in H. cbn in H. lia.
  - destruct (rest s) as [|d t]; [discriminate|].
    destruct (p d); [|discriminate]. apply Hk in H. cbn in H. lia.
  - eapply IH1; [|exact H]. apply IH2, Hk.
  - destruct (m r1 k s) as [e'|] eqn:E.
    + injection H as <-. eapply IH1; eassumption.
    + eapply IH2; eassumption.
  - eapply star_loop_forward; [exact IH | exact Hk | exact H].
  - eapply IH; [|exact H]. intros s' e' H'. apply Hk in H'. exact H'.
  - destruct (m r Some s); [|discriminate]. apply Hk in H. exact H.
  - destruct (before s) as [c|]; [|apply Hk, H].
    destruct (ml && isLineTerminator c); [apply Hk, H | discriminate].
  - destruct (rest s) as [|c t]; [apply Hk, H|].
    destruct (ml && isLineTerminator c); [apply Hk, H | discriminate].
  - destruct (xorb _ _); [apply Hk, H | discriminate].
Qed.

Lemma forward_Some : forward Some.
Proof. intros s e H. injection H as <-. lia. Qed.

(** A match found from the index [i] on starts at [i] or later, and ends
    where it starts or later. *)
Lemma search_bounds (r : regex) (s : jsstring) (i : nat)
    (b : option code_unit) (a : nat) (e : mstate) :
  search r i b s = Some (a, e) -> (i <= a <= pos e)%nat.
Proof.
  revert i b. induction s as [|c t IH]; intros i b H; cbn [search] in H.
  - destruct (m r Some _) as [e'|] eqn:E; [|discriminate].
    injection H as <- <-. apply (m_forward r forward_Some) in E.
    cbn in E. lia.
  - destruct (m r Some _) as [e'|] eqn:E.
    + injection H as <- <-. apply (m_forward r forward_Some) in E.
      cbn in E. lia.
    + apply IH in H. lia.
Qed.

Lemma Forall_firstn {A : Type} (P : A -> Prop) (n : nat) (l : list A) :
  Forall P l -> Forall P (firstn n l).
Proof.
  intros H. rewrite Forall_forall in *. intros x I.
  apply H. rewrite <- (firstn_skipn n l). apply in_or_app. left. exact I.
Qed.

Lemma Forall_skipn {A : Type} (P : A -> Prop) (n : nat) (l : list A) :
  Forall P l -> Forall P (skipn n l).
Proof.
  intros H. rewrite Forall_forall in *. intros x I.
  apply H. rewrite <- (firstn_skipn n l). apply in_or_app. right. exact I.
Qed.

(** What a [replace] returns is made of code units of the text and of
    code units the callback returns. *)
Lemma replace_loop_Forall (P : code_unit -> Prop) (fuel : nat) (r : regex)
    (f : jsstring -> (nat -> jsstring) -> jsstring) (input : jsstring) :
  (forall w g, Forall P (f w g)) ->
  forall i b s, Forall P s -> Forall P (replace_loop fuel r f input i b s).
Proof.
  intros Hf. induction fuel as [|fuel IH]; intros i b s Hs; [exact Hs|].
  cbn [replace_loop]. destruct (search r i b s) as [[a e]|]; [|exact Hs].
  cbv zeta. destruct (Nat.eqb (pos e) a).
  - destruct (skipn (a - i) s) as [|c t] eqn:K.
    + apply Forall_app. split; [apply Forall_firstn, Hs | apply Hf].
    + pose proof (Forall_skipn (a - i) Hs) as Hk. rewrite K in Hk.
      inversion Hk as [|? ? Pc Pt]; subst.
      apply Forall_app. split.
      * apply Forall_app. split; [apply Forall_firstn, Hs | apply Hf].
      * constructor; [exact Pc | apply IH, Pt].
  - apply Forall_app. split.
    + apply Forall_app. split; [apply Forall_firstn, Hs | apply Hf].
    + apply IH, Forall_skipn, Hs.
Qed.

Lemma replace_all_with_Forall (P : code_unit -> Prop) (r : regex)
    (text input : jsstring) :
  Forall P text -> Forall P input ->
  Forall P (replace_all_with r text input).
Proof.
  intros Ht Hi. unfold replace_all_with, replace_all.
  apply replace_loop_Forall; [intros; exact Ht | exact Hi].
Qed.

Lemma last_unit_cons (b : option code_unit) (c : code_unit) (l : jsstring) :
  last_unit b (c :: l) = last_unit (Some c) l.
Proof.
  unfold last_unit. cbn [rev]. destruct (rev l); reflexivity.
Qed.

(** Where the pattern does not match at the head of the text, the head
    goes to the result and the search goes on behind it. *)
Lemma replace_loop_shift (fuel : nat) (r : regex)
    (f : jsstring -> (nat -> jsstring) -> jsstring) (input : jsstring)
    (i : nat) (b : option code_unit) (c : code_unit) (t : jsstring) :
  m r Some (MState i b (c :: t) []) = None ->
  replace_loop fuel r f input i b (c :: t)
  = c :: replace_loop fuel r f input (S i) (Some c) t.
Proof.
  intros H. destruct fuel as [|fuel]; [reflexivity|].
  cbn [replace_loop]. cbn [search]. rewrite H.
  destruct (search r (S i) (Some c) t) as [[a e]|] eqn:E; [|reflexivity].
  apply search_bounds in E. cbv zeta.
  replace (a - i)%nat with (S (a - S i)) by lia. cbn [firstn skipn].
  destruct (Nat.eqb_spec (pos e) a) as [Q|Q];
    [destruct (skipn (a - S i) t); reflexivity|].
  replace (pos e - i)%nat with (S (pos e - S i)) by lia.
  cbn [firstn skipn]. rewrite last_unit_cons. reflexivity.
Qed.

(** A pattern of one code unit, replaced everywhere by a text. *)
Lemma replace_one_unit (r : regex) (p : code_unit -> bool)
    (text input : jsstring) (s : jsstring) :
  one_unit r p ->
  forall fuel i b, (length s < fuel)%nat ->
    replace_loop fuel r (fun _ _ => text) input i b s
    = flat_map (fun c => if p c then text else [c]) s.
Proof.
  intros Hr. induction s as [|c t IH]; intros fuel i b L.
  - destruct fuel as [|fuel]; [reflexivity|]. cbn [replace_loop search].
    rewrite Hr. reflexivity.
  - cbn [flat_map]. destruct (p c) eqn:C.
    + destruct fuel as [|fuel]; [cbn in L; lia|].
      cbn [replace_loop search]. rewrite Hr. cbn [rest]. rewrite C.
      cbn [advance pos]. cbv zeta.
      destruct (Nat.eqb_spec (S i) i) as [Q|_]; [lia|].
      rewrite Nat.sub_diag. replace (S i - i)%nat with 1%nat by lia.
      cbn [firstn skipn app]. f_equal. apply IH. cbn in L. lia.
    + rewrite replace_loop_shift by (rewrite Hr; cbn [rest]; rewrite C;
                                     reflexivity).
      cbn [app]. f_equal. apply IH. cbn in L. lia.
Qed.

Lemma replace_all_one_unit (r : regex) (p : code_unit -> bool)
    (text s : jsstring) :
  one_unit r p ->
  replace_all_with r text s
  = flat_map (fun c => if p c then text else [c]) s.
Proof.
  intros Hr. unfold replace_all_with, replace_all.
  apply replace_one_unit; [exact Hr | lia].
Qed.

Lemma one_unit_Char (c : code_unit) : one_unit (Char c) (N.eqb c).
Proof. intros k st. reflexivity. Qed.

Lemma one_unit_Class (p : code_unit -> bool) : one_unit (Class p) p.
Proof. intros k st. reflexivity. Qed.

Lemma flat_map_Forall (P : code_unit -> Prop) (p : code_unit -> bool)
    (text s : jsstring) :
  Forall P text -> (forall c, p c = false -> P c) ->
  Forall P (flat_map (fun c => if p c then text else [c]) s).
Proof.
  intros Ht Hp. induction s as [|c s IH]; [constructor|]. cbn [flat_map].
  apply Forall_app. split; [|exact IH].
  destruct (p c) eqn:C; [exact Ht | repeat constructor; apply Hp, C].
Qed.

Lemma infix_Forall (P : code_unit -> Prop) (x s : jsstring) :
  infix x s -> Forall P s -> Forall P x.
Proof.
  intros [a [b E]] H. subst s.
  apply Forall_app in H as [_ H]. apply Forall_app in H as [H _]. exact H.
Qed.

Lemma replace_unit_Forall (P : code_unit -> Prop) (c : code_unit)
    (text s : jsstring) :
  Forall P text -> (forall d, N.eqb c d = false -> P d) ->
  Forall P (replace_all_with (Char c) text s).
Proof.
  intros Ht Hc. rewrite (replace_all_one_unit text s (one_unit_Char c)).
  apply flat_map_Forall; assumption.
Qed.

Lemma Forall_and_bool (p q : code_unit -> bool) (s : jsstring) :
  Forall (fun c => p c = false) s -> Forall (fun c => q c = false) s ->
  Forall (fun c => p c || q c = false) s.
Proof.
  intros Hp Hq. rewrite Forall_forall in *. intros c I.
  rewrite (Hp c I), (Hq c I). reflexivity.
Qed.

(** X17: whatever the captured text, the chain of replacements that the
    callbacks of [fixJsonEscaping] apply to it leaves no raw line feed,
    carriage return, tab or form feed in its result. *)
Theorem escapedContent_no_raw_control (content : jsstring) :
  Forall (fun c => isRawControl c = false) (escapedContent content).
Proof.
  unfold escapedContent. cbv zeta.
  set (c2 := replace_all_with (Char DQUOTE) _ _).
  set (c3 := replace_all_with (Char 10%N) _ c2).
  set (c4 := replace_all_with (Char 13%N) _ c3).
  set (c5 := replace_all_with (Char 9%N) _ c4).
  set (c6 := replace_all_with (Char 12%N) _ c5).
  assert (H3 : Forall (fun c => N.eqb c 10 = false) c3).
  { apply replace_unit_Forall; [repeat constructor|].
    intros d H. rewrite N.eqb_sym. exact H. }
  assert (H4 : Forall (fun c => N.eqb c 10 = false) c4
               /\ Forall (fun c => N.eqb c 13 = false) c4).
  { split.
    - apply replace_all_with_Forall; [repeat constructor | exact H3].
    - apply replace_unit_Forall; [repeat constructor|].
      intros d H. rewrite N.eqb_sym. exact H. }
  destruct H4 as [H4 H4'].
  assert (H5 : Forall (fun c => N.eqb c 10 = false) c5
               /\ Forall (fun c => N.eqb c 13 = false) c5
               /\ Forall (fun c => N.eqb c 9 = false) c5).
  { split; [|split].
    - apply replace_all_with_Forall; [repeat constructor | exact H4].
    - apply replace_all_with_Forall; [repeat constructor | exact H4'].
    - apply replace_unit_Forall; [repeat constructor|].
      intros d H. rewrite N.eqb_sym. exact H. }
  destruct H5 as [H5 [H5' H5'']].
  assert (H6 : Forall (fun c => isRawControl c = false) c6).
  { unfold isRawControl.
    repeat apply Forall_and_bool.
    - apply replace_all_with_Forall; [repeat constructor | exact H5].
    - apply replace_all_with_Forall; [repeat constructor | exact H5'].
    - apply replace_all_with_Forall; [repeat constructor | exact H5''].
    - apply replace_unit_Forall; [repeat constructor|].
      intros d H. rewrite N.eqb_sym. exact H. }
  apply replace_all_with_Forall; [repeat constructor | exact H6].
Qed.

(** X18: whatever the text, the result of [sanitizeAndCleanText] holds
    none of the control characters U+0000 to U+0008, U+000B, U+000C,
    U+000E to U+001F and U+007F, and neither starts nor ends with white
    space. *)
Theorem sanitizeAndCleanText_clean (text : jsstring) :
  Forall (fun c => isControl c = false) (sanitizeAndCleanText text)
  /\ starts_clean (sanitizeAndCleanText text) = true
  /\ ends_clean (sanitizeAndCleanText text) = true.
Proof.
  split; [|apply trim_clean].
  unfold sanitizeAndCleanText. cbv zeta.
  eapply infix_Forall; [apply trim_infix|].
  do 13 (apply replace_all_with_Forall; [repeat constructor|]).
  rewrite (replace_all_one_unit [] _ (one_unit_Class isControl)).
  apply flat_map_Forall; [constructor | intros c H; exact H].
Qed.

(** ** Patterns that cannot match *)

Lemma star_loop_closed (Q : jsstring -> Prop)
    (mr : continuation -> continuation) (greedy : bool) (fuel : nat)
    (k : continuation) :
  (forall k', (forall st, Q (rest st) -> k' st = None) ->
              forall st, Q (rest st) -> mr k' st = None) ->
  (forall st, Q (rest st) -> k st = None) ->
  forall st, Q (rest st) -> star_loop mr greedy fuel k st = None.
Proof.
  intros Hmr Hk. induction fuel as [|fuel IH]; intros st H; [apply Hk, H|].
  cbn [star_loop].
  assert (K : mr (fun s' => if Nat.eqb (pos s') (pos st) then None
                            else star_loop mr greedy fuel k s') st = None).
  { apply Hmr; [|exact H]. intros st' H'.
    destruct (Nat.eqb (pos st') (pos st)); [reflexivity | apply IH, H']. }
  destruct greedy; rewrite K, (Hk st H); reflexivity.
Qed.

(** Where the continuation fails on every rest of the text that has the
    property [Q], a property that the tail of a text inherits, the
    pattern fails on every such text too. *)
Lemma m_closed (Q : jsstring -> Prop) (r : regex) :
  (forall c t, Q (c :: t) -> Q t) ->
  forall k, (forall st, Q (rest st) -> k st = None) ->
  forall st, Q (rest st) -> m r k st = None.
Proof.
  intros HQ.
  induction r as [|c|p|r1 IH1 r2 IH2|r1 IH1 r2 IH2|g r IH|n r IH
                  |r IH|ml|ml|]; intros k Hk st H; cbn [m].
  - apply Hk, H.
  - destruct (rest st) as [|d t] eqn:R; [reflexivity|].
    destruct (N.eqb c d); [|reflexivity]. apply Hk. cbn. eapply HQ, H.
  - destruct (rest st) as [|d t] eqn:R; [reflexivity|].
    destruct (p d); [|reflexivity]. apply Hk. cbn. eapply HQ, H.
  - apply IH1; [|exact H]. intros st' H'. apply IH2; assumption.
  - rewrite IH1, IH2 by assumption. reflexivity.
  - apply star_loop_closed with (Q := Q); [|exact Hk | exact H].
    intros k' Hk' st' H'. apply IH; assumption.
  - apply IH; [|exact H]. intros st' H'. apply Hk. exact H'.
  - destruct (m r Some st); [|reflexivity]. apply Hk. exact H.
  - destruct (before st) as [c|]; [|apply Hk, H].
    destruct (ml && isLineTerminator c); [apply Hk, H | reflexivity].
  - destruct (rest st) as [|c t] eqn:R; [apply Hk; rewrite R; exact H|].
    destruct (ml && isLineTerminator c);
      [apply Hk; rewrite R; exact H | reflexivity].
  - destruct (xorb _ _); [apply Hk, H | reflexivity].
Qed.

Lemma free_tail (c d : code_unit) (t : jsstring) :
  Forall (fun x => N.eqb c x = false) (d :: t) ->
  Forall (fun x => N.eqb c x = false) t.
Proof. intros H. inversion H. assumption. Qed.

(** A pattern that takes the code unit [c] from the text does not match
    in a text without [c]. *)
Lemma m_mentions (c : code_unit) (r : regex) :
  mentions c r = true ->
  forall k st, Forall (fun x => N.eqb c x = false) (rest st) ->
               m r k st = None.
Proof.
  induction r as [|d|p|r1 IH1 r2 IH2|r1 IH1 r2 IH2|g r IH|n r IH
                  |r IH|ml|ml|]; intros M k st H; cbn [mentions] in M;
    try discriminate; cbn [m].
  - destruct (rest st) as [|x t]; [reflexivity|].
    apply N.eqb_eq in M. subst d. inversion H as [|? ? E _]; subst.
    rewrite E. reflexivity.
  - apply orb_true_iff in M as [M|M]; [apply IH1; assumption|].
    apply m_closed with (Q := Forall (fun x => N.eqb c x = false));
      [apply free_tail | | exact H].
    intros st' H'. apply IH2; assumption.
  - apply andb_true_iff in M as [M1 M2].
    rewrite IH1, IH2 by assumption. reflexivity.
  - apply IH; assumption.
Qed.

Lemma search_mentions (c : code_unit) (r : regex) (s : jsstring) :
  mentions c r = true -> Forall (fun x => N.eqb c x = false) s ->
  forall i b, search r i b s = None.
Proof.
  intros M. induction s as [|d t IH]; intros H i b; cbn [search];
    rewrite (@m_mentions c r M) by exact H; [reflexivity|].
  apply IH. eapply free_tail, H.
Qed.

Lemma replace_all_no_match (r : regex)
    (f : jsstring -> (nat -> jsstring) -> jsstring) (s : jsstring) :
  search r 0 None s = None -> replace_all r f s = s.
Proof.
  intros H. unfold replace_all. cbn [replace_loop]. rewrite H. reflexivity.
Qed.

Lemma replace_first_no_match (r : regex)
    (f : jsstring -> (nat -> jsstring) -> jsstring) (s : jsstring) :
  search r 0 None s = None -> replace_first r f s = s.
Proof. intros H. unfold replace_first. rewrite H. reflexivity. Qed.

Lemma exec_no_match (r : regex) (s : jsstring) :
  search r 0 None s = None -> exec r s = None.
Proof. intros H. unfold exec. rewrite H. reflexivity. Qed.

Lemma indexOf_from_unit (c : code_unit) (s : jsstring) (i : nat) :
  indexOf_from s [c] i = None -> Forall (fun x => N.eqb c x = false) s.
Proof.
  revert i. induction s as [|d t IH]; intros i H; [constructor|].
  cbn [indexOf_from startsWith] in H. rewrite andb_true_r in H.
  destruct (N.eqb c d) eqn:E; [discriminate|].
  constructor; [exact E | eapply IH, H].
Qed.

Lemma includes_unit (c : code_unit) (s : jsstring) :
  includes s [c] = false -> Forall (fun x => N.eqb c x = false) s.
Proof.
  unfold includes, indexOf. intros H.
  destruct (indexOf_from s [c] 0) eqn:E; [discriminate|].
  eapply indexOf_from_unit, E.
Qed.

(** X19: a text that is no JSON and holds neither a double quote nor an
    opening brace comes out of [fixJsonEscaping] unchanged; a text that is
    JSON does so by its first test. *)
Theorem fixJsonEscaping_plain_text (s : jsstring) :
  includes s [DQUOTE] = false -> includes s (u "{") = false ->
  fixJsonEscaping s = s.
Proof.
  intros Hq Hb. pose proof (includes_unit _ _ Hq) as F.
  unfold fixJsonEscaping. destruct (JSON_parse s); [reflexivity|]. cbv zeta.
  rewrite replace_all_no_match with (r := re_content_backtick)
    by (apply search_mentions with (c := DQUOTE); [reflexivity | exact F]).
  rewrite replace_all_no_match with (r := re_field_backtick)
    by (apply search_mentions with (c := DQUOTE); [reflexivity | exact F]).
  rewrite replace_first_no_match with (r := re_quoted (u "content"))
    by (apply search_mentions with (c := DQUOTE); [reflexivity | exact F]).
  rewrite replace_first_no_match with (r := re_quoted (u "answer"))
    by (apply search_mentions with (c := DQUOTE); [reflexivity | exact F]).
  rewrite replace_all_no_match with (r := re_content_plain)
    by (apply search_mentions with (c := DQUOTE); [reflexivity | exact F]).
  rewrite exec_no_match with (r := re_last_complete_field)
    by (apply search_mentions with (c := DQUOTE); [reflexivity | exact F]).
  unfold includes in Hb. destruct (indexOf s (u "{")); [discriminate|].
  destruct (_ && _); reflexivity.
Qed.

Lemma fixJsonEscaping_plain_text_witness :
  fixJsonEscaping (u "Sorting puts the items of a list in order, a: b")
  = u "Sorting puts the items of a list in order, a: b"
  /\ JSON_parse (u "Sorting puts the items of a list in order, a: b")
     = Throw SyntaxError.
Proof.
  split; [|vm_compute; reflexivity].
  apply fixJsonEscaping_plain_text; vm_compute; reflexivity.
Defined.

(** ** Literal texts *)

Lemma m_Lit (p : jsstring) (k : continuation) (st : mstate) :
  m (Lit p) k st = match eat p st with Some st' => k st' | None => None end.
Proof.
  revert st. induction p as [|c p IH]; intros st; [reflexivity|].
  destruct p as [|c' p].
  - cbn [Lit m eat]. destruct (rest st) as [|d t]; [reflexivity|].
    destruct (N.eqb c d); reflexivity.
  - change (Lit (c :: c' :: p)) with (Seq (Char c) (Lit (c' :: p))).
    cbn [m]. cbn [eat] in *. destruct (rest st) as [|d t]; [reflexivity|].
    destruct (N.eqb c d); [apply IH | reflexivity].
Qed.

Lemma eat_app (p q : jsstring) (st : mstate) :
  eat (p ++ q) st
  = match eat p st with Some st' => eat q st' | None => None end.
Proof.
  revert st. induction p as [|c p IH]; intros st; [reflexivity|].
  cbn [app eat]. destruct (rest st) as [|d t]; [reflexivity|].
  destruct (N.eqb c d); [apply IH | reflexivity].
Qed.

Lemma eat_startsWith (p : jsstring) (st : mstate) :
  startsWith (rest st) p = false -> eat p st = None.
Proof.
  revert st. induction p as [|c p IH]; intros st H; [discriminate|].
  cbn [eat]. cbn [startsWith] in H.
  destruct (rest st) as [|d t]; [reflexivity|].
  destruct (N.eqb c d); [|reflexivity]. apply IH. exact H.
Qed.

(** A pattern that fails wherever the text does not go on with [p] finds
    no match in a text that does not hold [p]. *)
Lemma search_absent (r : regex) (p : jsstring) :
  (forall st, startsWith (rest st) p = false -> m r Some st = None) ->
  forall s i b, indexOf_from s p i = None -> search r i b s = None.
Proof.
  intros Hr. induction s as [|c t IH]; intros i b H;
    cbn [indexOf_from] in H; cbn [search];
    destruct (startsWith _ p) eqn:E; try discriminate;
    rewrite Hr by exact E; [reflexivity|].
  eapply IH, H.
Qed.

Lemma exec_absent (r : regex) (p s : jsstring) :
  (forall st, startsWith (rest st) p = false -> m r Some st = None) ->
  includes s p = false -> exec r s = None.
Proof.
  intros Hr H. apply exec_no_match. unfold includes, indexOf in H.
  destruct (indexOf_from s p 0) eqn:E; [discriminate|].
  eapply search_absent; eassumption.
Qed.

Lemma re_extract_content_prefix (st : mstate) :
  startsWith (rest st) (j "'content':") = false ->
  m re_extract_content Some st = None.
Proof.
  intros H. unfold re_extract_content.
  match goal with
  | |- m (Cat (Lit ?p :: ?l)) _ _ = _ =>
      change (Cat (Lit p :: l)) with (Seq (Lit p) (Cat l))
  end.
  cbn [m]. rewrite m_Lit, eat_startsWith by exact H. reflexivity.
Qed.

Lemma re_extract_array_prefix (name : jsstring) (st : mstate) :
  startsWith (rest st) (DQUOTE :: name ++ j "':") = false ->
  m (re_extract_array name) Some st = None.
Proof.
  intros H. unfold re_extract_array.
  match goal with
  | |- m (Cat (Char ?c :: Lit ?p :: Lit ?q :: ?l)) _ _ = _ =>
      change (Cat (Char c :: Lit p :: Lit q :: l))
        with (Seq (Lit [c]) (Seq (Lit p) (Seq (Lit q) (Cat l))))
  end.
  cbn [m]. rewrite m_Lit.
  pose proof (eat_startsWith _ st H) as E.
  change (DQUOTE :: name ++ j "':") with ([DQUOTE] ++ name ++ j "':") in E.
  rewrite eat_app in E.
  destruct (eat [DQUOTE] st) as [st1|]; [|reflexivity].
  cbn [m]. rewrite m_Lit. rewrite eat_app in E.
  destruct (eat name st1) as [st2|]; [|reflexivity]. rewrite m_Lit, E.
  reflexivity.
Qed.

(** X20: where the response does not hold the text of the key [content]
    followed by a colon, [extractContentFromResponse] gives the sentence
    that the content could not be extracted; where it does not hold the
    key of one of the three lists followed by a colon, that list comes
    out empty. *)
Theorem extractContentFromResponse_missing_key (response : jsstring) :
  (includes response (j "'content':") = false ->
   field (extractContentFromResponse response) (u "content")
   = Str (u "Content could not be extracted from the response."))
  /\ (forall name, In name list_names ->
        includes response (quoted name ++ u ":") = false ->
        field (extractContentFromResponse response) name = Arr []).
Proof.
  split.
  - intros H. unfold extractContentFromResponse. cbv zeta.
    rewrite (exec_absent re_extract_content _ response
               re_extract_content_prefix H).
    reflexivity.
  - intros name I H.
    assert (E : exec (re_extract_array name) response = None).
    { apply (exec_absent _ (DQUOTE :: name ++ j "':") response
               (re_extract_array_prefix name)).
      replace (DQUOTE :: name ++ j "':") with (quoted name ++ u ":");
        [exact H|].
      unfold quoted. cbn [app]. rewrite <- app_assoc. reflexivity. }
    unfold extractContentFromResponse. cbv zeta.
    destruct I as [<-|[<-|[<-|[]]]]; rewrite E; reflexivity.
Qed.

Lemma extractContentFromResponse_missing_key_witness :
  field (extractContentFromResponse
           (j "Here you go: {'examples': ['a, b', 'c']}")) (u "content")
  = Str (u "Content could not be extracted from the response.")
  /\ field (extractContentFromResponse
              (j "Here you go: {'examples': ['a, b', 'c']}")) (u "keyPoints")
     = Arr [].
Proof.
  destruct (extractContentFromResponse_missing_key
              (j "Here you go: {'examples': ['a, b', 'c']}")) as [A B].
  split.
  - apply A. vm_compute. reflexivity.
  - apply B; [left; reflexivity | vm_compute; reflexivity].
Defined.

(** ** [extractArray] *)

Lemma split_on_free (x : jsstring) :
  Forall (fun c => N.eqb 44 c = false) x -> split_on 44%N x = [x].
Proof.
  induction x as [|c x IH]; intros H; [reflexivity|].
  inversion H as [|? ? E F]; subst. cbn [split_on].
  rewrite N.eqb_sym, E, (IH F). reflexivity.
Qed.

Lemma split_on_app (x s : jsstring) :
  Forall (fun c => N.eqb 44 c = false) x ->
  split_on 44%N (x ++ 44%N :: s) = x :: split_on 44%N s.
Proof.
  induction x as [|c x IH]; intros H; [reflexivity|].
  inversion H as [|? ? E F]; subst. cbn [app split_on].
  rewrite N.eqb_sym, E, (IH F). reflexivity.
Qed.

Lemma quoted_free (x : jsstring) :
  Forall (fun c => N.eqb 44 c = false) x ->
  Forall (fun c => N.eqb 44 c = false) (quoted x).
Proof.
  intros H. unfold quoted. constructor; [reflexivity|].
  apply Forall_app. split; [exact H | repeat constructor].
Qed.

(** The pieces of a list of quoted items written with a comma and a
    blank between them. *)
Lemma split_on_join (x : jsstring) (l : list jsstring) :
  Forall (fun y => Forall (fun c => N.eqb 44 c = false) y) (x :: l) ->
  split_on 44%N (join (u ", ") (map quoted (x :: l)))
  = quoted x :: map (fun y => 32%N :: quoted y) l.
Proof.
  revert x. induction l as [|y l IH]; intros x H;
    inversion H as [|? ? Hx Hl]; subst.
  - cbn [map join]. apply split_on_free, quoted_free, Hx.
  - change (join (u ", ") (map quoted (x :: y :: l)))
      with (quoted x ++ 44%N :: 32%N :: join (u ", ") (map quoted (y :: l))).
    rewrite split_on_app by (apply quoted_free, Hx).
    cbn [split_on]. change (N.eqb 32 44) with false. cbv iota.
    rewrite (IH y Hl). reflexivity.
Qed.

Lemma trim_quoted (x : jsstring) : trim (quoted x) = quoted x.
Proof.
  unfold trim. rewrite (trimStart_of_clean (quoted x)) by reflexivity.
  apply trimEnd_of_clean. unfold ends_clean, quoted. cbn [rev].
  rewrite rev_app_distr. reflexivity.
Qed.

Lemma trim_blank_quoted (x : jsstring) : trim (32%N :: quoted x) = quoted x.
Proof. exact (trim_quoted x). Qed.

(** Behind the opening quote, the pattern of [extractArray] matches the
    closing quote and nothing before it. *)
Lemma strip_closing_quote (input x : jsstring) :
  forall fuel i b, (length x < fuel)%nat ->
    replace_loop fuel re_wrapping_quote (fun _ _ => []) input i (Some b)
      (x ++ [DQUOTE])
    = x.
Proof.
  induction x as [|c x IH]; intros fuel i b L.
  - destruct fuel as [|fuel]; [cbn in L; lia|].
    cbn [app replace_loop].
    change (search re_wrapping_quote i (Some b) [DQUOTE])
      with (Some (i, MState (S i) (Some DQUOTE) [] [])).
    cbv zeta. cbn [pos]. rewrite Nat.sub_diag.
    destruct (Nat.eqb_spec (S i) i) as [Q|_]; [lia|].
    replace (S i - i)%nat with 1%nat by lia. cbn [firstn skipn app].
    destruct fuel; reflexivity.
  - cbn [app]. rewrite replace_loop_shift.
    + f_equal. apply IH. cbn in L. lia.
    + destruct (x ++ [DQUOTE]) as [|d t] eqn:E;
        [destruct x; discriminate|].
      cbn. destruct (_ || _); reflexivity.
Qed.

Lemma strip_quotes (x : jsstring) :
  replace_all_with re_wrapping_quote [] (quoted x) = x.
Proof.
  unfold replace_all_with, replace_all, quoted.
  remember (length (DQUOTE :: x ++ [DQUOTE])) as n eqn:N.
  cbn [replace_loop].
  change (search re_wrapping_quote 0 None (DQUOTE :: x ++ [DQUOTE]))
    with (Some (0%nat, MState 1 (Some DQUOTE) (x ++ [DQUOTE]) [])).
  cbv zeta. cbn [pos Nat.eqb Nat.sub firstn skipn app last_unit rev].
  apply strip_closing_quote. subst n. cbn [length].
  rewrite length_app. cbn. lia.
Qed.

Lemma filter_nonempty (l : list jsstring) :
  Forall (fun x => x <> []) l -> filter nonempty l = l.
Proof.
  induction l as [|x l IH]; intros H; [reflexivity|].
  inversion H as [|? ? Hx Hl]; subst. cbn [filter].
  destruct x as [|c x]; [contradiction|]. cbn [nonempty].
  rewrite (IH Hl). reflexivity.
Qed.

(** X21: [extractArray] reads back a list of texts that is written as
    quoted items with a comma and a blank between them, provided that no
    item is empty and no item holds a comma. *)
Theorem extractArray_round_trip (l : list jsstring) :
  Forall (fun x => x <> [] /\ includes x (u ",") = false) l ->
  extractArray (Some (join (u ", ") (map quoted l))) = l.
Proof.
  intros H. destruct l as [|x l]; [reflexivity|].
  assert (F : Forall (fun y => Forall (fun c => N.eqb 44 c = false) y)
                (x :: l)).
  { eapply Forall_impl; [|exact H]. intros y [_ I].
    apply includes_unit, I. }
  assert (N : Forall (fun y => y <> []) (x :: l)).
  { eapply Forall_impl; [|exact H]. intros y [I _]. exact I. }
  unfold extractArray. rewrite (split_on_join F). cbn [map].
  rewrite trim_quoted, strip_quotes, map_map.
  rewrite (map_ext (fun y => replace_all_with re_wrapping_quote []
                               (trim (32%N :: quoted y))) (fun y => y))
    by (intros y; rewrite trim_blank_quoted; apply strip_quotes).
  rewrite map_id. apply (filter_nonempty N).
Qed.

Lemma extractArray_round_trip_witness :
  extractArray (Some (j "'sorting', 'it's fast', 'O(n log n)'"))
  = [u "sorting"; j "it's fast"; u "O(n log n)"].
Proof.
  apply (@extractArray_round_trip
           [u "sorting"; j "it's fast"; u "O(n log n)"]).
  repeat constructor; try discriminate.
Defined.
